(** * DavidsApp: fitness questionnaire and gamified habit tracker

    A shallow embedding of the two TypeScript programs of the repository,
    and the properties of their mission generator, prioritizer and
    progress ledger.

    - [FitnessQuestionnaire] embeds the command-line questionnaire
      (class [FitnessQuestionnaire]): [generateMissions] and the private
      helpers it calls.
    - [HealthVitalityApp] embeds the in-memory gamified prototype
      (class [HealthVitalityApp] of [fitness_goal_setter.ts]).
    - [QuestionnaireInput] embeds the prompts of the questionnaire
      ([askNumber], [askChoice], [collectBaseline], [collectGoals], [run])
      over the lines of the console.
    - [HealthVitalityReport] embeds the survey questions and the goal
      progress of the report.

    Conventions of the embedding.
    - A JavaScript [number] that the questionnaire reads with [askNumber]
      is finite (the prompt loops until [parseFloat] gives a non-NaN value
      inside the asked range), so it is a rational [Q]; arithmetic is exact,
      binary rounding is not modelled.
    - Counters that only ever hold integers ([level], [xp], [coins],
      the literal minutes of the gamified missions) are [Z].
    - [Date] values are [Z] (milliseconds since the epoch); the reading of
      the clock is an explicit argument of every operation that calls
      [new Date()] or [Date.now()].
    - [Math.random()] is an explicit argument whose type carries the
      contract of the built-in: a rational in the interval [0, 1). *)

From Stdlib Require Import ZArith QArith Qminmax Qround Qabs List Sorted.
From stdpp Require Import base decidable option list strings gmap pretty.

Local Open Scope string_scope.
Local Open Scope list_scope.

(** ** Shared arithmetic helpers *)

(** [a > b] and [a < b] on finite numbers. *)
Definition Qgtb (a b : Q) : bool := negb (Qle_bool a b).
Definition Qltb (a b : Q) : bool := negb (Qle_bool b a).

(** [Array.prototype.sort] with a comparator: the sort is stable, and an
    element [x] stays in front of a later element [y] unless
    [compareFn x y > 0]. *)
Fixpoint sort_insert {A} (compareFn : A -> A -> Z) (x : A) (l : list A) : list A :=
  match l with
  | [] => [x]
  | y :: rest =>
      if (compareFn x y <=? 0)%Z then x :: y :: rest
      else y :: sort_insert compareFn x rest
  end.

Fixpoint Array_sort {A} (compareFn : A -> A -> Z) (l : list A) : list A :=
  match l with
  | [] => []
  | x :: rest => sort_insert compareFn x (Array_sort compareFn rest)
  end.

(** [Array.prototype.indexOf]: position of the first occurrence, [-1] when
    there is none. *)
Fixpoint indexOf_from {A} `{EqDecision A} (l : list A) (x : A) (i : Z) : Z :=
  match l with
  | [] => (-1)%Z
  | y :: rest => if bool_decide (y = x) then i else indexOf_from rest x (i + 1)%Z
  end.

Definition indexOf {A} `{EqDecision A} (l : list A) (x : A) : Z :=
  indexOf_from l x 0%Z.

(** [Array.prototype.includes] on an array of strings. *)
Definition includes (l : list string) (s : string) : bool :=
  bool_decide (s ∈ l).

(** ** The command-line questionnaire *)

Module FitnessQuestionnaire.

Inductive ActivityLevel :=
  sedentary | lightly_active | moderately_active | very_active | extremely_active.

Inductive Experience := beginner | intermediate | advanced.

Inductive Budget := budget_none | budget_low | budget_moderate | budget_high.

Inductive PrimaryGoal :=
  | weight_loss | muscle_gain | strength_goal
  | endurance_goal | flexibility_goal | general_fitness.

Inductive Priority := priority_high | priority_medium | priority_low.

Inductive Category := strength | cardio | flexibility | recovery | nutrition.

Inductive Difficulty := easy | medium | hard.

#[global] Instance Category_eq_dec : EqDecision Category.
Proof. solve_decision. Defined.

#[global] Instance Experience_eq_dec : EqDecision Experience.
Proof. solve_decision. Defined.

#[global] Instance PrimaryGoal_eq_dec : EqDecision PrimaryGoal.
Proof. solve_decision. Defined.

#[global] Instance Difficulty_eq_dec : EqDecision Difficulty.
Proof. solve_decision. Defined.

Record FitnessBaseline := {
  currentWeight : Q;
  height : Q;
  age : Q;
  activityLevel : ActivityLevel;
  workoutFrequency : Q;
  workoutDuration : Q;
  fitnessExperience : Experience;
  preferredActivities : list string;
  currentStrengthLevel : Q;
  currentEnduranceLevel : Q;
  currentFlexibilityLevel : Q;
  timeAvailable : Q;
  budget : Budget;
  equipment : list string;
  limitations : list string;
  motivation : Q
}.

Record FitnessGoals := {
  targetWeight : option Q;
  primaryGoal : PrimaryGoal;
  targetStrengthLevel : Q;
  targetEnduranceLevel : Q;
  targetFlexibilityLevel : Q;
  timeframe : Q;
  priority : Priority;
  specificTargets : list string
}.

(** One line of instructions.  [Minutes d s] is the template literal
    [`${d}` ++ s], kept symbolic so that no number formatting is fixed. *)
Inductive Line :=
  | Text (s : string)
  | Minutes (duration : Q) (suffix : string).

Record DailyMission := {
  id : string;
  title : string;
  description : string;
  category : Category;
  difficulty : Difficulty;
  estimatedTime : Q;
  mission_equipment : list string;
  instructions : list Line
}.

Definition getStrengthInstructions (experience : Experience) (equipment : list string)
  : list Line :=
  if includes equipment "gym_access" then
    if bool_decide (experience = beginner) then
      [ Text "Focus on compound movements:";
        Text "- Goblet squats: 3 sets x 8-12 reps";
        Text "- Assisted pull-ups or lat pulldowns: 3 sets x 5-10 reps";
        Text "- Dumbbell bench press: 3 sets x 8-12 reps";
        Text "- Plank: 3 sets x 20-30 seconds";
        Text "Rest 60-90 seconds between sets" ]
    else
      [ Text "Compound strength training:";
        Text "- Squats: 4 sets x 6-8 reps";
        Text "- Deadlifts: 4 sets x 5-6 reps";
        Text "- Bench press: 4 sets x 6-8 reps";
        Text "- Rows: 4 sets x 8-10 reps";
        Text "Rest 2-3 minutes between sets" ]
  else
    [ Text "Home strength circuit:";
      Text "- Push-up variations: 3 sets x 8-15 reps";
      Text "- Dumbbell squats: 3 sets x 12-15 reps";
      Text "- Dumbbell rows: 3 sets x 10-12 reps";
      Text "- Overhead press: 3 sets x 8-12 reps";
      Text "Rest 60 seconds between sets" ].

(** The two cardio plans, as functions of the duration printed in their
    first line. *)
Definition walkingIntervalPlan (duration : Q) : list Line :=
  [ Minutes duration "-minute beginner cardio:";
    Text "- 5 minutes easy walking";
    Text "- Alternate 1 minute brisk walk, 1 minute easy walk";
    Text "- End with 5 minutes easy walking";
    Text "- Focus on breathing and form over speed" ].

Definition structuredIntervalPlan (duration : Q) : list Line :=
  [ Minutes duration "-minute cardio session:";
    Text "- 5 minute warm-up";
    Text "- High-intensity intervals: 30 seconds work, 90 seconds rest";
    Text "- Repeat for main portion of workout";
    Text "- 5 minute cool-down";
    Text "- Monitor heart rate if possible" ].

Definition getCardioInstructions (enduranceLevel duration : Q) : list Line :=
  if Qltb enduranceLevel 4 then walkingIntervalPlan duration
  else structuredIntervalPlan duration.

(** [missions.reduce((sum, mission) => sum + mission.estimatedTime, 0)] *)
Definition totalTime (missions : list DailyMission) : Q :=
  fold_left (fun sum mission => (sum + estimatedTime mission)%Q) missions 0%Q.

(** [currentTime] after a scan that started at [start] and kept [missions]. *)
Definition runningTime (start : Q) (missions : list DailyMission) : Q :=
  fold_left (fun sum mission => (sum + estimatedTime mission)%Q) missions start.

Definition priorityOrder (goal : PrimaryGoal) : list Category :=
  match goal with
  | weight_loss => [cardio; strength; recovery; flexibility]
  | muscle_gain => [strength; recovery; flexibility; cardio]
  | strength_goal => [strength; recovery; flexibility; cardio]
  | endurance_goal => [cardio; flexibility; recovery; strength]
  | flexibility_goal => [flexibility; recovery; strength; cardio]
  | general_fitness => [strength; cardio; flexibility; recovery]
  end.

(** The comparator handed to [sort]. *)
Definition byPriority (order : list Category) (a b : DailyMission) : Z :=
  (indexOf order (category a) - indexOf order (category b))%Z.

(** [missions.sort(...)] of [prioritizeMissions]. *)
Definition sortMissions (goals : FitnessGoals) (missions : list DailyMission)
  : list DailyMission :=
  Array_sort (byPriority (priorityOrder (primaryGoal goals))) missions.

(** The [filter] callback of [prioritizeMissions], with the captured
    variable [currentTime] threaded through the scan. *)
Fixpoint keepWithin (limit currentTime : Q) (missions : list DailyMission)
  : list DailyMission :=
  match missions with
  | [] => []
  | mission :: rest =>
      if Qle_bool (currentTime + estimatedTime mission) limit
      then mission :: keepWithin limit (currentTime + estimatedTime mission)%Q rest
      else keepWithin limit currentTime rest
  end.

Definition prioritizeMissions (missions : list DailyMission)
    (baseline : FitnessBaseline) (goals : FitnessGoals) : list DailyMission :=
  if Qgtb (totalTime missions) (timeAvailable baseline) then
    keepWithin (timeAvailable baseline) 0%Q (sortMissions goals missions)
  else missions.

Definition strengthMission (baseline : FitnessBaseline) : DailyMission :=
  if includes (equipment baseline) "gym_access"
     || includes (equipment baseline) "home_equipment"
  then
    {| id := "strength_001";
       title := "Strength Training Session";
       description :=
         "Complete a focused strength training workout targeting major muscle groups";
       category := strength;
       difficulty :=
         if bool_decide (fitnessExperience baseline = beginner) then easy else medium;
       estimatedTime := Qmin (timeAvailable baseline * 0.7) 45;
       mission_equipment :=
         if includes (equipment baseline) "gym_access"
         then ["gym_access"] else ["home_equipment"];
       instructions :=
         getStrengthInstructions (fitnessExperience baseline) (equipment baseline) |}
  else
    {| id := "strength_002";
       title := "Bodyweight Strength Circuit";
       description := "Build strength using bodyweight exercises";
       category := strength;
       difficulty := easy;
       estimatedTime := 20;
       mission_equipment := ["bodyweight_only"];
       instructions :=
         [ Text "Perform 3 rounds of:";
           Text "- 10 Push-ups (modify as needed)";
           Text "- 15 Squats";
           Text "- 30-second Plank";
           Text "- 10 Lunges per leg";
           Text "Rest 60 seconds between rounds" ] |}.

Definition cardioMission (baseline : FitnessBaseline) : DailyMission :=
  let cardioTime := Qmin (timeAvailable baseline * 0.6) 30 in
  {| id := "cardio_001";
     title := "Cardiovascular Training";
     description := "Improve heart health and endurance";
     category := cardio;
     difficulty := if Qltb (currentEnduranceLevel baseline) 5 then easy else medium;
     estimatedTime := cardioTime;
     mission_equipment := ["bodyweight_only"];
     instructions := getCardioInstructions (currentEnduranceLevel baseline) cardioTime |}.

Definition flexibilityMission : DailyMission :=
  {| id := "flexibility_001";
     title := "Flexibility & Mobility";
     description := "Improve flexibility and reduce muscle tension";
     category := flexibility;
     difficulty := easy;
     estimatedTime := 15;
     mission_equipment := ["bodyweight_only"];
     instructions :=
       [ Text "Hold each stretch for 30 seconds:";
         Text "- Neck rolls and shoulder shrugs";
         Text "- Arm circles and chest stretch";
         Text "- Hip circles and leg swings";
         Text "- Hamstring and calf stretches";
         Text "- Spinal twists (seated or standing)" ] |}.

Definition recoveryMission : DailyMission :=
  {| id := "recovery_001";
     title := "Active Recovery";
     description := "Promote recovery and prepare for next workout";
     category := recovery;
     difficulty := easy;
     estimatedTime := 10;
     mission_equipment := ["bodyweight_only"];
     instructions :=
       [ Text "- 5 minutes gentle walking";
         Text "- Deep breathing exercises (4-7-8 pattern)";
         Text "- Gentle stretching focusing on worked muscles";
         Text "- Hydrate well";
         Text "- Note how you feel in a fitness journal" ] |}.

(** [missions.push(m)] when [cond] holds. *)
Definition pushIf {A} (cond : bool) (m : A) (missions : list A) : list A :=
  if cond then missions ++ [m] else missions.

(** The body of [generateMissions] up to its [return]: the array
    [missions] after the four rules have run. *)
Definition candidateMissions (baseline : FitnessBaseline) (goals : FitnessGoals)
  : list DailyMission :=
  let strengthGap := (targetStrengthLevel goals - currentStrengthLevel baseline)%Q in
  let enduranceGap := (targetEnduranceLevel goals - currentEnduranceLevel baseline)%Q in
  let flexibilityGap :=
    (targetFlexibilityLevel goals - currentFlexibilityLevel baseline)%Q in
  let missions := [] in
  let missions := pushIf (Qgtb strengthGap 0) (strengthMission baseline) missions in
  let missions :=
    pushIf (Qgtb enduranceGap 0 || bool_decide (primaryGoal goals = weight_loss))
           (cardioMission baseline) missions in
  let missions := pushIf (Qgtb flexibilityGap 0) flexibilityMission missions in
  let missions :=
    pushIf (bool_decide (fitnessExperience baseline = beginner)
            || (1 <? Z.of_nat (length missions))%Z)
           recoveryMission missions in
  missions.

Definition generateMissions (baseline : FitnessBaseline) (goals : FitnessGoals)
  : list DailyMission :=
  prioritizeMissions (candidateMissions baseline goals) baseline goals.

End FitnessQuestionnaire.

(** ** The gamified habit tracker *)

Module HealthVitalityApp.

Local Open Scope Z_scope.

(** *** Numbers, values and dates *)

(** A [number] as it comes out of a survey response: the survey values are
    not range-checked, so NaN and the infinities are values too. *)
Inductive jsnum := JNaN | JNegInf | JFin (q : Q) | JPosInf.

(** Truthiness of a number: [0], [-0] and [NaN] are falsy. *)
Definition js_truthy (n : jsnum) : bool :=
  match n with
  | JNaN => false
  | JFin q => negb (Qeq_bool q 0)
  | JNegInf | JPosInf => true
  end.

(** [n || d] on numbers. *)
Definition js_or (n d : jsnum) : jsnum := if js_truthy n then n else d.

(** [a < b] and [a > b]; every comparison with NaN is false. *)
Definition js_ltb (a b : jsnum) : bool :=
  match a, b with
  | JNaN, _ | _, JNaN => false
  | JNegInf, JNegInf => false
  | JNegInf, _ => true
  | JFin _, JNegInf => false
  | JFin x, JFin y => Qltb x y
  | JFin _, JPosInf => true
  | JPosInf, _ => false
  end.

Definition js_gtb (a b : jsnum) : bool := js_ltb b a.

(** [SurveyResponse.value : number | string | boolean] *)
Inductive Value :=
  | VNumber (n : jsnum)
  | VString (s : string)
  | VBoolean (b : bool).

Abbreviation Date := Z.

(** *** Interfaces *)

Record SurveyResponse := {
  questionId : string;
  value : Value;
  timestamp : Date
}.

Record GoalTimeframe := {
  threeMonths : jsnum;
  sixMonths : jsnum;
  oneYear : jsnum;
  fiveYears : jsnum;
  tenYears : jsnum
}.

Record UserBaseline := {
  energyLevel : jsnum;
  physicalFitness : jsnum;
  strength : jsnum;
  flexibility : jsnum;
  weight : jsnum;
  height : jsnum;
  nutritionQuality : jsnum;
  hydration : jsnum;
  sleepQuality : jsnum;
  stressManagement : jsnum;
  currentChallenges : list string
}.

Record UserGoals := {
  goal_energyLevel : GoalTimeframe;
  goal_physicalFitness : GoalTimeframe;
  goal_weight : GoalTimeframe;
  customGoals : gmap string GoalTimeframe
}.

Inductive Difficulty := easy | medium | hard.

Inductive MissionType := habit | challenge | milestone.

Record DailyMission := {
  id : string;
  title : string;
  description : string;
  category : string;
  difficulty : Difficulty;
  xpReward : Z;
  coinReward : Z;
  estimatedTime : Z;
  mission_type : MissionType;
  isCompleted : bool;
  mission_streak : option Z
}.

Inductive RequirementType := streak | total_missions | category_progress | goal_reached.

Record Requirement := {
  req_type : RequirementType;
  req_value : Z;
  req_category : option string
}.

Record Achievement := {
  ach_id : string;
  ach_title : string;
  ach_description : string;
  icon : string;
  ach_xpReward : Z;
  unlockedAt : option Date;
  requirements : list Requirement
}.

Record UserProgress := {
  level : Z;
  xp : Z;
  coins : Z;
  streaks : gmap string Z;
  completedMissions : list string;
  unlockedAchievements : list string;
  lastActive : Date
}.

Record User := {
  user_id : string;
  name : string;
  baseline : UserBaseline;
  goals : UserGoals;
  progress : UserProgress;
  surveyResponses : list SurveyResponse;
  createdAt : Date;
  updatedAt : Date
}.

(** The fields of a [HealthVitalityApp] instance. *)
Record App := {
  users : gmap string User;
  achievements : list Achievement;
  missionTemplates : list DailyMission
}.

(** What a call gives back: a value, or a thrown [Error] with its message
    (for the [async] methods: a resolved or a rejected promise). *)
Inductive Outcome (A : Type) :=
  | Returned (a : A)
  | Thrown (message : string).
Arguments Returned {A} a.
Arguments Thrown {A} message.

(** *** Initialization *)

Definition initializeAchievements : list Achievement :=
  [ {| ach_id := "first_mission";
       ach_title := "🎯 First Steps";
       ach_description := "Complete your first daily mission";
       icon := "🎯";
       ach_xpReward := 50;
       unlockedAt := None;
       requirements :=
         [ {| req_type := total_missions; req_value := 1; req_category := None |} ] |};
    {| ach_id := "week_warrior";
       ach_title := "⚔️ Week Warrior";
       ach_description := "Complete missions for 7 days straight";
       icon := "⚔️";
       ach_xpReward := 200;
       unlockedAt := None;
       requirements :=
         [ {| req_type := streak; req_value := 7; req_category := Some "daily" |} ] |};
    {| ach_id := "fitness_fanatic";
       ach_title := "💪 Fitness Fanatic";
       ach_description := "Complete 20 fitness missions";
       icon := "💪";
       ach_xpReward := 300;
       unlockedAt := None;
       requirements :=
         [ {| req_type := category_progress; req_value := 20;
              req_category := Some "fitness" |} ] |};
    {| ach_id := "level_10";
       ach_title := "🌟 Rising Star";
       ach_description := "Reach level 10";
       icon := "🌟";
       ach_xpReward := 500;
       unlockedAt := None;
       requirements :=
         [ {| req_type := goal_reached; req_value := 10; req_category := None |} ] |} ].

(** [new HealthVitalityApp()] *)
Definition newApp : App :=
  {| users := ∅; achievements := initializeAchievements; missionTemplates := [] |}.

Definition getUser (app : App) (userId : string) : option User :=
  users app !! userId.

(** *** Survey processing *)

Section Survey.

(** The built-in conversion of a string to a number ([Number(s)] for a
    string [s]) is the host language's; it is a parameter here. *)
Variable StringToNumber : string -> jsnum.

(** [Number(x)] for [x : number | string | boolean | undefined]. *)
Definition Number (x : option Value) : jsnum :=
  match x with
  | None => JNaN
  | Some (VNumber n) => n
  | Some (VString s) => StringToNumber s
  | Some (VBoolean b) => JFin (if b then 1 else 0)%Q
  end.

(** [new Map(responses.map(r => [r.questionId, r.value]))]: the entries
    are set in order, so a later response overrides an earlier one. *)
Definition responseMap (responses : list SurveyResponse) : gmap string Value :=
  fold_left (fun m r => <[questionId r := value r]> m) responses ∅.

(** [Number(responseMap.get(key)) || fallback] *)
Definition numberOr (m : gmap string Value) (key : string) (fallback : Q) : jsnum :=
  js_or (Number (m !! key)) (JFin fallback).

Definition processSurveyResponses (userId : string) (responses : list SurveyResponse)
  : UserBaseline :=
  let responseMap := responseMap responses in
  {| energyLevel := numberOr responseMap "baseline_energy" 1;
     physicalFitness := numberOr responseMap "baseline_fitness" 1;
     strength := numberOr responseMap "baseline_strength" 1;
     flexibility := numberOr responseMap "baseline_flexibility" 1;
     weight := numberOr responseMap "current_weight" 0;
     height := numberOr responseMap "height" 0;
     nutritionQuality := numberOr responseMap "baseline_nutrition" 1;
     hydration := numberOr responseMap "baseline_hydration" 1;
     sleepQuality := numberOr responseMap "baseline_sleep" 1;
     stressManagement := numberOr responseMap "stress_level" 1;
     currentChallenges := [] |}.

Definition processGoals (responses : list SurveyResponse) : UserGoals :=
  let responseMap := responseMap responses in
  {| goal_energyLevel :=
       {| threeMonths := numberOr responseMap "goal_energy_3m" 5;
          sixMonths := numberOr responseMap "goal_energy_6m" 6;
          oneYear := numberOr responseMap "goal_energy_1y" 7;
          fiveYears := numberOr responseMap "goal_energy_5y" 8;
          tenYears := numberOr responseMap "goal_energy_10y" 8 |};
     goal_physicalFitness :=
       {| threeMonths := numberOr responseMap "goal_fitness_3m" 5;
          sixMonths := numberOr responseMap "goal_fitness_6m" 6;
          oneYear := numberOr responseMap "goal_fitness_1y" 7;
          fiveYears := numberOr responseMap "goal_fitness_5y" 8;
          tenYears := numberOr responseMap "goal_fitness_10y" 8 |};
     goal_weight :=
       {| threeMonths := numberOr responseMap "goal_weight_3m" 0;
          sixMonths := numberOr responseMap "goal_weight_6m" 0;
          oneYear := numberOr responseMap "goal_weight_1y" 0;
          fiveYears := numberOr responseMap "goal_weight_5y" 0;
          tenYears := numberOr responseMap "goal_weight_10y" 0 |};
     customGoals := ∅ |}.

(** *** User management *)

(** [createUser]; the generated key [userId] (built from the clock and the
    random generator) is an argument. *)
Definition createUser (app : App) (userId : string) (name : string)
    (surveyResponses : list SurveyResponse) (now : Date) : App * User :=
  let user :=
    {| user_id := userId;
       name := name;
       baseline := processSurveyResponses userId surveyResponses;
       goals := processGoals surveyResponses;
       progress :=
         {| level := 1;
            xp := 0;
            coins := 100;
            streaks := ∅;
            completedMissions := [];
            unlockedAchievements := [];
            lastActive := now |};
       surveyResponses := surveyResponses;
       createdAt := now;
       updatedAt := now |} in
  ({| users := <[userId := user]> (users app);
      achievements := achievements app;
      missionTemplates := missionTemplates app |},
   user).

End Survey.

(** *** Daily mission generation *)

(** One result of [Math.random()]: a number in the interval [0, 1). *)
Record RandomDraw := {
  draw : Q;
  draw_range : Qle_bool 0 draw && Qltb draw 1 = true
}.

(** [Math.floor(Math.random() * n)] *)
Definition randomIndex (r : RandomDraw) (n : nat) : nat :=
  Z.to_nat (Qfloor (draw r * inject_Z (Z.of_nat n))).

(** [pool[Math.floor(Math.random() * pool.length)]] for the array literal
    [first :: others]; [randomIndex_lt] shows that the index is always
    inside the array. *)
Definition pick {A} (r : RandomDraw) (first : A) (others : list A) : A :=
  nth (randomIndex r (length (first :: others))) (first :: others) first.

(** The anonymous objects of the mission pools. *)
Record Flavor := {
  f_title : string;
  f_description : string;
  f_difficulty : Difficulty;
  f_estimatedTime : Z
}.

(** [d === 'easy' ? e : d === 'medium' ? m : h] *)
Definition byDifficulty {A} (d : Difficulty) (e m h : A) : A :=
  match d with easy => e | medium => m | hard => h end.

(** [`${prefix}${Date.now()}`] *)
Definition stamped (prefix : string) (now : Date) : string := prefix +:+ pretty now.

Definition createEnergyMission (user : User) (now : Date) (r : RandomDraw) : DailyMission :=
  let mission :=
    pick r
      {| f_title := "🌅 Morning Energizer";
         f_description := "Do 10 jumping jacks within 30 minutes of waking up";
         f_difficulty := easy;
         f_estimatedTime := 2 |}
      [ {| f_title := "💧 Hydration Boost";
           f_description := "Drink a full glass of water before each meal";
           f_difficulty := easy;
           f_estimatedTime := 1 |};
        {| f_title := "🚶‍♂️ Energy Walk";
           f_description := "Take a 15-minute walk outdoors";
           f_difficulty := medium;
           f_estimatedTime := 15 |} ] in
  {| id := stamped "energy_" now;
     title := f_title mission;
     description := f_description mission;
     category := "energy";
     difficulty := f_difficulty mission;
     xpReward := byDifficulty (f_difficulty mission) 10 20 30;
     coinReward := byDifficulty (f_difficulty mission) 5 10 15;
     estimatedTime := f_estimatedTime mission;
     mission_type := habit;
     isCompleted := false;
     mission_streak := None |}.

Definition createFitnessMission (user : User) (now : Date) (r : RandomDraw) : DailyMission :=
  let currentLevel := physicalFitness (baseline user) in
  let mission :=
    pick r
      {| f_title := "💪 Strength Builder";
         f_description :=
           if js_ltb currentLevel (JFin 4)
           then "Do 5 push-ups (knee push-ups if needed)" else "Do 15 push-ups";
         f_difficulty := if js_ltb currentLevel (JFin 4) then easy else medium;
         f_estimatedTime := 3 |}
      [ {| f_title := "🏃‍♂️ Cardio Burst";
           f_description :=
             if js_ltb currentLevel (JFin 4)
             then "Walk briskly for 10 minutes" else "Run/jog for 15 minutes";
           f_difficulty := if js_ltb currentLevel (JFin 4) then easy else medium;
           f_estimatedTime := if js_ltb currentLevel (JFin 4) then 10 else 15 |};
        {| f_title := "🧘‍♀️ Flexibility Flow";
           f_description := "Do 5 minutes of stretching or yoga";
           f_difficulty := easy;
           f_estimatedTime := 5 |} ] in
  {| id := stamped "fitness_" now;
     title := f_title mission;
     description := f_description mission;
     category := "fitness";
     difficulty := f_difficulty mission;
     xpReward := byDifficulty (f_difficulty mission) 15 25 35;
     coinReward := byDifficulty (f_difficulty mission) 8 12 18;
     estimatedTime := f_estimatedTime mission;
     mission_type := habit;
     isCompleted := false;
     mission_streak := None |}.

Definition createNutritionMission (user : User) (now : Date) (r : RandomDraw)
  : DailyMission :=
  let mission :=
    pick r
      {| f_title := "🥗 Veggie Power";
         f_description := "Eat at least 3 servings of vegetables today";
         f_difficulty := medium;
         f_estimatedTime := 0 |}
      [ {| f_title := "🍎 Fruit First";
           f_description := "Eat a piece of fruit before lunch";
           f_difficulty := easy;
           f_estimatedTime := 5 |};
        {| f_title := "🚫 Skip the Processed";
           f_description := "Avoid processed snacks for the entire day";
           f_difficulty := hard;
           f_estimatedTime := 0 |} ] in
  {| id := stamped "nutrition_" now;
     title := f_title mission;
     description := f_description mission;
     category := "nutrition";
     difficulty := f_difficulty mission;
     xpReward := byDifficulty (f_difficulty mission) 12 22 32;
     coinReward := byDifficulty (f_difficulty mission) 6 11 16;
     estimatedTime := f_estimatedTime mission;
     mission_type := habit;
     isCompleted := false;
     mission_streak := None |}.

Definition createSleepMission (user : User) (now : Date) : DailyMission :=
  {| id := stamped "sleep_" now;
     title := "😴 Sleep Optimization";
     description := "Set a bedtime alarm and put away devices 1 hour before bed";
     category := "sleep";
     difficulty := medium;
     xpReward := 18;
     coinReward := 9;
     estimatedTime := 5;
     mission_type := habit;
     isCompleted := false;
     mission_streak := None |}.

Definition createStressMission (user : User) (now : Date) (r : RandomDraw) : DailyMission :=
  let mission :=
    pick r
      {| f_title := "🧘‍♂️ Mindful Moment";
         f_description := "Practice 5 minutes of deep breathing or meditation";
         f_difficulty := easy;
         f_estimatedTime := 5 |}
      [ {| f_title := "📝 Gratitude Practice";
           f_description := "Write down 3 things you're grateful for";
           f_difficulty := easy;
           f_estimatedTime := 3 |};
        {| f_title := "🎵 Stress Release";
           f_description := "Listen to calming music for 10 minutes";
           f_difficulty := easy;
           f_estimatedTime := 10 |} ] in
  {| id := stamped "stress_" now;
     title := f_title mission;
     description := f_description mission;
     category := "stress";
     difficulty := f_difficulty mission;
     xpReward := 10;
     coinReward := 5;
     estimatedTime := f_estimatedTime mission;
     mission_type := habit;
     isCompleted := false;
     mission_streak := None |}.

(** The variety pool: each object carries its own category. *)
Definition createVarietyMission (user : User) (now : Date) (r : RandomDraw)
  : DailyMission :=
  let mission :=
    pick r
      ({| f_title := "📚 Learn Something New";
          f_description := "Spend 10 minutes learning about health and wellness";
          f_difficulty := easy;
          f_estimatedTime := 10 |}, "learning")
      [ ({| f_title := "🌿 Nature Connection";
            f_description := "Spend 15 minutes in nature or by a window";
            f_difficulty := easy;
            f_estimatedTime := 15 |}, "wellness");
        ({| f_title := "🤝 Social Wellness";
            f_description := "Have a meaningful conversation with someone";
            f_difficulty := medium;
            f_estimatedTime := 20 |}, "social") ] in
  {| id := stamped "variety_" now;
     title := f_title mission.1;
     description := f_description mission.1;
     category := mission.2;
     difficulty := f_difficulty mission.1;
     xpReward := byDifficulty (f_difficulty mission.1) 8 15 25;
     coinReward := byDifficulty (f_difficulty mission.1) 4 7 12;
     estimatedTime := f_estimatedTime mission.1;
     mission_type := habit;
     isCompleted := false;
     mission_streak := None |}.

(** The array [missions] being built, and the number of [Math.random()]
    calls made so far.  The random generator is the stream [rand]: its
    [n]-th call returns [rand n]. *)
Definition Generation : Type := list DailyMission * nat.

(** [if (cond) missions.push(factory(user))] for a factory that draws one
    random number. *)
Definition pushDrawn (rand : nat -> RandomDraw) (cond : bool)
    (factory : RandomDraw -> DailyMission) (st : Generation) : Generation :=
  if cond then (st.1 ++ [factory (rand st.2)], S st.2) else st.

(** [while (missions.length < missionCount) missions.push(createVarietyMission(user))].
    Every round makes the array one longer, so at most [missionCount]
    rounds run; [fuel] bounds the number of rounds. *)
Fixpoint fillVariety (fuel : nat) (rand : nat -> RandomDraw) (user : User) (now : Date)
    (missionCount : Z) (st : Generation) : Generation :=
  match fuel with
  | O => st
  | S fuel' =>
      if (Z.of_nat (length st.1) <? missionCount)%Z then
        fillVariety fuel' rand user now missionCount
          (st.1 ++ [createVarietyMission user now (rand st.2)], S st.2)
      else st
  end.

(** [l.slice(0, e)] for an integer [e]: a negative [e] counts from the
    end of the array. *)
Definition slice0 {A} (l : list A) (e : Z) : list A :=
  if (e <? 0)%Z then take (Z.to_nat (Z.max (Z.of_nat (length l) + e) 0)) l
  else take (Z.to_nat e) l.

Definition missionCountOf (user : User) : Z :=
  Z.min (3 + level (progress user) / 5) 7.

(** The rule-driven part of [generateDailyMissions]: the array after the
    five [if] statements, in front of the [while] loop. *)
Definition ruleMissions (user : User) (now : Date) (rand : nat -> RandomDraw)
  : Generation :=
  let st : Generation := ([], O) in
  let st :=
    pushDrawn rand
      (js_gtb (threeMonths (goal_energyLevel (goals user)))
              (energyLevel (baseline user)))
      (createEnergyMission user now) st in
  let st :=
    pushDrawn rand
      (js_gtb (threeMonths (goal_physicalFitness (goals user)))
              (physicalFitness (baseline user)))
      (createFitnessMission user now) st in
  let st :=
    pushDrawn rand (js_ltb (nutritionQuality (baseline user)) (JFin 7))
      (createNutritionMission user now) st in
  let st :=
    if js_ltb (sleepQuality (baseline user)) (JFin 8)
    then (st.1 ++ [createSleepMission user now], st.2) else st in
  pushDrawn rand (js_ltb (stressManagement (baseline user)) (JFin 7))
    (createStressMission user now) st.

Definition generateDailyMissions (app : App) (userId : string) (now : Date)
    (rand : nat -> RandomDraw) : list DailyMission :=
  match getUser app userId with
  | None => []
  | Some user =>
      let missionCount := missionCountOf user in
      let st := ruleMissions user now rand in
      let st := fillVariety (Z.to_nat missionCount) rand user now missionCount st in
      slice0 st.1 missionCount
  end.

(** *** Mission completion and rewards *)

(** Assignments to [user.progress] and [user.updatedAt]. *)
Definition set_progress (user : User) (p : UserProgress) : User :=
  {| user_id := user_id user;
     name := name user;
     baseline := baseline user;
     goals := goals user;
     progress := p;
     surveyResponses := surveyResponses user;
     createdAt := createdAt user;
     updatedAt := updatedAt user |}.

Definition set_updatedAt (user : User) (now : Date) : User :=
  {| user_id := user_id user;
     name := name user;
     baseline := baseline user;
     goals := goals user;
     progress := progress user;
     surveyResponses := surveyResponses user;
     createdAt := createdAt user;
     updatedAt := now |}.

(** The four assignments at the head of [completeMission]. *)
Definition awardCompletion (user : User) (missionId : string) (now : Date) : User :=
  let xpGained := 20 in
  let coinsGained := 10 in
  let p := progress user in
  set_progress user
    {| level := level p;
       xp := xp p + xpGained;
       coins := coins p + coinsGained;
       streaks := streaks p;
       completedMissions := completedMissions p ++ [missionId];
       unlockedAchievements := unlockedAchievements p;
       lastActive := now |}.

Definition checkLevelUp (user : User) : User * bool :=
  let p := progress user in
  let xpRequired := level p * 100 in
  if xpRequired <=? xp p then
    let newLevel := level p + 1 in
    (set_progress user
       {| level := newLevel;
          xp := xp p;
          coins := coins p + newLevel * 10;
          streaks := streaks p;
          completedMissions := completedMissions p;
          unlockedAchievements := unlockedAchievements p;
          lastActive := lastActive p |},
     true)
  else (user, false).

(** [requirement.category || 'any']: a missing or empty category is ['any']. *)
Definition categoryOrAny (requirement : Requirement) : string :=
  match req_category requirement with
  | Some c => if bool_decide (c = "") then "any" else c
  | None => "any"
  end.

(** One round of the [switch] of [checkAchievements]: [false] when the
    round sets [requirementsMet = false].  The kinds without a [case]
    leave the flag alone. *)
Definition requirementHolds (user : User) (requirement : Requirement) : bool :=
  match req_type requirement with
  | total_missions =>
      negb (Z.of_nat (length (completedMissions (progress user)))
            <? req_value requirement)
  | streak =>
      let categoryStreak :=
        default 0 (streaks (progress user) !! categoryOrAny requirement) in
      negb (categoryStreak <? req_value requirement)
  | category_progress | goal_reached => true
  end.

Definition unlock (user : User) (achievement : Achievement) : User :=
  let p := progress user in
  set_progress user
    {| level := level p;
       xp := xp p + ach_xpReward achievement;
       coins := coins p;
       streaks := streaks p;
       completedMissions := completedMissions p;
       unlockedAchievements := unlockedAchievements p ++ [ach_id achievement];
       lastActive := lastActive p |}.

Definition stampUnlocked (achievement : Achievement) (now : Date) : Achievement :=
  {| ach_id := ach_id achievement;
     ach_title := ach_title achievement;
     ach_description := ach_description achievement;
     icon := icon achievement;
     ach_xpReward := ach_xpReward achievement;
     unlockedAt := Some now;
     requirements := requirements achievement |}.

(** The state of the loop of [checkAchievements]: the user, the
    achievements of the app already visited (with their new stamps) and
    [newAchievements]. *)
Record AchievementScan := {
  scan_user : User;
  scan_visited : list Achievement;
  scan_new : list Achievement
}.

(** The body of the [for ... of this.achievements] loop. *)
Definition checkAchievement (now : Date) (st : AchievementScan)
    (achievement : Achievement) : AchievementScan :=
  let user := scan_user st in
  if includes (unlockedAchievements (progress user)) (ach_id achievement) then
    {| scan_user := user;
       scan_visited := scan_visited st ++ [achievement];
       scan_new := scan_new st |}
  else if forallb (requirementHolds user) (requirements achievement) then
    {| scan_user := unlock user achievement;
       scan_visited := scan_visited st ++ [stampUnlocked achievement now];
       scan_new := scan_new st ++ [stampUnlocked achievement now] |}
  else
    {| scan_user := user;
       scan_visited := scan_visited st ++ [achievement];
       scan_new := scan_new st |}.

Definition checkAchievements (all : list Achievement) (user : User) (now : Date)
  : AchievementScan :=
  fold_left (checkAchievement now) all
    {| scan_user := user; scan_visited := []; scan_new := [] |}.

(** [completeMission], with the list [newAchievements] that
    [checkAchievements] returns (and [completeMission] drops) kept as a
    third component, for the statements about rewards. *)
Definition completeMission_trace (app : App) (userId missionId : string) (now : Date)
  : App * bool * list Achievement :=
  match getUser app userId with
  | None => (app, false, [])
  | Some user =>
      let user := awardCompletion user missionId now in
      let user := (checkLevelUp user).1 in
      let scan := checkAchievements (achievements app) user now in
      let user := set_updatedAt (scan_user scan) now in
      ({| users := <[userId := user]> (users app);
          achievements := scan_visited scan;
          missionTemplates := missionTemplates app |},
       true, scan_new scan)
  end.

Definition completeMission (app : App) (userId missionId : string) (now : Date)
  : App * bool :=
  (completeMission_trace app userId missionId now).1.

(** *** Progress tracking *)

(** The report of [getProgressReport], without its [goalProgress] field
    (two floating-point percentages that nothing here reads). *)
Record ProgressReport := {
  report_name : string;
  report_level : Z;
  report_xp : Z;
  report_coins : Z;
  daysSinceStart : Z;
  totalMissionsCompleted : nat;
  achievementsUnlocked : nat;
  currentStreaks : gmap string Z;
  recentAchievements : list Achievement
}.

(** [l.slice(-3)] *)
Definition lastThree {A} (l : list A) : list A := drop (length l - 3)%nat l.

Definition getProgressReport (app : App) (userId : string) (now : Date)
  : option ProgressReport :=
  match getUser app userId with
  | None => None
  | Some user =>
      Some
        {| report_name := name user;
           report_level := level (progress user);
           report_xp := xp (progress user);
           report_coins := coins (progress user);
           daysSinceStart := (now - createdAt user) / (1000 * 60 * 60 * 24);
           totalMissionsCompleted := length (completedMissions (progress user));
           achievementsUnlocked := length (unlockedAchievements (progress user));
           currentStreaks := streaks (progress user);
           recentAchievements :=
             lastThree
               (List.filter
                  (fun a => includes (unlockedAchievements (progress user)) (ach_id a))
                  (achievements app)) |}
  end.

(** *** API methods *)



Record CompletionResult := {
  success : bool;
  newProgress : option ProgressReport;
  newAchievements : list Achievement
}.

Definition completeMissionAPI (app : App) (userId missionId : string) (now : Date)
  : App * Outcome CompletionResult :=
  let '(app', success) := completeMission app userId missionId now in
  if negb success then (app', Thrown "Failed to complete mission")
  else
    (app',
     Returned
       {| success := true;
          newProgress := getProgressReport app' userId now;
          newAchievements := [] |}).



(** *** Runs of the app *)

(** The states an app object goes through: it starts as [newApp] and is
    written to by [createUser] and [completeMission] only (the API methods
    go through these two). *)
Inductive reachable (StringToNumber : string -> jsnum) : App -> Prop :=
  | reachable_new : reachable StringToNumber newApp
  | reachable_createUser app userId name responses now :
      reachable StringToNumber app ->
      reachable StringToNumber
        (createUser StringToNumber app userId name responses now).1
  | reachable_completeMission app userId missionId now :
      reachable StringToNumber app ->
      reachable StringToNumber (completeMission app userId missionId now).1.

(** An achievement without its unlock stamp: its static definition. *)
Definition clearStamp (achievement : Achievement) : Achievement :=
  {| ach_id := ach_id achievement;
     ach_title := ach_title achievement;
     ach_description := ach_description achievement;
     icon := icon achievement;
     ach_xpReward := ach_xpReward achievement;
     unlockedAt := None;
     requirements := requirements achievement |}.

(** The experience that a list of unlocked achievements is worth. *)
Definition rewardsOf (unlocked : list Achievement) : Z :=
  foldr (fun achievement sum => ach_xpReward achievement + sum) 0 unlocked.

(** What one scan does to the user: nothing but the unlocked list and the
    experience change, and they change by the achievements added to
    [newAchievements]. *)
Record ScanEffect (all : list Achievement) (st st' : AchievementScan)
    (scan_added : list Achievement) : Prop := {
  scan_new_eq : scan_new st' = scan_new st ++ scan_added;
  scan_unlocked_eq :
    unlockedAchievements (progress (scan_user st'))
    = unlockedAchievements (progress (scan_user st)) ++ map ach_id scan_added;
  scan_xp_eq :
    xp (progress (scan_user st')) = xp (progress (scan_user st)) + rewardsOf scan_added;
  scan_level_eq : level (progress (scan_user st')) = level (progress (scan_user st));
  scan_coins_eq : coins (progress (scan_user st')) = coins (progress (scan_user st));
  scan_completed_eq :
    completedMissions (progress (scan_user st'))
    = completedMissions (progress (scan_user st));
  scan_visited_eq :
    map clearStamp (scan_visited st')
    = map clearStamp (scan_visited st) ++ map clearStamp all;
  scan_added_fresh :
    ∀ i, i ∈ unlockedAchievements (progress (scan_user st)) → i ∉ map ach_id scan_added;
  scan_added_nodup : NoDup (map ach_id scan_added);
  scan_added_from : ∀ a, a ∈ scan_added → clearStamp a ∈ map clearStamp all
}.

(** Invariants of the reachable states. *)
Definition userInv (user : User) : Prop :=
  1 <= level (progress user)
  ∧ NoDup (unlockedAchievements (progress user))
  ∧ (completedMissions (progress user) = [] →
       unlockedAchievements (progress user) = [])
  ∧ (completedMissions (progress user) ≠ [] →
       "first_mission" ∈ unlockedAchievements (progress user)).

Definition appInv (app : App) : Prop :=
  map clearStamp (achievements app) = initializeAchievements
  ∧ ∀ userId user, getUser app userId = Some user → userInv user.

End HealthVitalityApp.

(** ** Concrete inputs

    The questionnaire answers of the worked example: thirty minutes a day,
    a beginner without equipment who wants to lose weight. *)

Module Examples.

Import FitnessQuestionnaire.

Definition exampleBaseline : FitnessBaseline :=
  {| currentWeight := 180;
     height := 70;
     age := 30;
     activityLevel := sedentary;
     workoutFrequency := 0;
     workoutDuration := 0;
     fitnessExperience := beginner;
     preferredActivities := [];
     currentStrengthLevel := 2;
     currentEnduranceLevel := 3;
     currentFlexibilityLevel := 5;
     timeAvailable := 30;
     budget := budget_none;
     equipment := ["bodyweight_only"];
     limitations := [];
     motivation := 5 |}.

Definition exampleGoals : FitnessGoals :=
  {| targetWeight := Some 170%Q;
     primaryGoal := weight_loss;
     targetStrengthLevel := 6;
     targetEnduranceLevel := 7;
     targetFlexibilityLevel := 5;
     timeframe := 3;
     priority := priority_high;
     specificTargets := [] |}.

(** The same person with an hour a day. *)
Definition relaxedBaseline : FitnessBaseline :=
  {| currentWeight := 180;
     height := 70;
     age := 30;
     activityLevel := sedentary;
     workoutFrequency := 0;
     workoutDuration := 0;
     fitnessExperience := beginner;
     preferredActivities := [];
     currentStrengthLevel := 2;
     currentEnduranceLevel := 3;
     currentFlexibilityLevel := 5;
     timeAvailable := 60;
     budget := budget_none;
     equipment := ["bodyweight_only"];
     limitations := [];
     motivation := 5 |}.

(** The same answers with strength as the primary goal. *)
Definition strengthGoals : FitnessGoals :=
  {| targetWeight := None;
     primaryGoal := strength_goal;
     targetStrengthLevel := 6;
     targetEnduranceLevel := 7;
     targetFlexibilityLevel := 5;
     timeframe := 3;
     priority := priority_high;
     specificTargets := [] |}.

(** An instance of the string-to-number conversion for the examples: it
    agrees with the built-in on the strings made of decimal digits only
    (the empty string is 0) and on the strings without any numeric reading,
    which are the only ones the examples use; every other string is taken
    to NaN here. *)
Definition digitValue (c : Ascii.ascii) : option Z :=
  let n := Z.of_N (Ascii.N_of_ascii c) in
  if ((48 <=? n) && (n <=? 57))%Z then Some (n - 48)%Z else None.

Fixpoint digitsValue (s : string) (acc : Z) : option Z :=
  match s with
  | EmptyString => Some acc
  | String c rest =>
      match digitValue c with
      | Some d => digitsValue rest (10 * acc + d)%Z
      | None => None
      end
  end.

Definition decimalStringToNumber (s : string) : HealthVitalityApp.jsnum :=
  match digitsValue s 0%Z with
  | Some n => HealthVitalityApp.JFin (inject_Z n)
  | None => HealthVitalityApp.JNaN
  end.

Module Ledger.

Import HealthVitalityApp.

Definition answer (questionId : string) (v : Q) : SurveyResponse :=
  {| questionId := questionId; value := VNumber (JFin v); timestamp := 0%Z |}.

(** [exampleResponses] of the usage example. *)
Definition exampleResponses : list SurveyResponse :=
  [ answer "baseline_energy" 4;
    answer "baseline_fitness" 3;
    answer "current_weight" 180;
    answer "height" 70;
    answer "goal_energy_3m" 7;
    answer "goal_fitness_3m" 6;
    answer "goal_weight_3m" 170 ].

(** The app after [createUser('Alex Smith', exampleResponses)]. *)
Definition exampleApp : App :=
  (createUser decimalStringToNumber newApp "user_1" "Alex Smith" exampleResponses 0%Z).1.

(** A user at level 1 with 90 experience points, and a store that holds
    this user only. *)
Definition almostLevelTwo : User :=
  {| user_id := "user_2";
     name := "Sam";
     baseline := processSurveyResponses decimalStringToNumber "user_2" exampleResponses;
     goals := processGoals decimalStringToNumber exampleResponses;
     progress :=
       {| level := 1;
          xp := 90;
          coins := 100;
          streaks := ∅;
          completedMissions := ["m0"];
          unlockedAchievements := ["first_mission"; "fitness_fanatic"; "level_10"];
          lastActive := 0%Z |};
     surveyResponses := exampleResponses;
     createdAt := 0%Z;
     updatedAt := 0%Z |}.

Definition almostLevelTwoApp : App :=
  {| users := {[ "user_2" := almostLevelTwo ]};
     achievements := initializeAchievements;
     missionTemplates := [] |}.

(** A random generator that always returns one half. *)
Definition halfDraw : RandomDraw := {| draw := 0.5%Q; draw_range := eq_refl |}.

Definition alwaysHalf (n : nat) : RandomDraw := halfDraw.

End Ledger.

End Examples.

(** ** The questionnaire's prompts

    The interactive part of [FitnessQuestionnaire].  The console is the
    list of the lines still to be read from standard input: every [ask]
    takes the next line.  A method that runs out of lines never returns
    ([None]).  What the methods print is not modelled. *)

Module QuestionnaireInput.

Import FitnessQuestionnaire.

(** The result of [parseFloat]. *)
Inductive Parsed :=
  | PNaN
  | PNum (q : Q)
  | PInfinity (negative : bool).

(** A method that reads the console. *)
Definition Console (A : Type) : Type := list string -> option (A * list string).

Definition ret {A} (a : A) : Console A := fun input => Some (a, input).

Definition bind {A B} (c : Console A) (k : A -> Console B) : Console B :=
  fun input =>
    match c input with
    | Some (a, rest) => k a rest
    | None => None
    end.

Notation "'let!' x ':=' c 'in' k" := (bind c (fun x => k))
  (at level 10, x name, c at level 100, k at level 200).

(** [ask(question)] *)
Definition ask : Console string :=
  fun input =>
    match input with
    | [] => None
    | answer :: rest => Some (answer, rest)
    end.

(** [String.prototype.toLowerCase] on the letters A to Z.  The program
    only compares the result with ['y'], and no string other than ["y"] and
    ["Y"] lower-cases to ["y"]. *)
Definition lowerChar (c : Ascii.ascii) : Ascii.ascii :=
  let n := Ascii.N_of_ascii c in
  if ((65 <=? n) && (n <=? 90))%N then Ascii.ascii_of_N (n + 32) else c.

Fixpoint toLowerCase (s : string) : string :=
  match s with
  | EmptyString => EmptyString
  | String c rest => String (lowerChar c) (toLowerCase rest)
  end.

Section Prompts.

(** The built-in parsers of the host language.  [parseInt] gives NaN
    ([None]) or an integer; where it overflows to [Infinity], any integer
    beyond the indices of the choices stands for it. *)
Variable parseFloat : string -> Parsed.
Variable parseInt : string -> option Z.

(** [!isNaN(num) && (min === undefined || num >= min)
     && (max === undefined || num <= max)] *)
Definition accepted (min max : option Q) (num : Parsed) : bool :=
  match num with
  | PNaN => false
  | PNum q =>
      match min with None => true | Some lo => Qle_bool lo q end
      && match max with None => true | Some hi => Qle_bool q hi end
  | PInfinity false => match max with None => true | Some _ => false end
  | PInfinity true => match min with None => true | Some _ => false end
  end.

(** [askNumber(question, min, max)]: the loop asks again until an answer
    is accepted. *)
Fixpoint askNumber (min max : option Q) (input : list string)
  : option (Parsed * list string) :=
  match input with
  | [] => None
  | answer :: rest =>
      let num := parseFloat answer in
      if accepted min max num then Some (num, rest)
      else askNumber min max rest
  end.

(** The number that an assignment such as [this.baseline.age = ...]
    stores.  Every call of [askNumber] in the program gives both bounds,
    and then the accepted number is finite. *)
Definition stored (num : Parsed) : Q :=
  match num with
  | PNum q => q
  | PNaN | PInfinity _ => 0
  end.

Definition askBounded (min max : Q) : Console Q :=
  let! num := askNumber (Some min) (Some max) in ret (stored num).

(** [askChoice(question, choices)] *)
Fixpoint askChoice {T} (choices : list T) (input : list string)
  : option (T * list string) :=
  match input with
  | [] => None
  | answer :: rest =>
      match parseInt answer with
      | Some n =>
          let choiceIndex := (n - 1)%Z in
          if ((0 <=? choiceIndex) && (choiceIndex <? Z.of_nat (length choices)))%Z
          then
            match choices !! Z.to_nat choiceIndex with
            | Some choice => Some (choice, rest)
            | None => None
            end
          else askChoice choices rest
      | None => askChoice choices rest
      end
  end.

(** The equipment list that [collectBaseline] builds from the two yes/no
    answers. *)
Definition equipmentOf (hasGym hasHome : string) : list string :=
  let equipment := [] in
  let equipment :=
    if bool_decide (toLowerCase hasGym = "y") then equipment ++ ["gym_access"]
    else equipment in
  let equipment :=
    if bool_decide (toLowerCase hasHome = "y") then equipment ++ ["home_equipment"]
    else equipment in
  if bool_decide (length equipment = 0%nat) then equipment ++ ["bodyweight_only"]
  else equipment.

(** [collectBaseline].  The fields [preferredActivities] and [limitations]
    are never assigned by the program; nothing reads them, and they are
    empty lists here. *)
Definition collectBaseline : Console FitnessBaseline :=
  let! age := askBounded 13 100 in
  let! currentWeight := askBounded 50 500 in
  let! height := askBounded 36 96 in
  let! activityLevel :=
    askChoice [sedentary; lightly_active; moderately_active; very_active;
               extremely_active] in
  let! workoutFrequency := askBounded 0 14 in
  let! workoutDuration :=
    (if Qgtb workoutFrequency 0 then askBounded 5 300 else ret 0%Q) in
  let! fitnessExperience := askChoice [beginner; intermediate; advanced] in
  let! currentStrengthLevel := askBounded 1 10 in
  let! currentEnduranceLevel := askBounded 1 10 in
  let! currentFlexibilityLevel := askBounded 1 10 in
  let! timeAvailable := askBounded 0 300 in
  let! budget := askChoice [budget_none; budget_low; budget_moderate; budget_high] in
  let! hasGym := ask in
  let! hasHome := ask in
  let! motivation := askBounded 1 10 in
  ret {| currentWeight := currentWeight;
         height := height;
         age := age;
         activityLevel := activityLevel;
         workoutFrequency := workoutFrequency;
         workoutDuration := workoutDuration;
         fitnessExperience := fitnessExperience;
         preferredActivities := [];
         currentStrengthLevel := currentStrengthLevel;
         currentEnduranceLevel := currentEnduranceLevel;
         currentFlexibilityLevel := currentFlexibilityLevel;
         timeAvailable := timeAvailable;
         budget := budget;
         equipment := equipmentOf hasGym hasHome;
         limitations := [];
         motivation := motivation |}.

(** [collectGoals].  [specificTargets] is never assigned. *)
Definition collectGoals : Console FitnessGoals :=
  let! primaryGoal :=
    askChoice [weight_loss; muscle_gain; strength_goal; endurance_goal;
               flexibility_goal; general_fitness] in
  let! targetWeight :=
    (if bool_decide (primaryGoal = weight_loss)
        || bool_decide (primaryGoal = muscle_gain)
     then (let! w := askBounded 50 500 in ret (Some w))
     else ret None) in
  let! targetStrengthLevel := askBounded 1 10 in
  let! targetEnduranceLevel := askBounded 1 10 in
  let! targetFlexibilityLevel := askBounded 1 10 in
  let! timeframe := askBounded 1 24 in
  let! priority := askChoice [priority_low; priority_medium; priority_high] in
  ret {| targetWeight := targetWeight;
         primaryGoal := primaryGoal;
         targetStrengthLevel := targetStrengthLevel;
         targetEnduranceLevel := targetEnduranceLevel;
         targetFlexibilityLevel := targetFlexibilityLevel;
         timeframe := timeframe;
         priority := priority;
         specificTargets := [] |}.

(** What [run] arrives at: the two profiles collected and the missions
    that [displayResults] prints. *)
Record Session := {
  session_baseline : FitnessBaseline;
  session_goals : FitnessGoals;
  session_missions : list DailyMission
}.

Definition run : Console Session :=
  let! baseline := collectBaseline in
  let! goals := collectGoals in
  ret {| session_baseline := baseline;
         session_goals := goals;
         session_missions := generateMissions baseline goals |}.

(** The weight line of the summary that [displayResults] prints, when it
    prints one: the verb and the number of pounds. *)
Definition weightGoal (baseline : FitnessBaseline) (goals : FitnessGoals)
  : option (string * Q) :=
  match targetWeight goals with
  | Some target =>
      if negb (Qeq_bool target 0) && negb (Qeq_bool (currentWeight baseline) 0) then
        let weightDiff := (target - currentWeight baseline)%Q in
        Some (if Qgtb weightDiff 0 then "Gain" else "Lose", Qabs weightDiff)
      else None
  | None => None
  end.

End Prompts.

(** The ranges in which the prompts ask. *)
Definition within (lo hi q : Q) : Prop := (lo <= q)%Q ∧ (q <= hi)%Q.

Definition validBaseline (b : FitnessBaseline) : Prop :=
  within 13 100 (age b)
  ∧ within 50 500 (currentWeight b)
  ∧ within 36 96 (height b)
  ∧ within 0 14 (workoutFrequency b)
  ∧ ((0 < workoutFrequency b)%Q → within 5 300 (workoutDuration b))
  ∧ ((workoutFrequency b <= 0)%Q → workoutDuration b = 0%Q)
  ∧ within 1 10 (currentStrengthLevel b)
  ∧ within 1 10 (currentEnduranceLevel b)
  ∧ within 1 10 (currentFlexibilityLevel b)
  ∧ within 0 300 (timeAvailable b)
  ∧ within 1 10 (motivation b)
  ∧ equipment b ∈ [ ["gym_access"]; ["home_equipment"];
                    ["gym_access"; "home_equipment"]; ["bodyweight_only"] ].

Definition validGoals (g : FitnessGoals) : Prop :=
  within 1 10 (targetStrengthLevel g)
  ∧ within 1 10 (targetEnduranceLevel g)
  ∧ within 1 10 (targetFlexibilityLevel g)
  ∧ within 1 24 (timeframe g)
  ∧ match targetWeight g with
    | Some w =>
        within 50 500 w ∧ (primaryGoal g = weight_loss ∨ primaryGoal g = muscle_gain)
    | None => primaryGoal g ≠ weight_loss ∧ primaryGoal g ≠ muscle_gain
    end.

(** Parsers for the examples: they agree with the built-ins on the strings
    made of decimal digits only, and on the strings without a numeric
    prefix (among them the empty string), which both built-ins take to
    NaN; these are the only strings the examples use. *)
Definition digitsParseInt (s : string) : option Z :=
  if bool_decide (s = "") then None else Examples.digitsValue s 0%Z.

Definition digitsParseFloat (s : string) : Parsed :=
  match digitsParseInt s with
  | Some n => PNum (inject_Z n)
  | None => PNaN
  end.

(** The answers of the worked example, typed at the prompts; two of the
    answers are refused and asked again. *)
Definition exampleAnswers : list string :=
  [ "30"; "180"; "70"; "1"; "0"; "nine"; "1"; "2"; "3"; "5"; "30"; "1"; "n"; "N"; "5";
    "7"; "1"; "170"; "6"; "7"; "5"; "3"; "3" ].

End QuestionnaireInput.

(** ** The survey, the goal progress and the progress of reachable users *)

Module HealthVitalityReport.

Import HealthVitalityApp.

Local Open Scope Z_scope.

(** *** Survey questions data *)







(** *** Goal progress *)

(** Arithmetic on numbers, with the special values; the sign of a zero is
    not kept, and binary rounding is not modelled. *)
Definition js_sign (q : Q) : bool := Qltb q 0.

Definition js_inf (negative : bool) : jsnum := if negative then JNegInf else JPosInf.

Definition js_sub (a b : jsnum) : jsnum :=
  match a, b with
  | JNaN, _ | _, JNaN => JNaN
  | JFin x, JFin y => JFin (x - y)
  | JFin _, JPosInf => JNegInf
  | JFin _, JNegInf => JPosInf
  | JPosInf, JPosInf | JNegInf, JNegInf => JNaN
  | JPosInf, _ => JPosInf
  | JNegInf, _ => JNegInf
  end.

Definition js_mul (a b : jsnum) : jsnum :=
  match a, b with
  | JNaN, _ | _, JNaN => JNaN
  | JFin x, JFin y => JFin (x * y)
  | JFin x, JPosInf | JPosInf, JFin x =>
      if Qeq_bool x 0 then JNaN else js_inf (js_sign x)
  | JFin x, JNegInf | JNegInf, JFin x =>
      if Qeq_bool x 0 then JNaN else js_inf (negb (js_sign x))
  | JPosInf, JPosInf | JNegInf, JNegInf => JPosInf
  | JPosInf, JNegInf | JNegInf, JPosInf => JNegInf
  end.

Definition js_div (a b : jsnum) : jsnum :=
  match a, b with
  | JNaN, _ | _, JNaN => JNaN
  | JFin x, JFin y =>
      if Qeq_bool y 0 then
        if Qeq_bool x 0 then JNaN else js_inf (js_sign x)
      else JFin (x / y)
  | JFin _, (JPosInf | JNegInf) => JFin 0
  | JPosInf, JFin y => js_inf (js_sign y)
  | JNegInf, JFin y => js_inf (negb (js_sign y))
  | (JPosInf | JNegInf), (JPosInf | JNegInf) => JNaN
  end.

(** [Math.max(a, b)] and [Math.min(a, b)]: NaN when an argument is NaN. *)
Definition Math_max (a b : jsnum) : jsnum :=
  match a, b with
  | JNaN, _ | _, JNaN => JNaN
  | _, _ => if js_ltb a b then b else a
  end.

Definition Math_min (a b : jsnum) : jsnum :=
  match a, b with
  | JNaN, _ | _, JNaN => JNaN
  | _, _ => if js_ltb b a then b else a
  end.

(** [a === b] on numbers. *)
Definition js_eqb (a b : jsnum) : bool :=
  match a, b with
  | JFin x, JFin y => Qeq_bool x y
  | JPosInf, JPosInf | JNegInf, JNegInf => true
  | _, _ => false
  end.

Definition calculateGoalProgress (baseline target current : jsnum) : jsnum :=
  if js_eqb target baseline then JFin 100
  else
    Math_min (JFin 100)
      (Math_max (JFin 0)
         (js_mul (js_div (js_sub current baseline) (js_sub target baseline))
                 (JFin 100))).

(** [progressToward3MonthGoals] of [getProgressReport]: the [goalProgress]
    field of the report. *)
Record GoalProgress := {
  progress_energy : jsnum;
  progress_fitness : jsnum
}.

Definition goalProgress (app : App) (userId : string) : option GoalProgress :=
  match getUser app userId with
  | None => None
  | Some user =>
      Some
        {| progress_energy :=
             calculateGoalProgress (energyLevel (baseline user))
               (threeMonths (goal_energyLevel (goals user)))
               (energyLevel (baseline user));
           progress_fitness :=
             calculateGoalProgress (physicalFitness (baseline user))
               (threeMonths (goal_physicalFitness (goals user)))
               (physicalFitness (baseline user)) |}
  end.

(** *** What the reachable states keep *)

(** Two users that differ at most in their experience and their unlocked
    achievements. *)
Definition sameButRewards (u u' : User) : Prop :=
  user_id u' = user_id u
  ∧ name u' = name u
  ∧ baseline u' = baseline u
  ∧ goals u' = goals u
  ∧ surveyResponses u' = surveyResponses u
  ∧ createdAt u' = createdAt u
  ∧ updatedAt u' = updatedAt u
  ∧ level (progress u') = level (progress u)
  ∧ coins (progress u') = coins (progress u)
  ∧ streaks (progress u') = streaks (progress u)
  ∧ completedMissions (progress u') = completedMissions (progress u)
  ∧ lastActive (progress u') = lastActive (progress u).

(** The progress of a stored user as a function of the number of
    missions completed. *)
Definition ledgerInv (user : User) : Prop :=
  let p := progress user in
  let n := Z.of_nat (length (completedMissions p)) in
  streaks p = ∅
  ∧ (n = 0 → level p = 1 ∧ xp p = 0 ∧ coins p = 100 ∧ unlockedAchievements p = [])
  ∧ (0 < n →
       unlockedAchievements p = ["first_mission"; "fitness_fanatic"; "level_10"]
       ∧ xp p = 850 + 20 * n
       ∧ 1 <= level p <= n
       ∧ 100 + 10 * n <= coins p)
  ∧ (n = 1 → level p = 1 ∧ coins p = 110).

(** The stamps of the app's achievements: three of them carry the time of
    the latest first completion of any user, [week_warrior] never has one. *)
Definition stampsInv (app : App) : Prop :=
  map clearStamp (achievements app) = initializeAchievements
  ∧ (∀ a, a ∈ achievements app → ach_id a = "week_warrior" → unlockedAt a = None).

End HealthVitalityReport.

(** * Properties of the questionnaire *)

Module QuestionnaireProps.

Import FitnessQuestionnaire Examples.

(** *** Comparisons on rationals *)

Lemma Qgtb_true (a b : Q) : Qgtb a b = true <-> (b < a)%Q.
Proof.
  unfold Qgtb. rewrite negb_true_iff. split.
  - intros H. apply Qnot_le_lt. intros Hle.
    apply Qle_bool_iff in Hle. congruence.
  - intros H. destruct (Qle_bool a b) eqn:E; [|reflexivity].
    apply Qle_bool_iff in E. exfalso. exact (Qlt_not_le _ _ H E).
Qed.

Lemma Qgtb_false (a b : Q) : Qgtb a b = false <-> (a <= b)%Q.
Proof.
  unfold Qgtb. rewrite negb_false_iff. apply Qle_bool_iff.
Qed.

Lemma Qltb_true (a b : Q) : Qltb a b = true <-> (a < b)%Q.
Proof. apply (Qgtb_true b a). Qed.

Lemma Qltb_false (a b : Q) : Qltb a b = false <-> (b <= a)%Q.
Proof. apply (Qgtb_false b a). Qed.

(** *** The sort *)

Section Sorting.

Context {A : Type} (compareFn : A -> A -> Z).

Lemma sort_insert_perm (x : A) (l : list A) : sort_insert compareFn x l ≡ₚ x :: l.
Proof.
  induction l as [|y l IH]; simpl; [done|].
  destruct (compareFn x y <=? 0)%Z; [done|].
  rewrite IH. apply Permutation_swap.
Qed.

Lemma Array_sort_perm (l : list A) : Array_sort compareFn l ≡ₚ l.
Proof.
  induction l as [|x l IH]; simpl; [done|].
  by rewrite sort_insert_perm, IH.
Qed.

(** Stability: the elements of a class [P] whose members never have to
    move past each other keep their relative order. *)
Lemma sort_insert_filter (P : A -> Prop) `{!∀ x, Decision (P x)} (x : A) (l : list A) :
  (∀ y, P x → P y → y ∈ l → (compareFn x y <= 0)%Z) →
  filter P (sort_insert compareFn x l) = filter P (x :: l).
Proof.
  induction l as [|y l IH]; intros Hle; simpl; [done|].
  destruct (compareFn x y <=? 0)%Z eqn:E; [done|].
  apply Z.leb_gt in E.
  rewrite filter_cons. rewrite IH by (intros; apply Hle; auto using list_elem_of_further).
  rewrite !filter_cons.
  destruct (decide (P x)) as [Hx|Hx], (decide (P y)) as [Hy|Hy]; try done.
  specialize (Hle y Hx Hy (list_elem_of_here _ _)). lia.
Qed.

Lemma Array_sort_stable (P : A -> Prop) `{!∀ x, Decision (P x)} (l : list A) :
  (∀ x y, P x → P y → (compareFn x y <= 0)%Z) →
  filter P (Array_sort compareFn l) = filter P l.
Proof.
  intros Hle. induction l as [|x l IH]; simpl; [done|].
  rewrite sort_insert_filter by auto.
  by rewrite !filter_cons, IH.
Qed.

End Sorting.

(** With a comparator that subtracts keys, the result is in key order. *)
Lemma sort_insert_sorted {A} (key : A -> Z) (x : A) (l : list A) :
  StronglySorted (λ a b, (key a <= key b)%Z) l →
  StronglySorted (λ a b, (key a <= key b)%Z) (sort_insert (λ a b, (key a - key b)%Z) x l).
Proof.
  induction 1 as [|y l Hs IH Hall]; simpl.
  - repeat constructor.
  - destruct (key x - key y <=? 0)%Z eqn:E.
    + apply Z.leb_le in E. constructor; [by constructor|].
      constructor; [lia|]. eapply Forall_impl; [exact Hall|]. simpl. intros; lia.
    + apply Z.leb_gt in E. constructor; [exact IH|].
      rewrite (sort_insert_perm _ x l). constructor; [lia | exact Hall].
Qed.

Lemma Array_sort_sorted {A} (key : A -> Z) (l : list A) :
  StronglySorted (λ a b, (key a <= key b)%Z) (Array_sort (λ a b, (key a - key b)%Z) l).
Proof.
  induction l as [|x l IH]; simpl; [constructor|].
  by apply sort_insert_sorted.
Qed.

Lemma sortMissions_perm goals missions : sortMissions goals missions ≡ₚ missions.
Proof. apply Array_sort_perm. Qed.

Lemma sortMissions_sorted goals missions :
  StronglySorted
    (λ a b, (indexOf (priorityOrder (primaryGoal goals)) (category a)
             <= indexOf (priorityOrder (primaryGoal goals)) (category b))%Z)
    (sortMissions goals missions).
Proof.
  apply (Array_sort_sorted
           (λ m, indexOf (priorityOrder (primaryGoal goals)) (category m))).
Qed.

Lemma sortMissions_stable goals (c : Category) missions :
  filter (λ m, category m = c) (sortMissions goals missions)
  = filter (λ m, category m = c) missions.
Proof.
  apply Array_sort_stable. intros x y Hx Hy. unfold byPriority. rewrite Hx, Hy. lia.
Qed.


(** *** The greedy scan *)

Lemma totalTime_running missions : totalTime missions = runningTime 0 missions.
Proof. reflexivity. Qed.

Lemma runningTime_app start l1 l2 :
  runningTime start (l1 ++ l2) = runningTime (runningTime start l1) l2.
Proof. apply fold_left_app. Qed.

Lemma keepWithin_sublist limit currentTime missions :
  keepWithin limit currentTime missions `sublist_of` missions.
Proof.
  revert currentTime. induction missions as [|m rest IH]; intros c; simpl.
  - constructor.
  - destruct (Qle_bool (c + estimatedTime m) limit).
    + apply sublist_skip, IH.
    + apply sublist_cons, IH.
Qed.

Lemma keepWithin_app limit currentTime l1 l2 :
  keepWithin limit currentTime (l1 ++ l2)
  = keepWithin limit currentTime l1
    ++ keepWithin limit (runningTime currentTime (keepWithin limit currentTime l1)) l2.
Proof.
  revert currentTime. induction l1 as [|m rest IH]; intros c; simpl; [done|].
  destruct (Qle_bool (c + estimatedTime m) limit); simpl.
  - by rewrite IH.
  - apply IH.
Qed.

(** The running total never passes the limit. *)
Lemma keepWithin_within limit currentTime missions :
  (currentTime <= limit)%Q →
  (runningTime currentTime (keepWithin limit currentTime missions) <= limit)%Q.
Proof.
  revert currentTime. induction missions as [|m rest IH]; intros c Hc; simpl; [done|].
  destruct (Qle_bool (c + estimatedTime m) limit) eqn:E; simpl.
  - apply IH. by apply Qle_bool_iff.
  - by apply IH.
Qed.

(** As long as every mission fits, the scan keeps all of them. *)
Lemma keepWithin_all_fit limit currentTime pre rest :
  (∀ p x q, pre = p ++ x :: q →
     (runningTime currentTime p + estimatedTime x <= limit)%Q) →
  keepWithin limit currentTime (pre ++ rest)
  = pre ++ keepWithin limit (runningTime currentTime pre) rest.
Proof.
  revert currentTime. induction pre as [|m pre IH]; intros c Hfit; simpl; [done|].
  assert (Hm : Qle_bool (c + estimatedTime m) limit = true).
  { apply Qle_bool_iff. exact (Hfit [] m pre eq_refl). }
  rewrite Hm. f_equal. apply IH. intros p x q ->.
  exact (Hfit (m :: p) x q eq_refl).
Qed.

Lemma prioritizeMissions_over missions baseline goals :
  (timeAvailable baseline < totalTime missions)%Q →
  prioritizeMissions missions baseline goals
  = keepWithin (timeAvailable baseline) 0 (sortMissions goals missions).
Proof.
  intros H. unfold prioritizeMissions. by apply Qgtb_true in H as ->.
Qed.

(** The output of the prioritizer holds missions of its input only. *)
Lemma prioritizeMissions_elem m missions baseline goals :
  m ∈ prioritizeMissions missions baseline goals → m ∈ missions.
Proof.
  unfold prioritizeMissions. destruct (Qgtb _ _); [|done].
  intros H. rewrite <- (sortMissions_perm goals missions).
  eapply elem_of_sublist; [exact H | apply keepWithin_sublist].
Qed.

(** C5. When the total estimated time of the candidate missions is at most
    [baseline.timeAvailable], [prioritizeMissions] returns its input list
    unchanged: same missions, generation order, nothing sorted or dropped. *)
Theorem prioritizeMissions_fits_unchanged missions baseline goals :
  (totalTime missions <= timeAvailable baseline)%Q →
  prioritizeMissions missions baseline goals = missions.
Proof.
  intros H. unfold prioritizeMissions. by apply Qgtb_false in H as ->.
Qed.

Lemma prioritizeMissions_fits_unchanged_witness :
  (totalTime (candidateMissions relaxedBaseline exampleGoals)
   <= timeAvailable relaxedBaseline)%Q
  ∧ prioritizeMissions (candidateMissions relaxedBaseline exampleGoals)
      relaxedBaseline exampleGoals
    = candidateMissions relaxedBaseline exampleGoals.
Proof.
  assert (H : (totalTime (candidateMissions relaxedBaseline exampleGoals)
               <= timeAvailable relaxedBaseline)%Q).
  { apply Qle_bool_iff. vm_compute. reflexivity. }
  split; [exact H|].
  exact (prioritizeMissions_fits_unchanged _ relaxedBaseline exampleGoals H).
Defined.

(** C6. For a baseline inside the range the questionnaire accepts
    ([timeAvailable] is asked between 0 and 300, so it is not negative):
    whenever the candidates' total estimated time exceeds
    [baseline.timeAvailable], the cumulative estimated time of the list
    returned by [prioritizeMissions] is at most [baseline.timeAvailable]. *)
Theorem prioritizeMissions_within_budget missions baseline goals :
  (0 <= timeAvailable baseline)%Q →
  (timeAvailable baseline < totalTime missions)%Q →
  (totalTime (prioritizeMissions missions baseline goals) <= timeAvailable baseline)%Q.
Proof.
  intros Hta Hover. rewrite prioritizeMissions_over by done.
  rewrite totalTime_running. by apply keepWithin_within.
Qed.

Lemma prioritizeMissions_within_budget_witness :
  (0 <= timeAvailable exampleBaseline)%Q
  ∧ (timeAvailable exampleBaseline
     < totalTime (candidateMissions exampleBaseline exampleGoals))%Q
  ∧ (totalTime (prioritizeMissions (candidateMissions exampleBaseline exampleGoals)
                  exampleBaseline exampleGoals)
     <= timeAvailable exampleBaseline)%Q.
Proof.
  assert (H0 : (0 <= timeAvailable exampleBaseline)%Q).
  { apply Qle_bool_iff. vm_compute. reflexivity. }
  assert (H1 : (timeAvailable exampleBaseline
                < totalTime (candidateMissions exampleBaseline exampleGoals))%Q).
  { apply Qgtb_true. vm_compute. reflexivity. }
  split; [exact H0|]. split; [exact H1|].
  exact (prioritizeMissions_within_budget _ exampleBaseline exampleGoals H0 H1).
Defined.


(** C1, as stated, fails on the worked example: the sorted candidates are
    cardio (18 min), strength (20 min), recovery (10 min) against a budget
    of 30 minutes; strength is the first mission that does not fit and is
    dropped, but recovery, behind it, still fits (18 + 10) and is kept.
    The kept missions are not a prefix of the sorted list. *)
Lemma prioritizeMissions_keeps_after_drop :
  let missions := candidateMissions exampleBaseline exampleGoals in
  let sorted := sortMissions exampleGoals missions in
  let kept := prioritizeMissions missions exampleBaseline exampleGoals in
  (timeAvailable exampleBaseline < totalTime missions)%Q
  ∧ map id sorted = ["cardio_001"; "strength_002"; "recovery_001"]
  ∧ map id kept = ["cardio_001"; "recovery_001"]
  ∧ ¬ kept `prefix_of` sorted.
Proof.
  cbv zeta. split; [by apply Qgtb_true; vm_compute|].
  split; [by vm_compute|]. split; [by vm_compute|].
  intros [k Hk]. apply (f_equal (map id)) in Hk.
  rewrite map_app in Hk. vm_compute in Hk. discriminate Hk.
Qed.

(** C1, amended. When the total estimated time exceeds
    [baseline.timeAvailable], the scan over the sorted list keeps every
    mission in front of the first one whose inclusion would exceed the
    budget and drops that one; it then goes on with the running total
    unchanged, and keeps a later mission exactly when adding it to the time
    of the missions kept so far stays within the budget.  The kept missions
    are a sub-list of the sorted list, in the same order. *)
Theorem prioritizeMissions_greedy_scan missions baseline goals :
  (timeAvailable baseline < totalTime missions)%Q →
  let limit := timeAvailable baseline in
  let sorted := sortMissions goals missions in
  let kept := prioritizeMissions missions baseline goals in
  kept `sublist_of` sorted
  ∧ (∀ pre m post, sorted = pre ++ m :: post →
       (∀ p x q, pre = p ++ x :: q → (totalTime p + estimatedTime x <= limit)%Q) →
       (limit < totalTime pre + estimatedTime m)%Q →
       kept = pre ++ keepWithin limit (totalTime pre) post)
  ∧ (∀ pre m post, sorted = pre ++ m :: post →
       let before := keepWithin limit 0 pre in
       ((totalTime before + estimatedTime m <= limit)%Q →
          kept = before ++ m :: keepWithin limit (totalTime before + estimatedTime m) post)
       ∧ ((limit < totalTime before + estimatedTime m)%Q →
          kept = before ++ keepWithin limit (totalTime before) post)).
Proof.
  intros Hover limit sorted kept.
  assert (Hkept : kept = keepWithin limit 0 sorted)
    by exact (prioritizeMissions_over _ _ _ Hover).
  split; [|split].
  - rewrite Hkept. apply keepWithin_sublist.
  - intros pre m post Hsorted Hfit Hm.
    rewrite Hkept, Hsorted, keepWithin_all_fit by exact Hfit.
    f_equal. change (runningTime 0 pre) with (totalTime pre). cbn [keepWithin].
    destruct (Qle_bool (totalTime pre + estimatedTime m) limit) eqn:E; [|done].
    apply Qle_bool_iff in E. destruct (Qlt_not_le _ _ Hm E).
  - intros pre m post Hsorted before.
    rewrite Hkept, Hsorted, keepWithin_app. fold before.
    change (runningTime 0 before) with (totalTime before). cbn [keepWithin].
    destruct (Qle_bool (totalTime before + estimatedTime m) limit) eqn:E.
    + split; [done|]. intros Hm. apply Qle_bool_iff in E.
      destruct (Qlt_not_le _ _ Hm E).
    + split; [|done]. intros Hm. apply Qle_bool_iff in Hm. congruence.
Qed.

Lemma prioritizeMissions_greedy_scan_witness :
  (timeAvailable exampleBaseline
   < totalTime (candidateMissions exampleBaseline exampleGoals))%Q
  ∧ prioritizeMissions (candidateMissions exampleBaseline exampleGoals)
      exampleBaseline exampleGoals
    `sublist_of` sortMissions exampleGoals (candidateMissions exampleBaseline exampleGoals).
Proof.
  assert (H : (timeAvailable exampleBaseline
               < totalTime (candidateMissions exampleBaseline exampleGoals))%Q).
  { apply Qgtb_true. vm_compute. reflexivity. }
  split; [exact H|].
  exact (proj1 (prioritizeMissions_greedy_scan _ exampleBaseline exampleGoals H)).
Defined.


(** *** The candidate list *)

Lemma category_strengthMission baseline : category (strengthMission baseline) = strength.
Proof. unfold strengthMission. by destruct (_ || _). Qed.

(** The cardio missions among the candidates. *)
Lemma candidateMissions_cardio baseline goals :
  filter (λ m, category m = cardio) (candidateMissions baseline goals)
  = if Qgtb (targetEnduranceLevel goals - currentEnduranceLevel baseline) 0
       || bool_decide (primaryGoal goals = weight_loss)
    then [cardioMission baseline] else [].
Proof.
  unfold candidateMissions, pushIf.
  repeat match goal with
         | |- context [if ?c then _ else _] => destruct c
         end;
    rewrite ?filter_app, ?filter_cons, ?filter_nil, ?category_strengthMission;
    reflexivity.
Qed.

Lemma candidateMissions_cases m baseline goals :
  m ∈ candidateMissions baseline goals →
  m = strengthMission baseline ∨ m = cardioMission baseline
  ∨ m = flexibilityMission ∨ m = recoveryMission.
Proof.
  unfold candidateMissions, pushIf.
  repeat match goal with
         | |- context [if ?c then _ else _] => destruct c
         end;
    rewrite ?elem_of_app, ?elem_of_cons, ?elem_of_nil; tauto.
Qed.

Lemma sublist_filter_mono {A} (P : A → Prop) `{!∀ x, Decision (P x)} (l1 l2 : list A) :
  l1 `sublist_of` l2 → filter P l1 `sublist_of` filter P l2.
Proof.
  induction 1 as [|x l1 l2 _ IH|x l1 l2 _ IH]; rewrite ?filter_cons.
  - constructor.
  - destruct (decide (P x)); [by apply sublist_skip | done].
  - destruct (decide (P x)); [by apply sublist_cons | done].
Qed.

(** Prioritizing never adds a mission of a category and never reorders the
    missions of one category. *)
Lemma prioritizeMissions_category (c : Category) missions baseline goals :
  filter (λ m, category m = c) (prioritizeMissions missions baseline goals)
  `sublist_of` filter (λ m, category m = c) missions.
Proof.
  unfold prioritizeMissions. destruct (Qgtb _ _); [|done].
  rewrite <- (sortMissions_stable goals c missions).
  apply sublist_filter_mono, keepWithin_sublist.
Qed.

(** C4. [generateMissions] emits (pushes onto its [missions] array) exactly
    one cardio mission if and only if
    [targetEnduranceLevel - currentEnduranceLevel > 0] or the primary goal
    is weight loss, and none otherwise.  The estimated time of that
    mission is [min(0.6 * timeAvailable, 30)]; its difficulty is easy when
    [currentEnduranceLevel < 5] and medium otherwise; its instructions are
    the walking-interval plan when [currentEnduranceLevel < 4] and the
    structured interval plan otherwise.  The list that [generateMissions]
    returns holds no other cardio mission than the emitted one, and holds
    that one whenever the candidates fit the time budget. *)
Theorem generateMissions_cardio_rule baseline goals :
  let emitted := filter (λ m, category m = cardio) (candidateMissions baseline goals) in
  let returned := filter (λ m, category m = cardio) (generateMissions baseline goals) in
  let triggered :=
    (0 < targetEnduranceLevel goals - currentEnduranceLevel baseline)%Q
    ∨ primaryGoal goals = weight_loss in
  (length emitted = 1%nat ↔ triggered)
  ∧ (¬ triggered ↔ emitted = [])
  ∧ (∀ m, m ∈ emitted →
       estimatedTime m = Qmin (timeAvailable baseline * 0.6) 30
       ∧ ((currentEnduranceLevel baseline < 5)%Q → difficulty m = easy)
       ∧ ((5 <= currentEnduranceLevel baseline)%Q → difficulty m = medium)
       ∧ ((currentEnduranceLevel baseline < 4)%Q →
            instructions m = walkingIntervalPlan (estimatedTime m))
       ∧ ((4 <= currentEnduranceLevel baseline)%Q →
            instructions m = structuredIntervalPlan (estimatedTime m)))
  ∧ returned `sublist_of` emitted
  ∧ ((totalTime (candidateMissions baseline goals) <= timeAvailable baseline)%Q →
       returned = emitted).
Proof.
  intros emitted returned triggered.
  assert (Hreturned : returned `sublist_of` emitted
            ∧ ((totalTime (candidateMissions baseline goals)
                <= timeAvailable baseline)%Q → returned = emitted)).
  { split; [apply prioritizeMissions_category|].
    intros Hfits. unfold returned, emitted, generateMissions, prioritizeMissions.
    by apply Qgtb_false in Hfits as ->. }
  assert (Hemitted : emitted
            = if Qgtb (targetEnduranceLevel goals - currentEnduranceLevel baseline) 0
                 || bool_decide (primaryGoal goals = weight_loss)
              then [cardioMission baseline] else [])
    by apply candidateMissions_cardio.
  assert (Htrig : Qgtb (targetEnduranceLevel goals - currentEnduranceLevel baseline) 0
                  || bool_decide (primaryGoal goals = weight_loss) = true ↔ triggered).
  { unfold triggered. rewrite orb_true_iff, Qgtb_true, bool_decide_eq_true. tauto. }
  destruct (Qgtb _ 0 || bool_decide _) eqn:E; rewrite Hemitted.
  - assert (Ht : triggered) by (by apply Htrig).
    split; [done|]. split; [split; [done | discriminate]|].
    split; [|by rewrite <- Hemitted].
    intros m ->%list_elem_of_singleton. unfold cardioMission, getCardioInstructions.
    cbn [estimatedTime difficulty instructions].
    split; [done|].
    split; [by intros ->%Qltb_true|]. split; [by intros ->%Qltb_false|].
    split; [by intros ->%Qltb_true | by intros ->%Qltb_false].
  - assert (Ht : ¬ triggered) by (intros Ht%Htrig; discriminate).
    split; [split; [discriminate | done]|]. split; [done|].
    split; [by intros m ?%elem_of_nil|].
    by rewrite <- Hemitted.
Qed.

(** The prioritizer can drop the emitted cardio mission again: with
    strength as the primary goal and thirty minutes a day, strength and
    recovery use up the budget and the list returned has no cardio
    mission although the endurance gap is positive. *)
Example generateMissions_cardio_dropped :
  map id (candidateMissions exampleBaseline strengthGoals)
  = ["strength_002"; "cardio_001"; "recovery_001"]
  ∧ map id (generateMissions exampleBaseline strengthGoals)
    = ["strength_002"; "recovery_001"].
Proof. split; by vm_compute. Qed.

(** *** Estimated times *)

Lemma candidateMissions_time_nonneg m baseline goals :
  (0 <= timeAvailable baseline)%Q →
  m ∈ candidateMissions baseline goals → (0 <= estimatedTime m)%Q.
Proof.
  intros Hta [ -> | [ -> | [ -> | -> ] ] ]%candidateMissions_cases.
  - unfold strengthMission. destruct (_ || _); cbn [estimatedTime]; [|done].
    apply Q.min_glb; [|done]. by apply Qmult_le_0_compat.
  - cbn [cardioMission estimatedTime].
    apply Q.min_glb; [|done]. by apply Qmult_le_0_compat.
  - done.
  - done.
Qed.

Lemma generateMissions_time_nonneg m baseline goals :
  (0 <= timeAvailable baseline)%Q →
  m ∈ generateMissions baseline goals → (0 <= estimatedTime m)%Q.
Proof.
  intros Hta Hm%prioritizeMissions_elem. by eapply candidateMissions_time_nonneg.
Qed.

End QuestionnaireProps.

(** * Properties of the gamified app *)

Module LedgerProps.

Import HealthVitalityApp Examples Examples.Ledger.

Local Open Scope Z_scope.

(** *** The scan of the achievements *)

Lemma rewardsOf_app l1 l2 : rewardsOf (l1 ++ l2) = rewardsOf l1 + rewardsOf l2.
Proof. unfold rewardsOf. induction l1 as [|a l1 IH]; simpl; lia. Qed.

Lemma clearStamp_stampUnlocked a now : clearStamp (stampUnlocked a now) = clearStamp a.
Proof. reflexivity. Qed.

Lemma includes_true l s : includes l s = true ↔ s ∈ l.
Proof. apply bool_decide_eq_true. Qed.

Lemma includes_false l s : includes l s = false ↔ s ∉ l.
Proof. apply bool_decide_eq_false. Qed.

Lemma checkAchievements_effect now all st :
  ∃ added, ScanEffect all st (fold_left (checkAchievement now) all st) added.
Proof.
  revert st. induction all as [|a all IH]; intros st; simpl.
  - exists []. split; rewrite ?app_nil_r; simpl; try done; try lia.
    + by intros i _ ?%elem_of_nil.
    + constructor.
    + by intros a ?%elem_of_nil.
  - destruct (IH (checkAchievement now st a))
      as [added [Hnew Hunl Hxp Hlvl Hcoins Hcompl Hvis Hfresh Hnodup Hfrom]].
    unfold checkAchievement in *.
    destruct (includes _ (ach_id a)) eqn:Einc;
      [|destruct (forallb _ (requirements a)) eqn:Ereq]; simpl in *.
    + exists added. split; try done.
      * by rewrite Hvis, map_app, <- app_assoc.
      * intros b Hb. right. by apply Hfrom.
    + exists (stampUnlocked a now :: added). split; simpl.
      * by rewrite Hnew, <- app_assoc.
      * by rewrite Hunl, <- app_assoc.
      * rewrite Hxp. unfold rewardsOf. simpl. lia.
      * done.
      * done.
      * done.
      * by rewrite Hvis, map_app, <- app_assoc.
      * intros i Hi [->|Hin]%elem_of_cons.
        -- apply includes_false in Einc. done.
        -- apply (Hfresh i); [|done]. apply elem_of_app. by left.
      * constructor; [|done]. apply Hfresh. apply elem_of_app. right. by left.
      * intros b [->|Hb]%elem_of_cons; [by left | right; by apply Hfrom].
    + exists added. split; try done.
      * by rewrite Hvis, map_app, <- app_assoc.
      * intros b Hb. right. by apply Hfrom.
Qed.


Lemma checkAchievements_spec all user now :
  ScanEffect all {| scan_user := user; scan_visited := []; scan_new := [] |}
    (checkAchievements all user now) (scan_new (checkAchievements all user now)).
Proof.
  unfold checkAchievements.
  destruct (checkAchievements_effect now all
              {| scan_user := user; scan_visited := []; scan_new := [] |})
    as [added H].
  assert (Hnew := scan_new_eq _ _ _ _ H). simpl in Hnew. by rewrite Hnew.
Qed.

(** The first achievement of the table is [first_mission], worth 50
    points, and asks for one completed mission. *)
Lemma first_mission_scan all user now :
  map clearStamp all = initializeAchievements →
  completedMissions (progress user) ≠ [] →
  "first_mission" ∉ unlockedAchievements (progress user) →
  ∃ a others,
    scan_new (checkAchievements all user now) = a :: others
    ∧ ach_id a = "first_mission" ∧ ach_xpReward a = 50
    ∧ "first_mission" ∉ map ach_id others.
Proof.
  intros Hall Hcompleted Hlocked.
  destruct all as [|a1 rest]; [discriminate|].
  injection Hall as Hid _ _ _ Hxp Hreq _.
  unfold checkAchievements. cbn [fold_left].
  unfold checkAchievement at 2. cbn [scan_user scan_visited scan_new].
  rewrite Hid.
  apply includes_false in Hlocked. rewrite Hlocked.
  assert (Hholds : forallb (requirementHolds user) (requirements a1) = true).
  { rewrite Hreq. cbn. destruct (completedMissions (progress user)); [done|].
    rewrite andb_true_r. apply negb_true_iff, Z.ltb_ge. simpl length. lia. }
  rewrite Hholds.
  destruct (checkAchievements_effect now rest
              {| scan_user := unlock user a1;
                 scan_visited := [] ++ [stampUnlocked a1 now];
                 scan_new := [] ++ [stampUnlocked a1 now] |})
    as [added H].
  exists (stampUnlocked a1 now), added.
  split; [exact (scan_new_eq _ _ _ _ H)|]. split; [done|]. split; [done|].
  apply (scan_added_fresh _ _ _ _ H). cbn. rewrite Hid.
  apply elem_of_app. right. by left.
Qed.

(** *** [completeMission] *)

Lemma completeMission_trace_some app userId user missionId now :
  getUser app userId = Some user →
  completeMission_trace app userId missionId now
  = let scan :=
      checkAchievements (achievements app)
        (checkLevelUp (awardCompletion user missionId now)).1 now in
    ({| users := <[userId := set_updatedAt (scan_user scan) now]> (users app);
        achievements := scan_visited scan;
        missionTemplates := missionTemplates app |},
     true, scan_new scan).
Proof. intros H. unfold completeMission_trace. by rewrite H. Qed.

Lemma checkLevelUp_level user :
  level (progress user) <= level (progress (checkLevelUp user).1).
Proof. unfold checkLevelUp. destruct (_ <=? _); simpl; lia. Qed.

Lemma checkLevelUp_unlocked user :
  unlockedAchievements (progress (checkLevelUp user).1)
  = unlockedAchievements (progress user).
Proof. unfold checkLevelUp. by destruct (_ <=? _). Qed.

Lemma checkLevelUp_completed user :
  completedMissions (progress (checkLevelUp user).1)
  = completedMissions (progress user).
Proof. unfold checkLevelUp. by destruct (_ <=? _). Qed.

Lemma checkLevelUp_xp user :
  xp (progress (checkLevelUp user).1) = xp (progress user).
Proof. unfold checkLevelUp. by destruct (_ <=? _). Qed.

(** The user that [completeMission] stores for [userId]. *)
Lemma completeMission_user app userId user missionId now :
  appInv app →
  getUser app userId = Some user →
  let result := completeMission_trace app userId missionId now in
  ∃ user',
    getUser result.1.1 userId = Some user'
    ∧ result.1.2 = true
    ∧ userInv user'
    ∧ completedMissions (progress user')
      = completedMissions (progress user) ++ [missionId]
    ∧ unlockedAchievements (progress user')
      = unlockedAchievements (progress user) ++ map ach_id result.2
    ∧ xp (progress user') = xp (progress user) + 20 + rewardsOf result.2.
Proof.
  intros [Hall Husers] Huser result. subst result.
  rewrite (completeMission_trace_some _ _ _ _ _ Huser). cbv zeta.
  set (leveled := (checkLevelUp (awardCompletion user missionId now)).1).
  destruct (checkAchievements_spec (achievements app) leveled now)
    as [_ Hunl Hxp Hlvl _ Hcompl _ Hfresh Hnodup _].
  cbn [scan_user] in *.
  set (scan := checkAchievements (achievements app) leveled now) in *.
  assert (Hunl0 : unlockedAchievements (progress leveled)
                  = unlockedAchievements (progress user))
    by (subst leveled; by rewrite checkLevelUp_unlocked).
  assert (Hcompl0 : completedMissions (progress leveled)
                    = completedMissions (progress user) ++ [missionId])
    by (subst leveled; by rewrite checkLevelUp_completed).
  assert (Hxp0 : xp (progress leveled) = xp (progress user) + 20)
    by (subst leveled; by rewrite checkLevelUp_xp).
  assert (Hlvl0 : level (progress user) <= level (progress leveled))
    by (subst leveled; apply (checkLevelUp_level (awardCompletion user missionId now))).
  destruct (Husers _ _ Huser) as (Hl & Hnd & Hempty & Hfirst).
  exists (set_updatedAt (scan_user scan) now).
  split; [apply lookup_insert_eq|]. split; [done|].
  unfold userInv. cbn [set_updatedAt progress fst snd].
  rewrite Hunl, Hcompl, Hxp, Hlvl, Hunl0, Hcompl0, Hxp0.
  split; [|split; [done|split; [done|lia]]].
  split; [lia|]. split; [|split].
  - apply NoDup_app. split; [done|]. split; [|done].
    intros i Hi. apply Hfresh. by rewrite Hunl0.
  - by intros ?%app_eq_nil%proj2.
  - intros _. destruct (decide ("first_mission" ∈ unlockedAchievements (progress user)))
      as [Hin|Hnin]; [apply elem_of_app; by left|].
    destruct (first_mission_scan (achievements app) leveled now Hall)
      as (a & others & Hscan & Hid & _).
    + rewrite Hcompl0. by intros ?%app_eq_nil%proj2.
    + by rewrite Hunl0.
    + fold scan in Hscan. rewrite Hscan. apply elem_of_app. right.
      rewrite <- Hid. by left.
Qed.

Lemma completeMission_others app userId missionId now other :
  other ≠ userId →
  getUser (completeMission_trace app userId missionId now).1.1 other = getUser app other.
Proof.
  intros Hne. unfold completeMission_trace.
  destruct (getUser app userId); [|done].
  cbn. unfold getUser. cbn. by apply lookup_insert_ne.
Qed.

Lemma completeMission_inv app userId missionId now :
  appInv app → appInv (completeMission app userId missionId now).1.
Proof.
  intros Hinv. unfold completeMission.
  destruct (getUser app userId) as [user|] eqn:Huser.
  - destruct (completeMission_user app userId user missionId now Hinv Huser)
      as (user' & Hget & _ & Huinv & _).
    split.
    + rewrite (completeMission_trace_some _ _ _ _ _ Huser). cbn.
      destruct (checkAchievements_spec (achievements app)
                  (checkLevelUp (awardCompletion user missionId now)).1 now)
        as [_ _ _ _ _ _ Hvis _ _ _].
      rewrite Hvis. apply Hinv.
    + intros other u Hother. destruct (decide (other = userId)) as [->|Hne].
      * rewrite Hget in Hother. by injection Hother as <-.
      * rewrite completeMission_others in Hother by done.
        by apply (proj2 Hinv other).
  - unfold completeMission_trace. by rewrite Huser.
Qed.

Lemma createUser_inv S2N app userId name responses now :
  appInv app → appInv (createUser S2N app userId name responses now).1.
Proof.
  intros [Hall Husers]. split; [done|].
  intros other u. unfold getUser. cbn. rewrite lookup_insert.
  destruct (decide (userId = other)) as [->|Hne].
  - intros [= <-]. repeat split; cbn; try done. constructor.
  - apply Husers.
Qed.

Lemma reachable_inv S2N app : reachable S2N app → appInv app.
Proof.
  induction 1 as [|app userId name responses now _ IH|app userId missionId now _ IH].
  - split; [done|]. intros userId user. unfold getUser. cbn.
    by rewrite lookup_empty.
  - by apply createUser_inv.
  - by apply completeMission_inv.
Qed.


(** C7. For a [userId] that is not in the user store, [completeMission]
    returns [false] and leaves the app as it was, so the progress record of
    every user (experience, coins, level, completed missions, last
    activity) is unchanged; [completeMissionAPI] throws the error
    "Failed to complete mission" instead of returning a success result. *)
Theorem completeMission_unknown_user app userId missionId now :
  getUser app userId = None →
  completeMission app userId missionId now = (app, false)
  ∧ (∀ other,
       progress <$> getUser (completeMission app userId missionId now).1 other
       = progress <$> getUser app other)
  ∧ completeMissionAPI app userId missionId now
    = (app, Thrown "Failed to complete mission").
Proof.
  intros Hnone.
  assert (H : completeMission app userId missionId now = (app, false)).
  { unfold completeMission, completeMission_trace. by rewrite Hnone. }
  split; [exact H|]. split.
  - intros other. by rewrite H.
  - unfold completeMissionAPI. by rewrite H.
Qed.

Lemma completeMission_unknown_user_witness :
  getUser exampleApp "nobody" = None
  ∧ completeMissionAPI exampleApp "nobody" "energy_0" 5
    = (exampleApp, Thrown "Failed to complete mission").
Proof.
  assert (H : getUser exampleApp "nobody" = None) by (vm_compute; reflexivity).
  split; [exact H|].
  exact (proj2 (proj2 (completeMission_unknown_user exampleApp "nobody" "energy_0" 5 H))).
Defined.

(** C2. For a user of the store at level 1 with 90 experience points, one
    call of [completeMission], whatever the mission, adds 20 experience
    points and 10 coins; the level-up check, made once, finds
    110 >= 1 * 100, so the level becomes 2 (and no more) and the coins grow
    by a further 2 * 10 = 20.  The achievement check that follows adds the
    rewards of the achievements it unlocks to the experience and changes
    neither level nor coins. *)
Theorem completeMission_levels_up_once app userId user missionId now :
  getUser app userId = Some user →
  level (progress user) = 1 →
  xp (progress user) = 90 →
  let awarded := awardCompletion user missionId now in
  let result := completeMission_trace app userId missionId now in
  xp (progress awarded) = 90 + 20
  ∧ coins (progress awarded) = coins (progress user) + 10
  ∧ level (progress awarded) * 100 <= xp (progress awarded)
  ∧ (checkLevelUp awarded).2 = true
  ∧ ∃ user',
      getUser result.1.1 userId = Some user'
      ∧ result.1.2 = true
      ∧ level (progress user') = 2
      ∧ coins (progress user') = coins (progress user) + 10 + 20
      ∧ xp (progress user') = 110 + rewardsOf result.2.
Proof.
  intros Huser Hlevel Hxp awarded result.
  assert (Hup : checkLevelUp awarded
                = (set_progress awarded
                     {| level := 2;
                        xp := 110;
                        coins := coins (progress user) + 10 + 2 * 10;
                        streaks := streaks (progress user);
                        completedMissions :=
                          completedMissions (progress user) ++ [missionId];
                        unlockedAchievements := unlockedAchievements (progress user);
                        lastActive := now |},
                   true)).
  { unfold checkLevelUp. subst awarded. cbn. by rewrite Hlevel, Hxp. }
  split; [subst awarded; cbn; by rewrite Hxp|].
  split; [done|].
  split; [subst awarded; cbn; rewrite Hlevel, Hxp; lia|].
  split; [by rewrite Hup|].
  subst result. rewrite (completeMission_trace_some _ _ _ _ _ Huser). cbv zeta.
  fold awarded. rewrite Hup. cbn [fst snd].
  match goal with
  | |- context [checkAchievements ?all ?u now] =>
      destruct (checkAchievements_spec all u now)
        as [_ _ Hxp' Hlvl' Hcoins' _ _ _ _ _];
      set (scan := checkAchievements all u now) in *
  end.
  cbn [scan_user set_progress progress xp level coins] in *.
  exists (set_updatedAt (scan_user scan) now).
  split; [apply lookup_insert_eq|]. split; [done|].
  cbn [set_updatedAt progress]. rewrite Hlvl', Hcoins', Hxp'.
  repeat split; lia.
Qed.

Lemma completeMission_levels_up_once_witness :
  getUser almostLevelTwoApp "user_2" = Some almostLevelTwo
  ∧ ∃ user',
      getUser (completeMission almostLevelTwoApp "user_2" "energy_0" 5).1 "user_2"
      = Some user'
      ∧ level (progress user') = 2
      ∧ coins (progress user') = 130.
Proof.
  assert (H : getUser almostLevelTwoApp "user_2" = Some almostLevelTwo)
    by (vm_compute; reflexivity).
  split; [exact H|].
  destruct (completeMission_levels_up_once almostLevelTwoApp "user_2" almostLevelTwo
              "energy_0" 5 H eq_refl eq_refl)
    as (_ & _ & _ & _ & user' & Hget & _ & Hlevel & Hcoins & _).
  exists user'. split; [exact Hget|]. split; [exact Hlevel | exact Hcoins].
Defined.

(** C3. In every state the app can reach and for every user of the store:
    the [completeMission] call that makes [completedMissions.length]
    reach 1 (the list was empty before) unlocks [first_mission], which
    heads the list of new achievements, is worth 50 points and occurs in
    that list once, so its reward enters the experience total once; a
    call made when missions were completed before finds the id in
    [unlockedAchievements] and skips it: the id is not among the new
    achievements, whose rewards are all that the call adds beyond the flat
    20 points.  After any call the id is in [unlockedAchievements], which
    holds no id twice. *)
Theorem first_mission_unlocked_once S2N app userId user missionId now :
  reachable S2N app →
  getUser app userId = Some user →
  let result := completeMission_trace app userId missionId now in
  let news := result.2 in
  ∃ user',
    getUser result.1.1 userId = Some user'
    ∧ "first_mission" ∈ unlockedAchievements (progress user')
    ∧ NoDup (unlockedAchievements (progress user'))
    ∧ unlockedAchievements (progress user')
      = unlockedAchievements (progress user) ++ map ach_id news
    ∧ xp (progress user') = xp (progress user) + 20 + rewardsOf news
    ∧ (completedMissions (progress user) = [] →
         length (completedMissions (progress user')) = 1%nat
         ∧ ("first_mission" ∉ unlockedAchievements (progress user))
         ∧ ∃ a others,
             news = a :: others
             ∧ ach_id a = "first_mission" ∧ ach_xpReward a = 50
             ∧ "first_mission" ∉ map ach_id others)
    ∧ (completedMissions (progress user) ≠ [] →
         "first_mission" ∈ unlockedAchievements (progress user)
         ∧ "first_mission" ∉ map ach_id news).
Proof.
  intros Hreach Huser result news.
  assert (Hinv := reachable_inv _ _ Hreach).
  destruct (completeMission_user app userId user missionId now Hinv Huser)
    as (user' & Hget & _ & (Hl & Hnd & Hempty & Hfirst) & Hcompl & Hunl & Hxp).
  fold result in Hget, Hunl, Hxp. fold news in Hunl, Hxp.
  destruct (proj2 Hinv _ _ Huser) as (_ & Hnd0 & Hempty0 & Hfirst0).
  exists user'. split; [done|].
  split; [by apply Hfirst; rewrite Hcompl; intros ?%app_eq_nil%proj2|].
  split; [done|]. split; [done|]. split; [done|]. split.
  - intros Hnil. rewrite Hcompl, Hnil. split; [done|].
    assert (Hnot : "first_mission" ∉ unlockedAchievements (progress user))
      by (rewrite (Hempty0 Hnil); apply not_elem_of_nil).
    split; [done|].
    subst news result. rewrite (completeMission_trace_some _ _ _ _ _ Huser).
    cbv zeta. cbn [snd].
    apply first_mission_scan; [apply Hinv| |].
    + rewrite checkLevelUp_completed. cbn. by intros ?%app_eq_nil%proj2.
    + by rewrite checkLevelUp_unlocked.
  - intros Hnonempty. assert (Hin := Hfirst0 Hnonempty). split; [done|].
    intros Hnew. rewrite Hunl in Hnd. apply NoDup_app in Hnd as (_ & Hdisj & _).
    by apply (Hdisj "first_mission").
Qed.

Lemma first_mission_unlocked_once_witness :
  reachable decimalStringToNumber exampleApp
  ∧ ∃ user',
      getUser (completeMission exampleApp "user_1" "energy_0" 5).1 "user_1" = Some user'
      ∧ "first_mission" ∈ unlockedAchievements (progress user').
Proof.
  assert (Hreach : reachable decimalStringToNumber exampleApp)
    by (apply reachable_createUser, reachable_new).
  split; [exact Hreach|].
  destruct (first_mission_unlocked_once decimalStringToNumber exampleApp "user_1"
              (createUser decimalStringToNumber newApp "user_1" "Alex Smith"
                 exampleResponses 0).2
              "energy_0" 5 Hreach)
    as (user' & Hget & Hin & _).
  - vm_compute. reflexivity.
  - exists user'. split; [exact Hget | exact Hin].
Defined.


(** *** Daily missions *)

(** The index computed from a random draw is inside the pool. *)
Lemma randomIndex_lt (r : RandomDraw) (n : nat) :
  (0 < n)%nat → (randomIndex r n < n)%nat.
Proof.
  intros Hn. unfold randomIndex. destruct r as [q Hq]. cbn [draw].
  apply andb_true_iff in Hq as [H0 H1].
  apply Qle_bool_iff in H0. apply negb_true_iff in H1.
  assert (Hq1 : (q < 1)%Q).
  { apply Qnot_le_lt. intros Hle. apply Qle_bool_iff in Hle. congruence. }
  set (x := (q * inject_Z (Z.of_nat n))%Q).
  assert (Hnpos : (0 < inject_Z (Z.of_nat n))%Q).
  { change 0%Q with (inject_Z 0). rewrite <- Zlt_Qlt. lia. }
  assert (Hx0 : (0 <= x)%Q) by (apply Qmult_le_0_compat; [done | by apply Qlt_le_weak]).
  assert (Hxn : (x < inject_Z (Z.of_nat n))%Q).
  { eapply Qlt_le_trans; [apply Qmult_lt_compat_r; [exact Hnpos | exact Hq1]|].
    rewrite Qmult_1_l. apply Qle_refl. }
  assert (Hf0 : (0 <= Qfloor x)%Z) by exact (Qfloor_resp_le 0 x Hx0).
  assert (Hfn : (Qfloor x < Z.of_nat n)%Z).
  { rewrite Zlt_Qlt. eapply Qle_lt_trans; [apply Qfloor_le | exact Hxn]. }
  lia.
Qed.

Lemma pick_lookup {A} (r : RandomDraw) (first : A) (others : list A) :
  (first :: others) !! randomIndex r (length (first :: others))
  = Some (pick r first others).
Proof.
  unfold pick.
  destruct (lookup_lt_is_Some_2 (first :: others)
              (randomIndex r (length (first :: others)))) as [x Hx].
  - apply randomIndex_lt. simpl. lia.
  - by rewrite (nth_lookup_Some _ _ first x Hx).
Qed.

Lemma pick_elem {A} (r : RandomDraw) (first : A) (others : list A) :
  pick r first others ∈ first :: others.
Proof. eapply list_elem_of_lookup_2, pick_lookup. Qed.

(** The missions that the [while] loop appends. *)
Lemma fillVariety_spec fuel rand user now count st :
  count - Z.of_nat (length st.1) <= Z.of_nat fuel →
  ∃ varieties,
    (fillVariety fuel rand user now count st).1 = st.1 ++ varieties
    ∧ Forall (λ m, ∃ r, m = createVarietyMission user now r) varieties
    ∧ length varieties = Z.to_nat (count - Z.of_nat (length st.1)).
Proof.
  revert st. induction fuel as [|fuel IH]; intros st Hfuel; cbn [fillVariety].
  - exists []. rewrite app_nil_r. repeat split; [constructor | simpl; lia].
  - destruct (Z.of_nat (length st.1) <? count) eqn:E.
    + apply Z.ltb_lt in E.
      destruct (IH (st.1 ++ [createVarietyMission user now (rand st.2)], S st.2))
        as (varieties & Heq & Hall & Hlen).
      { cbn [fst]. rewrite length_app. simpl. lia. }
      cbn [fst] in *. rewrite length_app in Hlen. simpl in Hlen.
      exists (createVarietyMission user now (rand st.2) :: varieties).
      split; [by rewrite Heq, <- app_assoc|].
      split; [constructor; eauto|]. simpl. lia.
    + apply Z.ltb_ge in E. exists []. rewrite app_nil_r.
      repeat split; [constructor | simpl; lia].
Qed.

Lemma missionCountOf_bounds user :
  1 <= level (progress user) → 3 <= missionCountOf user <= 7.
Proof.
  intros Hl. unfold missionCountOf.
  assert (0 <= level (progress user) / 5) by (apply Z.div_pos; lia). lia.
Qed.

(** C10. In every state the app can reach: for a [userId] of the store,
    [generateDailyMissions] returns exactly [min(3 + floor(level / 5), 7)]
    missions, which are the first that many of the rule-driven missions
    followed by as many variety missions as the rules leave short of that
    count; for a [userId] that is not in the store it returns the empty
    list, and signals no error. *)
Theorem generateDailyMissions_count S2N app userId now rand :
  reachable S2N app →
  match getUser app userId with
  | Some user =>
      let missions := generateDailyMissions app userId now rand in
      let rules := (ruleMissions user now rand).1 in
      Z.of_nat (length missions) = Z.min (3 + level (progress user) / 5) 7
      ∧ ∃ varieties,
          Forall (λ m, ∃ r, m = createVarietyMission user now r) varieties
          ∧ length varieties = (length missions - length rules)%nat
          ∧ missions = take (length missions) (rules ++ varieties)
  | None => generateDailyMissions app userId now rand = []
  end.
Proof.
  intros Hreach. unfold generateDailyMissions.
  destruct (getUser app userId) as [user|] eqn:Huser; [|done].
  destruct (proj2 (reachable_inv _ _ Hreach) _ _ Huser) as (Hlevel & _).
  assert (Hcount := missionCountOf_bounds user Hlevel).
  cbv zeta.
  destruct (fillVariety_spec (Z.to_nat (missionCountOf user)) rand user now
              (missionCountOf user) (ruleMissions user now rand))
    as (varieties & Heq & Hall & Hlen); [lia|].
  rewrite Heq. unfold slice0.
  destruct (missionCountOf user <? 0) eqn:E; [apply Z.ltb_lt in E; lia|].
  fold (missionCountOf user).
  assert (Htake : length (take (Z.to_nat (missionCountOf user))
                            ((ruleMissions user now rand).1 ++ varieties))
                  = Z.to_nat (missionCountOf user)).
  { rewrite length_take, length_app. lia. }
  rewrite Htake. split; [lia|].
  exists varieties. split; [done|]. split; [lia | done].
Qed.

Lemma generateDailyMissions_count_witness :
  reachable decimalStringToNumber exampleApp
  ∧ length (generateDailyMissions exampleApp "user_1" 5 alwaysHalf) = 3%nat
  ∧ generateDailyMissions exampleApp "nobody" 5 alwaysHalf = [].
Proof.
  assert (Hreach : reachable decimalStringToNumber exampleApp)
    by (apply reachable_createUser, reachable_new).
  split; [exact Hreach|].
  assert (H1 := generateDailyMissions_count decimalStringToNumber exampleApp
                  "user_1" 5 alwaysHalf Hreach).
  assert (H2 := generateDailyMissions_count decimalStringToNumber exampleApp
                  "nobody" 5 alwaysHalf Hreach).
  split.
  - apply Nat2Z.inj. exact (proj1 H1).
  - exact H2.
Defined.


(** *** Survey processing *)

Section SurveyProps.

Variable StringToNumber : string -> jsnum.

Lemma responseMap_snoc responses r :
  responseMap (responses ++ [r]) = <[questionId r := value r]> (responseMap responses).
Proof. unfold responseMap. by rewrite fold_left_app. Qed.

(** Leaving out the responses to one question removes that key and no other. *)
Lemma responseMap_without (key : string) responses (k : string) :
  responseMap (filter (λ r, questionId r ≠ key) responses) !! k
  = if decide (k = key) then None else responseMap responses !! k.
Proof.
  induction responses as [|r responses IH] using rev_ind.
  - cbn. rewrite lookup_empty. by destruct (decide _).
  - rewrite filter_app, filter_cons, filter_nil, responseMap_snoc.
    destruct (decide (questionId r ≠ key)) as [Hne|Heq].
    + rewrite responseMap_snoc, !lookup_insert.
      destruct (decide (questionId r = k)) as [Hk|Hk]; [|exact IH].
      destruct (decide (k = key)); [congruence | done].
    + apply dec_stable in Heq. rewrite app_nil_r, IH.
      destruct (decide (k = key)) as [Hk|Hk]; [done|].
      rewrite lookup_insert_ne by congruence. done.
Qed.

Lemma js_or_falsy n fallback : js_truthy n = false → js_or n fallback = fallback.
Proof. unfold js_or. by intros ->. Qed.

(** The rule of every field of [processSurveyResponses] and [processGoals]. *)
Lemma numberOr_fallback (m : gmap string Value) key fallback :
  m !! key = None ∨ js_truthy (Number StringToNumber (m !! key)) = false →
  numberOr StringToNumber m key fallback = JFin fallback.
Proof.
  intros [Hnone|Hfalsy]; unfold numberOr; apply js_or_falsy; [|done].
  by rewrite Hnone.
Qed.

Lemma numberOr_without key responses k fallback :
  js_truthy (Number StringToNumber (responseMap responses !! key)) = false →
  numberOr StringToNumber (responseMap (filter (λ r, questionId r ≠ key) responses))
    k fallback
  = numberOr StringToNumber (responseMap responses) k fallback.
Proof.
  intros Hfalsy. unfold numberOr. rewrite responseMap_without.
  destruct (decide (k = key)) as [->|Hk]; [|done].
  by rewrite (js_or_falsy _ _ Hfalsy).
Qed.

(** C9. [processSurveyResponses] (and [processGoals], through the same
    expression) puts a field's fixed fallback value not only when the
    question id is missing but whenever the number the supplied value
    converts to is falsy.  A [baseline_energy] response whose value is 0, or
    a string that converts to NaN, gives [energyLevel] 1; and the baseline
    computed from such responses is the baseline computed from the same
    responses without any answer to [baseline_energy]: the supplied 0 cannot
    be told from a missing answer. *)
Theorem processSurveyResponses_falsy_is_missing :
  (∀ (m : gmap string Value) key fallback,
     m !! key = None ∨ js_truthy (Number StringToNumber (m !! key)) = false →
     numberOr StringToNumber m key fallback = JFin fallback)
  ∧ (∀ userId responses v,
       responseMap responses !! "baseline_energy" = Some v →
       v = VNumber (JFin 0) ∨ (∃ s, v = VString s ∧ StringToNumber s = JNaN) →
       energyLevel (processSurveyResponses StringToNumber userId responses) = JFin 1)
  ∧ (∀ responses v,
       responseMap responses !! "goal_energy_3m" = Some v →
       v = VNumber (JFin 0) ∨ (∃ s, v = VString s ∧ StringToNumber s = JNaN) →
       threeMonths (goal_energyLevel (processGoals StringToNumber responses)) = JFin 5)
  ∧ (∀ userId responses,
       js_truthy (Number StringToNumber (responseMap responses !! "baseline_energy"))
       = false →
       processSurveyResponses StringToNumber userId responses
       = processSurveyResponses StringToNumber userId
           (filter (λ r, questionId r ≠ "baseline_energy") responses)).
Proof.
  split; [exact numberOr_fallback|]. split; [|split].
  - intros userId responses v Hv Hfalsy. cbn [processSurveyResponses energyLevel].
    apply numberOr_fallback. right. rewrite Hv.
    destruct Hfalsy as [->|(s & -> & Hs)]; cbn; [done | by rewrite Hs].
  - intros responses v Hv Hfalsy.
    cbn [processGoals goal_energyLevel threeMonths].
    apply numberOr_fallback. right. rewrite Hv.
    destruct Hfalsy as [->|(s & -> & Hs)]; cbn; [done | by rewrite Hs].
  - intros userId responses Hfalsy. unfold processSurveyResponses. cbv zeta.
    by rewrite !(numberOr_without "baseline_energy") by exact Hfalsy.
Qed.

End SurveyProps.

(** A response of 0 and a response that is not a number, next to no
    response at all. *)
Example energy_zero_is_default :
  energyLevel (processSurveyResponses decimalStringToNumber "user_1"
                 [answer "baseline_energy" 0])
  = JFin 1
  ∧ energyLevel (processSurveyResponses decimalStringToNumber "user_1"
                   [ {| questionId := "baseline_energy"; value := VString "plenty";
                        timestamp := 0 |} ])
    = JFin 1
  ∧ energyLevel (processSurveyResponses decimalStringToNumber "user_1" []) = JFin 1.
Proof. repeat split. Qed.

(** *** Estimated times of the gamified missions *)

Lemma createEnergyMission_time user now r :
  0 <= estimatedTime (createEnergyMission user now r).
Proof.
  unfold createEnergyMission. cbn [estimatedTime].
  match goal with |- context [pick r ?x ?l] => pose proof (pick_elem r x l) as H end.
  repeat (apply elem_of_cons in H as [->|H]); try done.
  by apply elem_of_nil in H.
Qed.

Lemma createFitnessMission_time user now r :
  0 <= estimatedTime (createFitnessMission user now r).
Proof.
  unfold createFitnessMission. cbn [estimatedTime].
  match goal with |- context [pick r ?x ?l] => pose proof (pick_elem r x l) as H end.
  repeat (apply elem_of_cons in H as [->|H]); cbn; try done.
  - by destruct (js_ltb _ _).
  - by apply elem_of_nil in H.
Qed.

Lemma createNutritionMission_time user now r :
  0 <= estimatedTime (createNutritionMission user now r).
Proof.
  unfold createNutritionMission. cbn [estimatedTime].
  match goal with |- context [pick r ?x ?l] => pose proof (pick_elem r x l) as H end.
  repeat (apply elem_of_cons in H as [->|H]); try done.
  by apply elem_of_nil in H.
Qed.

Lemma createSleepMission_time user now :
  0 <= estimatedTime (createSleepMission user now).
Proof. done. Qed.

Lemma createStressMission_time user now r :
  0 <= estimatedTime (createStressMission user now r).
Proof.
  unfold createStressMission. cbn [estimatedTime].
  match goal with |- context [pick r ?x ?l] => pose proof (pick_elem r x l) as H end.
  repeat (apply elem_of_cons in H as [->|H]); try done.
  by apply elem_of_nil in H.
Qed.

Lemma createVarietyMission_time user now r :
  0 <= estimatedTime (createVarietyMission user now r).
Proof.
  unfold createVarietyMission. cbn [estimatedTime].
  match goal with |- context [pick r ?x ?l] => pose proof (pick_elem r x l) as H end.
  repeat (apply elem_of_cons in H as [->|H]); try done.
  by apply elem_of_nil in H.
Qed.

Lemma pushDrawn_Forall (P : DailyMission → Prop) rand cond factory st :
  (∀ r, P (factory r)) → Forall P st.1 → Forall P (pushDrawn rand cond factory st).1.
Proof.
  intros Hf Hst. unfold pushDrawn. destruct cond; [|done].
  cbn. apply Forall_app. split; [done|]. by constructor.
Qed.

Lemma ruleMissions_time user now rand :
  Forall (λ m, 0 <= estimatedTime m) (ruleMissions user now rand).1.
Proof.
  unfold ruleMissions. cbv zeta.
  apply pushDrawn_Forall; [apply createStressMission_time|].
  match goal with |- context [if ?c then _ else _] => destruct c end.
  - cbn [fst]. apply Forall_app. split; [|by repeat constructor].
    repeat (apply pushDrawn_Forall;
            [first [apply createNutritionMission_time | apply createFitnessMission_time
                   | apply createEnergyMission_time]|]).
    constructor.
  - repeat (apply pushDrawn_Forall;
            [first [apply createNutritionMission_time | apply createFitnessMission_time
                   | apply createEnergyMission_time]|]).
    constructor.
Qed.

Lemma fillVariety_Forall (P : DailyMission → Prop) fuel rand user now count st :
  (∀ r, P (createVarietyMission user now r)) →
  Forall P st.1 → Forall P (fillVariety fuel rand user now count st).1.
Proof.
  intros Hv. revert st. induction fuel as [|fuel IH]; intros st Hst; cbn [fillVariety].
  - done.
  - destruct (_ <? _); [|done]. apply IH. cbn. apply Forall_app. split; [done|].
    by constructor.
Qed.

Lemma slice0_subseteq {A} (l : list A) (e : Z) : slice0 l e ⊆ l.
Proof. unfold slice0. destruct (e <? 0); apply subseteq_take. Qed.

Lemma generateDailyMissions_time app userId now rand m :
  m ∈ generateDailyMissions app userId now rand → 0 <= estimatedTime m.
Proof.
  unfold generateDailyMissions. destruct (getUser app userId) as [user|].
  - cbv zeta. intros Hm%slice0_subseteq. revert m Hm. apply Forall_forall.
    apply fillVariety_Forall; [apply createVarietyMission_time|].
    apply ruleMissions_time.
  - by intros ?%elem_of_nil.
Qed.

End LedgerProps.

(** * Both programs *)

(** C8. For every baseline whose [timeAvailable] is not negative and all
    goals, every mission that [generateMissions] produces has an estimated
    time that is not negative; so has every mission that the factories of
    the gamified app produce, and every mission of
    [generateDailyMissions]. *)
Theorem estimatedTime_nonneg baseline goals :
  (0 <= FitnessQuestionnaire.timeAvailable baseline)%Q →
  (∀ m, m ∈ FitnessQuestionnaire.generateMissions baseline goals →
        (0 <= FitnessQuestionnaire.estimatedTime m)%Q)
  ∧ (∀ user now r,
       (0 <= HealthVitalityApp.estimatedTime
               (HealthVitalityApp.createEnergyMission user now r))%Z
       ∧ (0 <= HealthVitalityApp.estimatedTime
                 (HealthVitalityApp.createFitnessMission user now r))%Z
       ∧ (0 <= HealthVitalityApp.estimatedTime
                 (HealthVitalityApp.createNutritionMission user now r))%Z
       ∧ (0 <= HealthVitalityApp.estimatedTime
                 (HealthVitalityApp.createSleepMission user now))%Z
       ∧ (0 <= HealthVitalityApp.estimatedTime
                 (HealthVitalityApp.createStressMission user now r))%Z
       ∧ (0 <= HealthVitalityApp.estimatedTime
                 (HealthVitalityApp.createVarietyMission user now r))%Z)
  ∧ (∀ app userId now rand m,
       m ∈ HealthVitalityApp.generateDailyMissions app userId now rand →
       (0 <= HealthVitalityApp.estimatedTime m)%Z).
Proof.
  intros Hta. split; [|split].
  - intros m Hm. by eapply QuestionnaireProps.generateMissions_time_nonneg.
  - intros user now r.
    auto 10 using LedgerProps.createEnergyMission_time,
      LedgerProps.createFitnessMission_time, LedgerProps.createNutritionMission_time,
      LedgerProps.createSleepMission_time, LedgerProps.createStressMission_time,
      LedgerProps.createVarietyMission_time.
  - intros app userId now rand m. apply LedgerProps.generateDailyMissions_time.
Qed.

Lemma estimatedTime_nonneg_witness :
  (0 <= FitnessQuestionnaire.timeAvailable Examples.exampleBaseline)%Q
  ∧ Forall (λ m, (0 <= FitnessQuestionnaire.estimatedTime m)%Q)
      (FitnessQuestionnaire.generateMissions Examples.exampleBaseline
         Examples.exampleGoals).
Proof.
  assert (H : (0 <= FitnessQuestionnaire.timeAvailable Examples.exampleBaseline)%Q).
  { apply Qle_bool_iff. vm_compute. reflexivity. }
  split; [exact H|]. apply Forall_forall.
  exact (proj1 (estimatedTime_nonneg Examples.exampleBaseline Examples.exampleGoals H)).
Defined.

(** * Properties of the prompts *)

Module InputProps.

Import FitnessQuestionnaire QuestionnaireInput Examples QuestionnaireProps.

Section PromptProps.

Variable parseFloat : string -> Parsed.
Variable parseInt : string -> option Z.

(** With both bounds given, only finite numbers inside them are accepted. *)
Lemma accepted_bounded lo hi num :
  accepted (Some lo) (Some hi) num = true ↔
  ∃ q, num = PNum q ∧ (lo <= q)%Q ∧ (q <= hi)%Q.
Proof.
  split.
  - destruct num as [|q|[|]]; simpl; try discriminate.
    intros [H1 H2]%andb_true_iff. exists q.
    by rewrite <- !Qle_bool_iff.
  - intros (q & -> & H1 & H2). simpl.
    apply andb_true_iff. by rewrite !Qle_bool_iff.
Qed.

(** [askNumber] skips the answers it does not accept and returns the
    first one it accepts. *)
Lemma askNumber_spec min max input num rest :
  askNumber parseFloat min max input = Some (num, rest) ↔
  ∃ skipped answer,
    input = skipped ++ answer :: rest
    ∧ Forall (λ a, accepted min max (parseFloat a) = false) skipped
    ∧ num = parseFloat answer
    ∧ accepted min max num = true.
Proof.
  revert num rest. induction input as [|a input IH]; intros num rest; simpl.
  - split; [discriminate|]. intros (skipped & answer & H & _).
    by destruct skipped.
  - destruct (accepted min max (parseFloat a)) eqn:E.
    + split.
      * intros [= <- <-]. exists [], a. by repeat split.
      * intros (skipped & answer & H & Hskip & -> & Hacc).
        destruct skipped as [|s skipped]; simpl in H.
        -- by injection H as -> ->.
        -- injection H as -> ->. apply Forall_cons in Hskip as [Hs _]. congruence.
    + rewrite IH. split.
      * intros (skipped & answer & -> & Hskip & -> & Hacc).
        exists (a :: skipped), answer. repeat split; try done. by constructor.
      * intros (skipped & answer & H & Hskip & -> & Hacc).
        destruct skipped as [|s skipped]; simpl in H.
        -- injection H as -> ->. congruence.
        -- injection H as -> ->. apply Forall_cons in Hskip as [_ Hskip].
           by exists skipped, answer.
Qed.

Lemma askNumber_none min max input :
  askNumber parseFloat min max input = None ↔
  Forall (λ a, accepted min max (parseFloat a) = false) input.
Proof.
  induction input as [|a input IH]; simpl; [by split; [constructor|]|].
  destruct (accepted min max (parseFloat a)) eqn:E.
  - split; [discriminate|]. intros [H _]%Forall_cons. congruence.
  - rewrite IH. split; [by constructor | by intros [_ H]%Forall_cons].
Qed.

(** X1. [askNumber] with both bounds returns the first answer that parses
    to a finite number within the bounds, after skipping every answer in
    front of it that does not; it returns nothing exactly when no answer
    does. *)
Theorem askBounded_first_valid lo hi input :
  (∀ q rest,
     askBounded parseFloat lo hi input = Some (q, rest) ↔
     ∃ skipped answer,
       input = skipped ++ answer :: rest
       ∧ Forall (λ a, ¬ ∃ x, parseFloat a = PNum x ∧ (lo <= x)%Q ∧ (x <= hi)%Q) skipped
       ∧ parseFloat answer = PNum q
       ∧ (lo <= q)%Q ∧ (q <= hi)%Q)
  ∧ (askBounded parseFloat lo hi input = None ↔
     Forall (λ a, ¬ ∃ x, parseFloat a = PNum x ∧ (lo <= x)%Q ∧ (x <= hi)%Q) input).
Proof.
  assert (Hrej : ∀ l,
            Forall (λ a, accepted (Some lo) (Some hi) (parseFloat a) = false) l
            ↔ Forall (λ a, ¬ ∃ x, parseFloat a = PNum x ∧ (lo <= x)%Q ∧ (x <= hi)%Q) l).
  { intros l. apply Forall_iff. intros a.
    rewrite <- accepted_bounded. by destruct (accepted _ _ _). }
  split.
  - intros q rest. unfold askBounded, bind, ret.
    destruct (askNumber parseFloat (Some lo) (Some hi) input) as [[num rest']|] eqn:E.
    + apply askNumber_spec in E as (skipped & answer & Hin & Hskip & Hnum & Hacc).
      subst input num.
      apply (proj1 (Hrej _)) in Hskip.
      destruct (proj1 (accepted_bounded _ _ _) Hacc) as (x & Hx & Hlo & Hhi).
      rewrite Hx. simpl. split.
      * intros [= <- <-]. by exists skipped, answer.
      * intros (skipped' & answer' & Heq & Hskip' & Hparse & Hlo' & Hhi').
        assert (skipped' = skipped ∧ answer' = answer ∧ rest = rest')
          as (-> & -> & ->).
        { clear Hacc. revert skipped' Heq Hskip'.
          induction skipped as [|s skipped IH]; intros [|s' skipped'] Heq Hskip';
            simpl in Heq.
          - by injection Heq as -> ->.
          - injection Heq as -> ->. apply Forall_cons in Hskip' as [Hs _].
            destruct Hs. eauto.
          - injection Heq as -> <-. apply Forall_cons in Hskip as [Hs _].
            destruct Hs. eauto.
          - injection Heq as -> Heq. apply Forall_cons in Hskip as [_ Hskip].
            apply Forall_cons in Hskip' as [_ Hskip'].
            by destruct (IH Hskip skipped' Heq Hskip') as (-> & -> & ->). }
        congruence.
    + split; [discriminate|].
      intros (skipped & answer & -> & Hskip & Hparse & Hlo & Hhi).
      apply askNumber_none in E. apply (proj1 (Hrej _)) in E.
      apply Forall_app in E as [_ [E _]%Forall_cons]. destruct E. eauto.
  - unfold askBounded, bind, ret.
    destruct (askNumber parseFloat (Some lo) (Some hi) input) as [[num rest']|] eqn:E.
    + split; [discriminate|]. intros Hall. apply (proj2 (Hrej _)) in Hall.
      apply askNumber_none in Hall. congruence.
    + split; [|done]. intros _. apply (proj1 (Hrej _)). by apply askNumber_none.
Qed.

(** What the later proofs use: the number lies within the bounds, and at
    least one line was read. *)
Lemma askBounded_range lo hi input q rest :
  askBounded parseFloat lo hi input = Some (q, rest) →
  (lo <= q)%Q ∧ (q <= hi)%Q ∧ (length rest < length input)%nat.
Proof.
  unfold askBounded, bind, ret.
  destruct (askNumber parseFloat (Some lo) (Some hi) input) as [[num rest']|] eqn:E;
    [|discriminate].
  intros [= <- <-].
  apply askNumber_spec in E as (skipped & answer & Hin & _ & Hnum & Hacc).
  apply accepted_bounded in Hacc as (x & -> & Hlo & Hhi). subst input.
  repeat split; try done. rewrite length_app. simpl. lia.
Qed.

(** X2. [askChoice] returns the choice whose number the first valid answer
    gives; the choice is one of the list. *)
Theorem askChoice_first_valid {T} (choices : list T) input choice rest :
  askChoice parseInt choices input = Some (choice, rest) ↔
  ∃ skipped answer n,
    input = skipped ++ answer :: rest
    ∧ Forall (λ a, ∀ k, parseInt a = Some k →
                        ¬ (1 <= k <= Z.of_nat (length choices))%Z) skipped
    ∧ parseInt answer = Some n
    ∧ (1 <= n <= Z.of_nat (length choices))%Z
    ∧ choices !! Z.to_nat (n - 1) = Some choice.
Proof.
  revert choice rest. induction input as [|a input IH]; intros choice rest; simpl.
  - split; [discriminate|]. intros (skipped & answer & n & H & _).
    by destruct skipped.
  - destruct (parseInt a) as [k|] eqn:Hk.
    + destruct ((0 <=? k - 1) && (k - 1 <? Z.of_nat (length choices)))%Z eqn:E.
      * apply andb_true_iff in E as [E1%Z.leb_le E2%Z.ltb_lt].
        destruct (lookup_lt_is_Some_2 choices (Z.to_nat (k - 1))) as [c Hc]; [lia|].
        rewrite Hc. split.
        -- intros [= <- <-]. exists [], a, k. repeat split; try done; lia.
        -- intros (skipped & answer & n & H & Hskip & Hn & Hrange & Hlook).
           destruct skipped as [|s skipped]; simpl in H.
           ++ injection H as -> ->. congruence.
           ++ injection H as -> ->. apply Forall_cons in Hskip as [Hs _].
              destruct (Hs k Hk). lia.
      * assert (Hout : ¬ (1 <= k <= Z.of_nat (length choices))%Z).
        { intros [H1 H2]. apply andb_false_iff in E as [E%Z.leb_gt|E%Z.ltb_ge]; lia. }
        rewrite IH. split.
        -- intros (skipped & answer & n & -> & Hskip & Hn & Hrange & Hlook).
           exists (a :: skipped), answer, n. repeat split; try done; try lia.
           constructor; [|done]. intros k' Hk'. congruence.
        -- intros (skipped & answer & n & H & Hskip & Hn & Hrange & Hlook).
           destruct skipped as [|s skipped]; simpl in H.
           ++ injection H as -> ->. congruence.
           ++ injection H as -> ->. apply Forall_cons in Hskip as [_ Hskip].
              by exists skipped, answer, n.
    + rewrite IH. split.
      * intros (skipped & answer & n & -> & Hskip & Hn & Hrange & Hlook).
        exists (a :: skipped), answer, n. repeat split; try done; try lia.
        constructor; [|done]. intros k' Hk'. congruence.
      * intros (skipped & answer & n & H & Hskip & Hn & Hrange & Hlook).
        destruct skipped as [|s skipped]; simpl in H.
        -- injection H as -> ->. congruence.
        -- injection H as -> ->. apply Forall_cons in Hskip as [_ Hskip].
           by exists skipped, answer, n.
Qed.

Lemma askChoice_elem {T} (choices : list T) input choice rest :
  askChoice parseInt choices input = Some (choice, rest) →
  choice ∈ choices ∧ (length rest < length input)%nat.
Proof.
  induction input as [|a input IH]; simpl; [discriminate|].
  destruct (parseInt a) as [k|].
  - destruct (_ && _)%Z.
    + destruct (choices !! Z.to_nat (k - 1)) as [c|] eqn:Hc; [|discriminate].
      intros [= <- <-]. split; [by eapply list_elem_of_lookup_2 | lia].
    + intros [Hc Hl]%IH. split; [done | lia].
  - intros [Hc Hl]%IH. split; [done | lia].
Qed.

Lemma ask_consumes input answer rest :
  ask input = Some (answer, rest) → (length rest < length input)%nat.
Proof. destruct input; [discriminate|]. intros [= <- <-]. simpl. lia. Qed.

(** Running a method to its end, one prompt at a time. *)
Ltac run_prompts H :=
  unfold bind in H;
  repeat match type of H with
         | match ?c with _ => _ end = Some _ =>
             let E := fresh "Hask" in
             destruct c as [[? ?]|] eqn:E; [|discriminate H]
         end;
  unfold ret in H; injection H as <- <-.

Ltac use_prompts :=
  repeat match goal with
         | H : askBounded _ _ _ _ = Some _ |- _ => apply askBounded_range in H
         | H : askChoice _ _ _ = Some _ |- _ => apply askChoice_elem in H
         | H : ask _ = Some _ |- _ =>
             let E := fresh "Hline" in
             assert (E := ask_consumes _ _ _ H); clear H
         end.

Lemma equipmentOf_cases hasGym hasHome :
  equipmentOf hasGym hasHome
  ∈ [ ["gym_access"]; ["home_equipment"];
      ["gym_access"; "home_equipment"]; ["bodyweight_only"] ].
Proof.
  unfold equipmentOf.
  destruct (bool_decide (toLowerCase hasGym = "y")),
    (bool_decide (toLowerCase hasHome = "y")); cbn;
    rewrite !elem_of_cons; tauto.
Qed.

Lemma collectBaseline_ranges input baseline rest :
  collectBaseline parseFloat parseInt input = Some (baseline, rest) →
  validBaseline baseline ∧ (length rest + 14 <= length input)%nat.
Proof.
  intros H. unfold collectBaseline in H. run_prompts H.
  match goal with
  | H : (if ?b then _ else _) _ = Some _ |- _ => destruct b eqn:Hfreq
  end.
  - use_prompts. apply Qgtb_true in Hfreq. destruct_and!.
    unfold validBaseline, within. cbn.
    repeat split;
      first [ done | lia | apply equipmentOf_cases
            | intros Hle; destruct (Qlt_not_le _ _ Hfreq Hle)
            | by exfalso; eapply Qlt_not_le; eauto ].
  - match goal with H : ret _ _ = Some _ |- _ => injection H as <- <- end.
    use_prompts. apply Qgtb_false in Hfreq. destruct_and!.
    unfold validBaseline, within. cbn.
    repeat split;
      first [ done | lia | apply equipmentOf_cases
            | intros Hlt; destruct (Qlt_not_le _ _ Hlt Hfreq)
            | by exfalso; eapply Qlt_not_le; eauto ].
Qed.


Lemma collectGoals_ranges input goals rest :
  collectGoals parseFloat parseInt input = Some (goals, rest) →
  validGoals goals ∧ (length rest + 6 <= length input)%nat.
Proof.
  intros H. unfold collectGoals in H. run_prompts H.
  match goal with
  | H : (if ?b then _ else _) _ = Some _ |- _ => destruct b eqn:Hgoal
  end.
  - match goal with
    | H : match askBounded _ _ _ _ with _ => _ end = Some _ |- _ => rename H into Hw
    end.
    destruct (askBounded parseFloat 50 500 _) as [[w ?]|] eqn:Hask'; [|discriminate].
    unfold ret in Hw. injection Hw as <- <-.
    apply orb_true_iff in Hgoal. rewrite !bool_decide_eq_true in Hgoal.
    use_prompts. destruct_and!. unfold validGoals, within. cbn.
    repeat split; first [ done | lia ].
  - match goal with H : ret _ _ = Some _ |- _ => injection H as <- <- end.
    apply orb_false_iff in Hgoal. rewrite !bool_decide_eq_false in Hgoal.
    use_prompts. destruct_and!. unfold validGoals, within. cbn.
    repeat split; first [ done | lia ].
Qed.

(** X3. Every baseline that [collectBaseline] returns lies within the
    ranges of its prompts: in particular the time available is between 0
    and 300 minutes, the three levels are between 1 and 10, the workout
    duration is 0 exactly when the frequency is 0, and the equipment list
    is one of the four non-empty lists the method can build.  At least
    fourteen lines are read, and fewer lines are left than were there. *)
Theorem collectBaseline_valid input baseline rest :
  collectBaseline parseFloat parseInt input = Some (baseline, rest) →
  validBaseline baseline
  ∧ (0 <= timeAvailable baseline)%Q
  ∧ (14 <= length input)%nat ∧ (length rest < length input)%nat.
Proof.
  intros [Hvalid Hlines]%collectBaseline_ranges.
  split; [exact Hvalid|]. split; [apply Hvalid|]. lia.
Qed.


Lemma generateMissions_budget baseline goals :
  (0 <= timeAvailable baseline)%Q →
  (totalTime (generateMissions baseline goals) <= timeAvailable baseline)%Q.
Proof.
  intros Hta. unfold generateMissions, prioritizeMissions.
  destruct (Qgtb _ _) eqn:E.
  - rewrite totalTime_running. by apply keepWithin_within.
  - by apply Qgtb_false.
Qed.

(** X5. Whenever [run] gets through both questionnaires, the missions it
    displays are those of [generateMissions] for the collected profiles,
    their total estimated time is at most the time the user said to have,
    and no mission has a negative time. *)
Theorem run_plan_fits input session rest :
  run parseFloat parseInt input = Some (session, rest) →
  validBaseline (session_baseline session)
  ∧ validGoals (session_goals session)
  ∧ session_missions session
    = generateMissions (session_baseline session) (session_goals session)
  ∧ (totalTime (session_missions session)
     <= timeAvailable (session_baseline session))%Q
  ∧ Forall (λ m, (0 <= estimatedTime m)%Q) (session_missions session).
Proof.
  intros H. unfold run, bind in H.
  destruct (collectBaseline _ _ input) as [[baseline rest1]|] eqn:Hb; [|discriminate].
  destruct (collectGoals _ _ rest1) as [[goals rest2]|] eqn:Hg; [|discriminate].
  injection H as <- <-. cbn.
  apply collectBaseline_ranges in Hb as [Hb _].
  apply collectGoals_ranges in Hg as [Hg _].
  assert (Hta : (0 <= timeAvailable baseline)%Q) by apply Hb.
  split; [done|]. split; [done|]. split; [done|].
  split; [by apply generateMissions_budget|].
  apply Forall_forall. intros m Hm. by eapply generateMissions_time_nonneg.
Qed.

(** X6. In a session that [run] completes, the summary has a weight line
    exactly when the primary goal is weight loss or muscle gain; the line
    says "Gain" when the target is above the current weight and "Lose"
    otherwise (also when the two are equal), with the absolute
    difference. *)
Theorem weightGoal_line input session rest :
  run parseFloat parseInt input = Some (session, rest) →
  let baseline := session_baseline session in
  let goals := session_goals session in
  (is_Some (weightGoal baseline goals)
   ↔ primaryGoal goals = weight_loss ∨ primaryGoal goals = muscle_gain)
  ∧ ∀ verb amount,
      weightGoal baseline goals = Some (verb, amount) →
      ∃ target,
        targetWeight goals = Some target
        ∧ amount = Qabs (target - currentWeight baseline)
        ∧ (verb = "Gain" ↔ (currentWeight baseline < target)%Q)
        ∧ (verb = "Lose" ↔ (target <= currentWeight baseline)%Q).
Proof.
  intros H baseline goals. unfold run, bind in H.
  destruct (collectBaseline _ _ input) as [[b rest1]|] eqn:Hb; [|discriminate].
  destruct (collectGoals _ _ rest1) as [[g rest2]|] eqn:Hg; [|discriminate].
  injection H as <- <-. cbn in baseline, goals. subst baseline goals.
  apply collectBaseline_ranges in Hb as [(_ & [Hw _] & _) _].
  apply collectGoals_ranges in Hg as [(_ & _ & _ & _ & Hg) _].
  set (baseline := b) in *. set (goals := g) in *.
  assert (Hcur : Qeq_bool (currentWeight baseline) 0 = false).
  { apply not_true_iff_false. intros E%Qeq_bool_iff. rewrite E in Hw.
    by apply Qle_bool_iff in Hw. }
  unfold weightGoal. destruct (targetWeight goals) as [target|].
  - destruct Hg as [[Ht _] Hgoal].
    assert (Htar : Qeq_bool target 0 = false).
    { apply not_true_iff_false. intros E%Qeq_bool_iff. rewrite E in Ht.
      by apply Qle_bool_iff in Ht. }
    rewrite Htar, Hcur. cbn [negb andb]. split; [by split; [|eexists]|].
    intros verb amount [= <- <-]. exists target. split; [done|]. split; [done|].
    destruct (Qgtb (target - currentWeight baseline) 0) eqn:E.
    + apply Qgtb_true in E. unfold Qminus in E. rewrite <- Qlt_minus_iff in E.
      split; [done|].
      split; [discriminate|]. intros Hle. destruct (Qlt_not_le _ _ E Hle).
    + apply Qgtb_false in E.
      assert (Hle : (target <= currentWeight baseline)%Q).
      { apply Qnot_lt_le. intros Hlt. rewrite Qlt_minus_iff in Hlt.
        exact (Qlt_not_le _ _ Hlt E). }
      split; [|done]. split; [discriminate|]. intros Hlt.
      destruct (Qlt_not_le _ _ Hlt Hle).
  - destruct Hg as [Hn1 Hn2]. split; [|discriminate].
    split; [by intros [? ?] | tauto].
Qed.

End PromptProps.

Lemma collectBaseline_valid_witness :
  ∃ rest,
    collectBaseline digitsParseFloat digitsParseInt exampleAnswers
    = Some (exampleBaseline, rest)
    ∧ validBaseline exampleBaseline.
Proof.
  eexists. assert (H : collectBaseline digitsParseFloat digitsParseInt exampleAnswers
                       = Some (exampleBaseline, drop 15 exampleAnswers))
    by (vm_compute; reflexivity).
  split; [exact H|].
  exact (proj1 (collectBaseline_valid digitsParseFloat digitsParseInt _ _ _ H)).
Defined.


Lemma run_plan_fits_witness :
  run digitsParseFloat digitsParseInt exampleAnswers
  = Some ({| session_baseline := exampleBaseline;
             session_goals := exampleGoals;
             session_missions := generateMissions exampleBaseline exampleGoals |}, [])
  ∧ (totalTime (generateMissions exampleBaseline exampleGoals)
     <= timeAvailable exampleBaseline)%Q.
Proof.
  assert (H : run digitsParseFloat digitsParseInt exampleAnswers
              = Some ({| session_baseline := exampleBaseline;
                         session_goals := exampleGoals;
                         session_missions :=
                           generateMissions exampleBaseline exampleGoals |}, []))
    by (vm_compute; reflexivity).
  split; [exact H|].
  exact (proj1 (proj2 (proj2 (proj2
           (run_plan_fits digitsParseFloat digitsParseInt _ _ _ H))))).
Defined.

Lemma weightGoal_line_witness :
  run digitsParseFloat digitsParseInt exampleAnswers
  = Some ({| session_baseline := exampleBaseline;
             session_goals := exampleGoals;
             session_missions := generateMissions exampleBaseline exampleGoals |}, [])
  ∧ is_Some (weightGoal exampleBaseline exampleGoals).
Proof.
  assert (H : run digitsParseFloat digitsParseInt exampleAnswers
              = Some ({| session_baseline := exampleBaseline;
                         session_goals := exampleGoals;
                         session_missions :=
                           generateMissions exampleBaseline exampleGoals |}, []))
    by (vm_compute; reflexivity).
  split; [exact H|].
  apply (proj1 (weightGoal_line digitsParseFloat digitsParseInt _ _ _ H)).
  left. reflexivity.
Defined.

End InputProps.

(** * Further properties of the mission generator *)

Module GeneratorProps.

Import FitnessQuestionnaire Examples QuestionnaireProps.

(** *** The sort *)

Lemma filter_none {A} (P : A → Prop) `{!∀ x, Decision (P x)} (l : list A) :
  Forall (λ a, ¬ P a) l → filter P l = [].
Proof.
  induction 1 as [|x l Hx _ IH]; [done|]. by rewrite filter_cons_False.
Qed.

Lemma filter_all {A} (P : A → Prop) `{!∀ x, Decision (P x)} (l : list A) :
  Forall P l → filter P l = l.
Proof.
  induction 1 as [|x l Hx _ IH]; [done|]. rewrite filter_cons_True by done.
  by f_equal.
Qed.

(** In a list in key order, the elements of the least key come first. *)
Lemma sorted_least_first {A} (key : A → Z) (least : Z) (l : list A) :
  StronglySorted (λ a b, (key a <= key b)%Z) l →
  Forall (λ a, (least <= key a)%Z) l →
  l = filter (λ a, key a = least) l ++ filter (λ a, key a ≠ least) l.
Proof.
  induction 1 as [|x l Hs IH Hall]; intros Hleast; [done|].
  apply Forall_cons in Hleast as [Hx Hleast].
  rewrite !filter_cons. destruct (decide (key x = least)) as [Heq|Hne].
  - rewrite decide_False by tauto. simpl. f_equal. by apply IH.
  - rewrite decide_True by done.
    assert (Hnone : filter (λ a, key a = least) l = []).
    { apply filter_none. eapply Forall_impl; [exact Hall|].
      simpl. intros y Hy. lia. }
    rewrite Hnone. simpl. f_equal.
    symmetry. apply filter_all. eapply Forall_impl; [exact Hall|].
    simpl. intros y Hy. lia.
Qed.

Lemma indexOf_priority_nutrition goal (c : Category) :
  (-1 <= indexOf (priorityOrder goal) c)%Z
  ∧ (indexOf (priorityOrder goal) c = (-1)%Z ↔ c = nutrition).
Proof. destruct goal, c; vm_compute; split; try split; congruence. Qed.

(** X7. The sort of [prioritizeMissions] rearranges the missions and
    nothing else; afterwards they are in the order of their categories in
    the goal's priority list, the missions of one category in their
    original order; and a mission whose category is missing from the
    priority list (nutrition) is put in front of all the listed ones. *)
Theorem sortMissions_order goals missions :
  let order := priorityOrder (primaryGoal goals) in
  let sorted := sortMissions goals missions in
  sorted ≡ₚ missions
  ∧ StronglySorted
      (λ a b, (indexOf order (category a) <= indexOf order (category b))%Z) sorted
  ∧ (∀ c, filter (λ m, category m = c) sorted = filter (λ m, category m = c) missions)
  ∧ sorted = filter (λ m, category m = nutrition) missions
             ++ filter (λ m, category m ≠ nutrition) sorted.
Proof.
  intros order sorted.
  split; [apply sortMissions_perm|]. split; [apply sortMissions_sorted|].
  split; [intros c; apply sortMissions_stable|].
  rewrite <- (sortMissions_stable goals nutrition missions). fold sorted.
  rewrite (sorted_least_first (λ m, indexOf order (category m)) (-1) sorted) at 1.
  - f_equal; apply list_filter_iff; intros m;
      destruct (indexOf_priority_nutrition (primaryGoal goals) (category m)) as [_ H];
      fold order in H; tauto.
  - apply sortMissions_sorted.
  - apply Forall_forall. intros m _.
    apply (indexOf_priority_nutrition (primaryGoal goals) (category m)).
Qed.

(** X8. [prioritizeMissions] only selects: its result holds every mission
    at most as often as the input does, so it is never longer than the
    input and holds no mission that was not passed in. *)
Theorem prioritizeMissions_selects missions baseline goals :
  prioritizeMissions missions baseline goals ⊆+ missions
  ∧ (length (prioritizeMissions missions baseline goals) <= length missions)%nat
  ∧ prioritizeMissions [] baseline goals = [].
Proof.
  assert (H : prioritizeMissions missions baseline goals ⊆+ missions).
  { unfold prioritizeMissions. destruct (Qgtb _ _); [|done].
    rewrite <- (sortMissions_perm goals missions) at 2.
    apply sublist_submseteq, keepWithin_sublist. }
  split; [done|]. split; [by apply submseteq_length|].
  unfold prioritizeMissions. by destruct (Qgtb _ _).
Qed.


(** *** The rules *)

Ltac split_rules :=
  unfold candidateMissions, pushIf;
  repeat match goal with
         | |- context [if ?c then _ else _] => destruct c eqn:?
         end.

Lemma sublist_map {A B} (f : A → B) (l1 l2 : list A) :
  l1 `sublist_of` l2 → map f l1 `sublist_of` map f l2.
Proof.
  induction 1; simpl; [constructor | by apply sublist_skip | by apply sublist_cons].
Qed.

(** A property of lists that sub-lists and rearrangements keep holds for
    the plan when it holds for the candidates. *)
Lemma generateMissions_NoDup {B} (f : DailyMission → B) baseline goals :
  NoDup (map f (candidateMissions baseline goals)) →
  NoDup (map f (generateMissions baseline goals)).
Proof.
  intros Hnd. unfold generateMissions, prioritizeMissions.
  destruct (Qgtb _ _); [|done].
  eapply sublist_NoDup; [|apply sublist_map, keepWithin_sublist].
  assert (Hp : map f (sortMissions goals (candidateMissions baseline goals))
               ≡ₚ map f (candidateMissions baseline goals))
    by apply Permutation_map, sortMissions_perm.
  by rewrite Hp.
Qed.

Lemma id_strengthMission baseline :
  id (strengthMission baseline) = "strength_001"
  ∨ id (strengthMission baseline) = "strength_002".
Proof. unfold strengthMission. destruct (_ || _); auto. Qed.

(** X9. The candidate list holds at most the strength, cardio, flexibility
    and recovery missions, in this order and each at most once; no two
    candidates, and no two missions of the plan returned, share a category
    or an id. *)
Theorem candidateMissions_shape baseline goals :
  candidateMissions baseline goals
  `sublist_of` [ strengthMission baseline; cardioMission baseline;
                 flexibilityMission; recoveryMission ]
  ∧ NoDup (map category (candidateMissions baseline goals))
  ∧ NoDup (map id (candidateMissions baseline goals))
  ∧ NoDup (map category (generateMissions baseline goals))
  ∧ NoDup (map id (generateMissions baseline goals)).
Proof.
  assert (Hsub : candidateMissions baseline goals
            `sublist_of` [ strengthMission baseline; cardioMission baseline;
                           flexibilityMission; recoveryMission ]).
  { split_rules; simpl;
      repeat first [ apply sublist_nil | apply sublist_skip | apply sublist_cons ]. }
  assert (Hcat : NoDup (map category [ strengthMission baseline; cardioMission baseline;
                                       flexibilityMission; recoveryMission ])).
  { cbn [map]. rewrite category_strengthMission. cbn.
    repeat (constructor; [rewrite ?elem_of_cons, ?elem_of_nil; intuition congruence|]).
    constructor. }
  assert (Hid : NoDup (map id [ strengthMission baseline; cardioMission baseline;
                                flexibilityMission; recoveryMission ])).
  { cbn [map]. destruct (id_strengthMission baseline) as [-> | ->]; cbn;
      repeat (constructor; [rewrite ?elem_of_cons, ?elem_of_nil; intuition congruence|]);
      constructor. }
  split; [done|].
  assert (Hc : NoDup (map category (candidateMissions baseline goals)))
    by (eapply sublist_NoDup; [exact Hcat | apply sublist_map, Hsub]).
  assert (Hi : NoDup (map id (candidateMissions baseline goals)))
    by (eapply sublist_NoDup; [exact Hid | apply sublist_map, Hsub]).
  split; [done|]. split; [done|].
  split; by apply generateMissions_NoDup.
Qed.

(** The missions of one category among the candidates. *)
Lemma candidateMissions_strength baseline goals :
  filter (λ m, category m = strength) (candidateMissions baseline goals)
  = if Qgtb (targetStrengthLevel goals - currentStrengthLevel baseline) 0
    then [strengthMission baseline] else [].
Proof.
  split_rules;
    rewrite ?filter_app, ?filter_cons, ?filter_nil, ?category_strengthMission;
    reflexivity.
Qed.

(** X10. A strength mission is a candidate exactly when the strength gap is
    positive.  With gym access or home equipment it is the training
    session of [min(0.7 * timeAvailable, 45)] minutes, easy for a beginner
    and medium otherwise, on the gym when there is gym access and on the
    home equipment otherwise; without either it is the bodyweight circuit
    of 20 minutes, easy, whatever the experience. *)
Theorem generateMissions_strength_rule baseline goals :
  let emitted :=
    filter (λ m, category m = strength) (candidateMissions baseline goals) in
  let gym := "gym_access" ∈ equipment baseline in
  let home := "home_equipment" ∈ equipment baseline in
  (length emitted = 1%nat
   ↔ (0 < targetStrengthLevel goals - currentStrengthLevel baseline)%Q)
  ∧ ((targetStrengthLevel goals - currentStrengthLevel baseline <= 0)%Q ↔ emitted = [])
  ∧ ∀ m, m ∈ emitted →
      (gym ∨ home →
         id m = "strength_001"
         ∧ estimatedTime m = Qmin (timeAvailable baseline * 0.7) 45
         ∧ (fitnessExperience baseline = beginner → difficulty m = easy)
         ∧ (fitnessExperience baseline ≠ beginner → difficulty m = medium)
         ∧ (gym → mission_equipment m = ["gym_access"])
         ∧ (¬ gym → mission_equipment m = ["home_equipment"])
         ∧ instructions m
           = getStrengthInstructions (fitnessExperience baseline) (equipment baseline))
      ∧ (¬ gym ∧ ¬ home →
           id m = "strength_002" ∧ estimatedTime m = 20%Q ∧ difficulty m = easy
           ∧ mission_equipment m = ["bodyweight_only"]).
Proof.
  intros emitted gym home. subst emitted. rewrite candidateMissions_strength.
  destruct (Qgtb _ 0) eqn:E.
  - apply Qgtb_true in E. split; [done|]. split.
    { split; [|discriminate]. intros Hle. destruct (Qlt_not_le _ _ E Hle). }
    intros m ->%list_elem_of_singleton. unfold strengthMission, includes.
    fold gym home. split.
    + intros Hor.
      assert (Hb : bool_decide gym || bool_decide home = true).
      { apply orb_true_iff. rewrite !bool_decide_eq_true. tauto. }
      rewrite Hb. cbn. split; [done|]. split; [done|].
      split; [intros ->; by rewrite bool_decide_eq_true_2|].
      split; [intros Hne; by rewrite bool_decide_eq_false_2|].
      split; [intros Hg; by rewrite bool_decide_eq_true_2|].
      split; [intros Hg; by rewrite bool_decide_eq_false_2 | done].
    + intros [Hg Hh].
      assert (Hb : bool_decide gym || bool_decide home = false).
      { apply orb_false_iff. rewrite !bool_decide_eq_false. tauto. }
      by rewrite Hb.
  - apply Qgtb_false in E. split.
    { split; [discriminate|]. intros Hlt. destruct (Qlt_not_le _ _ Hlt E). }
    split; [done|]. by intros m ?%elem_of_nil.
Qed.

(** The candidates in front of the recovery rule, and what the recovery
    rule adds to them. *)
Lemma candidateMissions_split baseline goals :
  ∃ front,
    candidateMissions baseline goals
    = front ++ (if bool_decide (fitnessExperience baseline = beginner)
                   || (1 <? Z.of_nat (length front))%Z
                then [recoveryMission] else [])
    ∧ Forall (λ m, category m ≠ recovery
                   ∧ (category m = flexibility → m = flexibilityMission)) front
    ∧ (flexibilityMission ∈ front
       ↔ Qgtb (targetFlexibilityLevel goals - currentFlexibilityLevel baseline) 0
         = true).
Proof.
  unfold candidateMissions, pushIf. cbv zeta.
  destruct (Qgtb (targetStrengthLevel goals - currentStrengthLevel baseline) 0),
    (Qgtb (targetEnduranceLevel goals - currentEnduranceLevel baseline) 0
     || bool_decide (primaryGoal goals = weight_loss)),
    (Qgtb (targetFlexibilityLevel goals - currentFlexibilityLevel baseline) 0);
    cbn [app];
    match goal with |- context [if _ then _ else ?l] => exists l end;
    (split; [by destruct (_ || _); rewrite ?app_nil_r|]);
    (split;
     [repeat (constructor; [rewrite ?category_strengthMission; by split|]); constructor|]);
    rewrite ?elem_of_cons, ?elem_of_nil;
    (split; [|auto; discriminate]);
    intros Hin; repeat destruct Hin as [Hin|Hin];
    first [ done
          | apply (f_equal category) in Hin;
            rewrite ?category_strengthMission in Hin; discriminate ].
Qed.

(** X11. The flexibility mission (15 minutes, easy) is a candidate exactly
    when the flexibility gap is positive.  The recovery mission (10
    minutes, easy) is a candidate exactly when the user is a beginner or at
    least two of the three other rules fired; it is then the last
    candidate. *)
Theorem generateMissions_flexibility_recovery_rules baseline goals :
  let candidates := candidateMissions baseline goals in
  let others := filter (λ m, category m ≠ recovery) candidates in
  (flexibilityMission ∈ candidates
   ↔ (0 < targetFlexibilityLevel goals - currentFlexibilityLevel baseline)%Q)
  ∧ (∀ m, m ∈ candidates → category m = flexibility → m = flexibilityMission)
  ∧ (recoveryMission ∈ candidates
     ↔ fitnessExperience baseline = beginner ∨ (2 <= length others)%nat)
  ∧ (∀ m, m ∈ candidates → category m = recovery → m = recoveryMission)
  ∧ (recoveryMission ∈ candidates → last candidates = Some recoveryMission)
  ∧ estimatedTime flexibilityMission = 15%Q ∧ difficulty flexibilityMission = easy
  ∧ estimatedTime recoveryMission = 10%Q ∧ difficulty recoveryMission = easy.
Proof.
  intros candidates others.
  destruct (candidateMissions_split baseline goals) as (front & Hcand & Hfront & Hflex).
  assert (Hnot : recoveryMission ∉ front).
  { intros Hin. by destruct (proj1 (Forall_forall _ _) Hfront _ Hin) as [Hne _]. }
  assert (Hothers : others = front).
  { subst others candidates. rewrite Hcand, filter_app.
    rewrite (filter_all _ front)
      by (eapply Forall_impl; [exact Hfront | by intros m [? _]]).
    destruct (_ || _); by rewrite ?app_nil_r. }
  rewrite Hothers. subst candidates. rewrite Hcand.
  set (cond := bool_decide (fitnessExperience baseline = beginner)
               || (1 <? Z.of_nat (length front))%Z).
  assert (Hcond : cond = true
            ↔ fitnessExperience baseline = beginner ∨ (2 <= length front)%nat).
  { unfold cond. rewrite orb_true_iff, bool_decide_eq_true, Z.ltb_lt.
    split; (intros [?|?]; [by left | right; lia]). }
  split; [|split; [|split; [|split; [|split; [|done]]]]].
  - rewrite <- Qgtb_true, <- Hflex, elem_of_app. split; [|tauto].
    intros [Hin|Hin]; [done|]. destruct cond; [|by apply elem_of_nil in Hin].
    by apply list_elem_of_singleton in Hin.
  - intros m [Hin|Hin]%elem_of_app Hcat.
    + by apply (proj1 (Forall_forall _ _) Hfront m Hin).
    + destruct cond; [|by apply elem_of_nil in Hin].
      apply list_elem_of_singleton in Hin. by subst m.
  - rewrite <- Hcond, elem_of_app. destruct cond.
    + split; [done|]. intros _. right. by left.
    + split; [|done]. intros [Hin|Hin]; [done | by apply elem_of_nil in Hin].
  - intros m [Hin|Hin]%elem_of_app Hcat.
    + by destruct (proj1 (Forall_forall _ _) Hfront m Hin) as [Hne _].
    + destruct cond; [|by apply elem_of_nil in Hin].
      by apply list_elem_of_singleton in Hin.
  - intros [Hin|Hin]%elem_of_app; [done|].
    destruct cond; [apply last_snoc | by apply elem_of_nil in Hin].
Qed.


(** *** The mission of the goal's first category *)

(** An element that is in front of every other one in key order heads the
    sorted list. *)
Lemma Array_sort_head {A} (key : A → Z) (m : A) (l : list A) :
  m ∈ l →
  (∀ y, y ∈ l → y = m ∨ (key m < key y)%Z) →
  ∃ rest, Array_sort (λ a b, (key a - key b)%Z) l = m :: rest.
Proof.
  induction l as [|x l IH]; intros Hin Hleast; [by apply elem_of_nil in Hin|].
  cbn [Array_sort].
  destruct (Hleast x (list_elem_of_here _ _)) as [->|Hlt].
  - destruct (Array_sort _ l) as [|y rest] eqn:E; [by exists []|].
    assert (Hy : y ∈ l).
    { rewrite <- (Array_sort_perm (λ a b, (key a - key b)%Z) l), E. by left. }
    cbn [sort_insert].
    destruct (Hleast y (list_elem_of_further _ _ _ Hy)) as [->|Hlt];
      (destruct (_ <=? _)%Z eqn:E'; [by eexists | apply Z.leb_gt in E'; lia]).
  - apply elem_of_cons in Hin as [->|Hin]; [lia|].
    destruct IH as [rest Hrest]; [done | by intros y Hy; apply Hleast; right|].
    rewrite Hrest. cbn [sort_insert].
    destruct (_ <=? _)%Z eqn:E'; [apply Z.leb_le in E'; lia | by eexists].
Qed.

Lemma indexOf_priority_head goal (first other : Category) :
  head (priorityOrder goal) = Some first →
  other ≠ first → other ≠ nutrition →
  indexOf (priorityOrder goal) first = 0%Z
  ∧ (0 < indexOf (priorityOrder goal) other)%Z.
Proof. destruct goal, first, other; vm_compute; intros; split; congruence. Qed.

Lemma runningTime_ge start missions :
  Forall (λ m, (0 <= estimatedTime m)%Q) missions →
  (start <= runningTime start missions)%Q.
Proof.
  intros Hall. revert start. induction Hall as [|x l Hx _ IH]; intros start.
  - apply Qle_refl.
  - cbn. eapply Qle_trans; [|apply IH].
    rewrite <- (Qplus_0_r start) at 1. by apply Qplus_le_r.
Qed.

Lemma time_le_running start missions m :
  Forall (λ m, (0 <= estimatedTime m)%Q) missions →
  (0 <= start)%Q → m ∈ missions →
  (estimatedTime m <= runningTime start missions)%Q.
Proof.
  intros Hall. revert start. induction Hall as [|x l Hx Hl IH]; intros start Hs Hin.
  - by apply elem_of_nil in Hin.
  - cbn. apply elem_of_cons in Hin as [->|Hin].
    + eapply Qle_trans; [|by apply runningTime_ge].
      rewrite <- (Qplus_0_l (estimatedTime x)) at 1. by apply Qplus_le_l.
    + apply IH; [|done].
      rewrite <- (Qplus_0_l 0). by apply Qplus_le_compat.
Qed.

Lemma candidateMissions_same_category baseline goals m y :
  m ∈ candidateMissions baseline goals → y ∈ candidateMissions baseline goals →
  category y = category m → y = m.
Proof.
  intros [ -> | [ -> | [ -> | -> ] ] ]%candidateMissions_cases
         [ -> | [ -> | [ -> | -> ] ] ]%candidateMissions_cases;
    rewrite ?category_strengthMission; done.
Qed.

Lemma candidateMissions_not_nutrition baseline goals m :
  m ∈ candidateMissions baseline goals → category m ≠ nutrition.
Proof.
  intros [ -> | [ -> | [ -> | -> ] ] ]%candidateMissions_cases;
    rewrite ?category_strengthMission; done.
Qed.

(** X12. For a baseline with no negative [timeAvailable]: the candidate of
    the category that heads the goal's priority list is in the plan exactly
    when its own estimated time is within [timeAvailable], whatever the
    other candidates are.  In particular, with weight loss or endurance as
    the primary goal an emitted cardio mission is always in the plan. *)
Theorem generateMissions_keeps_first_priority baseline goals :
  (0 <= timeAvailable baseline)%Q →
  (∀ m, m ∈ candidateMissions baseline goals →
        head (priorityOrder (primaryGoal goals)) = Some (category m) →
        (m ∈ generateMissions baseline goals
         ↔ (estimatedTime m <= timeAvailable baseline)%Q))
  ∧ (primaryGoal goals = weight_loss ∨ primaryGoal goals = endurance_goal →
     cardioMission baseline ∈ candidateMissions baseline goals →
     cardioMission baseline ∈ generateMissions baseline goals).
Proof.
  intros Hta.
  assert (Hfirst : ∀ m, m ∈ candidateMissions baseline goals →
            head (priorityOrder (primaryGoal goals)) = Some (category m) →
            (m ∈ generateMissions baseline goals
             ↔ (estimatedTime m <= timeAvailable baseline)%Q)).
  { intros m Hm Hhead. unfold generateMissions, prioritizeMissions.
    destruct (Qgtb _ _) eqn:E.
    - destruct (Array_sort_head
                  (λ x, indexOf (priorityOrder (primaryGoal goals)) (category x))
                  m (candidateMissions baseline goals) Hm) as [rest Hsorted].
      { intros y Hy. destruct (decide (category y = category m)) as [Heq|Hne].
        - left. by eapply candidateMissions_same_category.
        - right.
          destruct (indexOf_priority_head _ _ (category y) Hhead Hne
                      (candidateMissions_not_nutrition _ _ _ Hy)) as [-> ?].
          done. }
      unfold sortMissions, byPriority. rewrite Hsorted. cbn [keepWithin].
      assert (Hnd : NoDup (m :: rest)).
      { rewrite <- Hsorted.
        rewrite (Array_sort_perm _ (candidateMissions baseline goals)).
        eapply NoDup_fmap_1 with (f := category).
        assert (Hc : category <$> candidateMissions baseline goals
                     = map category (candidateMissions baseline goals)) by done.
        rewrite Hc. eapply sublist_NoDup; [|apply sublist_map].
        2: { unfold candidateMissions, pushIf.
             repeat match goal with
                    | |- context [if ?c then _ else _] => destruct c
                    end; simpl;
               repeat first [ apply sublist_nil | apply sublist_skip
                            | apply sublist_cons ]. }
        cbn [map]. rewrite category_strengthMission. cbn.
        repeat (constructor; [rewrite ?elem_of_cons, ?elem_of_nil; intuition congruence|]).
        constructor. }
      apply NoDup_cons in Hnd as [Hnotin _].
      destruct (Qle_bool (0 + estimatedTime m) (timeAvailable baseline)) eqn:Efit.
      + apply Qle_bool_iff in Efit. rewrite Qplus_0_l in Efit.
        split; [done|]. intros _. by left.
      + split.
        * intros Hin. destruct Hnotin.
          eapply elem_of_sublist; [exact Hin | apply keepWithin_sublist].
        * intros Hle. rewrite <- (Qplus_0_l (estimatedTime m)) in Hle.
          apply Qle_bool_iff in Hle. congruence.
    - split; [|done]. intros _. apply Qgtb_false in E.
      eapply Qle_trans; [|exact E]. rewrite totalTime_running.
      apply time_le_running; [|done|done].
      apply Forall_forall. intros x Hx. by eapply candidateMissions_time_nonneg. }
  split; [exact Hfirst|].
  intros Hgoal Hcardio. apply Hfirst; [done| |].
  - by destruct Hgoal as [-> | ->].
  - cbn [cardioMission estimatedTime].
    eapply Qle_trans; [apply Q.le_min_l|].
    rewrite Qmult_comm.
    eapply Qle_trans; [apply (Qmult_le_compat_r _ 1); [done | exact Hta]|].
    rewrite Qmult_1_l. apply Qle_refl.
Qed.

Lemma generateMissions_keeps_first_priority_witness :
  (0 <= timeAvailable exampleBaseline)%Q
  ∧ cardioMission exampleBaseline ∈ generateMissions exampleBaseline exampleGoals.
Proof.
  assert (H : (0 <= timeAvailable exampleBaseline)%Q).
  { apply Qle_bool_iff. vm_compute. reflexivity. }
  split; [exact H|].
  apply (proj2 (generateMissions_keeps_first_priority exampleBaseline exampleGoals H)).
  - left. reflexivity.
  - right. left.
Defined.

End GeneratorProps.

(** * Further properties of the gamified app *)

Module ReportProps.

Import HealthVitalityApp HealthVitalityReport Examples Examples.Ledger LedgerProps.

Local Open Scope Z_scope.

(** *** Survey processing *)

Section SurveyFacts.

Variable StringToNumber : string -> jsnum.

(** X13. When a question id is answered more than once, the last answer is
    the one in the response map; an id that no response carries is not in
    the map. *)
Theorem responseMap_last_wins responses (key : string) :
  responseMap responses !! key
  = value <$> last (filter (λ r, questionId r = key) responses).
Proof.
  induction responses as [|r responses IH] using rev_ind; [done|].
  rewrite responseMap_snoc, filter_app, filter_cons, filter_nil, lookup_insert.
  destruct (decide (questionId r = key)) as [Heq|Hne].
  - by rewrite last_snoc.
  - by rewrite app_nil_r.
Qed.


Lemma numberOr_not_NaN (m : gmap string Value) key fallback :
  numberOr StringToNumber m key fallback ≠ JNaN.
Proof.
  unfold numberOr, js_or.
  destruct (js_truthy (Number StringToNumber (m !! key))) eqn:E; [|done].
  intros H. by rewrite H in E.
Qed.

Lemma numberOr_truthy (m : gmap string Value) key fallback :
  ¬ (fallback == 0)%Q → js_truthy (numberOr StringToNumber m key fallback) = true.
Proof.
  intros Hne. unfold numberOr, js_or.
  destruct (js_truthy (Number StringToNumber (m !! key))) eqn:E; [done|].
  cbn. apply negb_true_iff, not_true_iff_false. by intros E'%Qeq_bool_iff.
Qed.

(** X14. Whatever the responses, no number of the baseline that
    [processSurveyResponses] returns is NaN, and the eight fields with
    fallback 1 are never 0 either: a comparison with them never fails for
    lack of a number.  The list of current challenges is always empty. *)
Theorem processSurveyResponses_numbers userId responses :
  let b := processSurveyResponses StringToNumber userId responses in
  Forall (λ n, n ≠ JNaN)
    [ energyLevel b; physicalFitness b; strength b; flexibility b; weight b; height b;
      nutritionQuality b; hydration b; sleepQuality b; stressManagement b ]
  ∧ Forall (λ n, js_truthy n = true)
      [ energyLevel b; physicalFitness b; strength b; flexibility b;
        nutritionQuality b; hydration b; sleepQuality b; stressManagement b ]
  ∧ currentChallenges b = [].
Proof.
  cbv zeta. unfold processSurveyResponses. cbn.
  split; [|split; [|done]].
  - repeat (constructor; [apply numberOr_not_NaN|]). constructor.
  - repeat (constructor; [by apply numberOr_truthy|]). constructor.
Qed.



End SurveyFacts.


(** *** The user store *)

(** X16. [createUser] stores the new user under the generated id, where
    [getUser] finds it: at level 1 with no experience, 100 coins and empty
    lists, with the baseline and goals of the responses.  A user already
    stored under that id is replaced; every other user and the achievements
    are left as they were. *)
Theorem createUser_getUser S2N app userId name responses now :
  let app' := (createUser S2N app userId name responses now).1 in
  let user := (createUser S2N app userId name responses now).2 in
  getUser app' userId = Some user
  ∧ user_id user = userId
  ∧ progress user
    = {| level := 1; xp := 0; coins := 100; streaks := ∅; completedMissions := [];
         unlockedAchievements := []; lastActive := now |}
  ∧ baseline user = processSurveyResponses S2N userId responses
  ∧ goals user = processGoals S2N responses
  ∧ surveyResponses user = responses
  ∧ (∀ other, other ≠ userId → getUser app' other = getUser app other)
  ∧ achievements app' = achievements app.
Proof.
  cbv zeta. unfold getUser. cbn.
  split; [apply lookup_insert_eq|]. repeat (split; [done|]).
  split; [|done]. intros other Hne. by apply lookup_insert_ne.
Qed.

(** The scan of the achievements touches the experience and the unlocked
    list only. *)
Lemma checkAchievement_frame now st a :
  sameButRewards (scan_user st) (scan_user (checkAchievement now st a)).
Proof.
  unfold checkAchievement, sameButRewards.
  destruct (includes _ _); [by repeat split|].
  destruct (forallb _ _); cbn; by repeat split.
Qed.

Lemma sameButRewards_trans u1 u2 u3 :
  sameButRewards u1 u2 → sameButRewards u2 u3 → sameButRewards u1 u3.
Proof.
  unfold sameButRewards. intros H1 H2. destruct_and!.
  repeat split; congruence.
Qed.

Lemma checkAchievements_frame all user now :
  sameButRewards user (scan_user (checkAchievements all user now)).
Proof.
  unfold checkAchievements.
  change user with (scan_user {| scan_user := user; scan_visited := [];
                                 scan_new := [] |}) at 1.
  generalize {| scan_user := user; scan_visited := []; scan_new := [] |}.
  induction all as [|a all IH]; intros st; cbn [fold_left].
  - unfold sameButRewards. by repeat split.
  - eapply sameButRewards_trans; [apply checkAchievement_frame | apply IH].
Qed.

Lemma checkAchievements_visited_length all user now :
  length (scan_visited (checkAchievements all user now)) = length all.
Proof.
  destruct (checkAchievements_spec all user now) as [_ _ _ _ _ _ Hvis _ _ _].
  cbn in Hvis. apply (f_equal length) in Hvis. by rewrite !List.length_map in Hvis.
Qed.

(** X17. [completeMission] for a stored user changes this user and no
    other.  Of the user it leaves id, name, baseline, goals, responses,
    creation time and streaks alone; it appends the mission id to the
    completed missions, whatever the id is and whether or not it was
    completed before; it stamps [lastActive] and [updatedAt]; the level
    stays or goes up by one.  The app keeps as many achievements. *)
Theorem completeMission_frame app userId user missionId now :
  getUser app userId = Some user →
  let app' := (completeMission app userId missionId now).1 in
  (completeMission app userId missionId now).2 = true
  ∧ (∀ other, other ≠ userId → getUser app' other = getUser app other)
  ∧ length (achievements app') = length (achievements app)
  ∧ missionTemplates app' = missionTemplates app
  ∧ ∃ user',
      getUser app' userId = Some user'
      ∧ user_id user' = user_id user ∧ name user' = name user
      ∧ baseline user' = baseline user ∧ goals user' = goals user
      ∧ surveyResponses user' = surveyResponses user
      ∧ createdAt user' = createdAt user
      ∧ streaks (progress user') = streaks (progress user)
      ∧ completedMissions (progress user')
        = completedMissions (progress user) ++ [missionId]
      ∧ lastActive (progress user') = now
      ∧ updatedAt user' = now
      ∧ level (progress user) <= level (progress user') <= level (progress user) + 1.
Proof.
  intros Huser app'. subst app'. unfold completeMission.
  split; [by rewrite (completeMission_trace_some _ _ _ _ _ Huser)|].
  split; [intros other Hne; by apply completeMission_others|].
  rewrite (completeMission_trace_some _ _ _ _ _ Huser). cbv zeta. cbn [fst snd].
  set (leveled := (checkLevelUp (awardCompletion user missionId now)).1).
  assert (Hframe := checkAchievements_frame (achievements app) leveled now).
  set (scan := checkAchievements (achievements app) leveled now) in *.
  cbn [achievements missionTemplates].
  split; [apply checkAchievements_visited_length|]. split; [done|].
  exists (set_updatedAt (scan_user scan) now).
  split; [apply lookup_insert_eq|].
  unfold sameButRewards in Hframe. destruct_and!.
  assert (Hlev : leveled = (checkLevelUp (awardCompletion user missionId now)).1)
    by done.
  clearbody leveled.
  assert (Hup : level (progress user) <= level (progress leveled)
                <= level (progress user) + 1).
  { rewrite Hlev. unfold checkLevelUp. destruct (_ <=? _); cbn; lia. }
  cbn [set_updatedAt user_id name baseline goals surveyResponses createdAt
       updatedAt progress].
  repeat match goal with H : _ (scan_user scan) = _ |- _ => rewrite H; clear H end.
  repeat match goal with
         | H : _ (progress (scan_user scan)) = _ |- _ => rewrite H; clear H
         end.
  rewrite Hlev. unfold checkLevelUp. destruct (_ <=? _); cbn; repeat split; lia.
Qed.

Lemma completeMission_frame_witness :
  getUser exampleApp "user_1"
  = Some (createUser decimalStringToNumber newApp "user_1" "Alex Smith"
            exampleResponses 0).2
  ∧ (completeMission exampleApp "user_1" "energy_0" 5).2 = true.
Proof.
  assert (H : getUser exampleApp "user_1"
              = Some (createUser decimalStringToNumber newApp "user_1" "Alex Smith"
                        exampleResponses 0).2)
    by (vm_compute; reflexivity).
  split; [exact H|].
  exact (proj1 (completeMission_frame exampleApp "user_1" _ "energy_0" 5 H)).
Defined.

(** *** The achievements of the reachable states *)

Lemma checkAchievement_skip now st a :
  includes (unlockedAchievements (progress (scan_user st))) (ach_id a) = true →
  checkAchievement now st a
  = {| scan_user := scan_user st;
       scan_visited := scan_visited st ++ [a];
       scan_new := scan_new st |}.
Proof. intros H. unfold checkAchievement. by rewrite H. Qed.

Lemma checkAchievement_unlock now st a :
  includes (unlockedAchievements (progress (scan_user st))) (ach_id a) = false →
  forallb (requirementHolds (scan_user st)) (requirements a) = true →
  checkAchievement now st a
  = {| scan_user := unlock (scan_user st) a;
       scan_visited := scan_visited st ++ [stampUnlocked a now];
       scan_new := scan_new st ++ [stampUnlocked a now] |}.
Proof. intros H1 H2. unfold checkAchievement. by rewrite H1, H2. Qed.

Lemma checkAchievement_refuse now st a :
  includes (unlockedAchievements (progress (scan_user st))) (ach_id a) = false →
  forallb (requirementHolds (scan_user st)) (requirements a) = false →
  checkAchievement now st a
  = {| scan_user := scan_user st;
       scan_visited := scan_visited st ++ [a];
       scan_new := scan_new st |}.
Proof. intros H1 H2. unfold checkAchievement. by rewrite H1, H2. Qed.

(** The table of the app: the four achievements of [initializeAchievements],
    whatever their stamps. *)
Lemma achievements_table all :
  map clearStamp all = initializeAchievements →
  ∃ a1 a2 a3 a4,
    all = [a1; a2; a3; a4]
    ∧ map ach_id all = ["first_mission"; "week_warrior"; "fitness_fanatic"; "level_10"]
    ∧ map ach_xpReward all = [50; 200; 300; 500]
    ∧ map requirements all = map requirements initializeAchievements.
Proof.
  intros Hall.
  assert (Hlen : length all = 4%nat)
    by (apply (f_equal length) in Hall; by rewrite List.length_map in Hall).
  destruct all as [|a1 [|a2 [|a3 [|a4 [|]]]]]; try discriminate.
  exists a1, a2, a3, a4. split; [done|].
  assert (H1 := f_equal (map ach_id) Hall).
  assert (H2 := f_equal (map ach_xpReward) Hall).
  assert (H3 := f_equal (map requirements) Hall).
  by repeat split.
Qed.

(** The scan for a user who has completed a mission and has nothing
    unlocked yet. *)
Lemma scan_first all user now :
  map clearStamp all = initializeAchievements →
  unlockedAchievements (progress user) = [] →
  completedMissions (progress user) ≠ [] →
  streaks (progress user) = ∅ →
  ∃ a1 a2 a3 a4,
    all = [a1; a2; a3; a4]
    ∧ checkAchievements all user now
      = {| scan_user := unlock (unlock (unlock user a1) a3) a4;
           scan_visited :=
             [stampUnlocked a1 now; a2; stampUnlocked a3 now; stampUnlocked a4 now];
           scan_new :=
             [stampUnlocked a1 now; stampUnlocked a3 now; stampUnlocked a4 now] |}
    ∧ map ach_id all = ["first_mission"; "week_warrior"; "fitness_fanatic"; "level_10"]
    ∧ map ach_xpReward all = [50; 200; 300; 500].
Proof.
  intros Hall Hunl Hcompl Hstreaks.
  destruct (achievements_table all Hall) as (a1 & a2 & a3 & a4 & -> & Hids & Hxps & Hreqs).
  exists a1, a2, a3, a4. split; [done|]. split; [|done].
  injection Hids as Hid1 Hid2 Hid3 Hid4.
  injection Hreqs as Hr1 Hr2 Hr3 Hr4.
  unfold checkAchievements. cbn [fold_left].
  rewrite (checkAchievement_unlock now _ a1); cbn [scan_user scan_visited scan_new].
  - rewrite (checkAchievement_refuse now _ a2); cbn [scan_user scan_visited scan_new].
    + rewrite (checkAchievement_unlock now _ a3); cbn [scan_user scan_visited scan_new].
      * rewrite (checkAchievement_unlock now _ a4);
          cbn [scan_user scan_visited scan_new]; [done| |by rewrite Hr4].
        cbn. rewrite Hunl, Hid1, Hid3, Hid4. by vm_compute.
      * cbn. rewrite Hunl, Hid1, Hid3. by vm_compute.
      * by rewrite Hr3.
    + cbn. rewrite Hunl, Hid1, Hid2. by vm_compute.
    + rewrite Hr2. cbn. by rewrite Hstreaks, lookup_empty.
  - rewrite Hunl, Hid1. by vm_compute.
  - rewrite Hr1. cbn. rewrite andb_true_r. apply negb_true_iff, Z.ltb_ge.
    destruct (completedMissions (progress user)); [done | simpl; lia].
Qed.

(** The scan for a user who has the three achievements: nothing happens. *)
Lemma scan_later all user now :
  map clearStamp all = initializeAchievements →
  unlockedAchievements (progress user)
  = ["first_mission"; "fitness_fanatic"; "level_10"] →
  streaks (progress user) = ∅ →
  checkAchievements all user now
  = {| scan_user := user; scan_visited := all; scan_new := [] |}.
Proof.
  intros Hall Hunl Hstreaks.
  destruct (achievements_table all Hall) as (a1 & a2 & a3 & a4 & -> & Hids & Hxps & Hreqs).
  injection Hids as Hid1 Hid2 Hid3 Hid4.
  injection Hreqs as Hr1 Hr2 Hr3 Hr4.
  unfold checkAchievements. cbn [fold_left].
  rewrite (checkAchievement_skip now _ a1); cbn [scan_user scan_visited scan_new].
  - rewrite (checkAchievement_refuse now _ a2); cbn [scan_user scan_visited scan_new].
    + rewrite (checkAchievement_skip now _ a3); cbn [scan_user scan_visited scan_new].
      * rewrite (checkAchievement_skip now _ a4);
          cbn [scan_user scan_visited scan_new]; [done|].
        rewrite Hunl, Hid4. by vm_compute.
      * rewrite Hunl, Hid3. by vm_compute.
    + rewrite Hunl, Hid2. by vm_compute.
    + rewrite Hr2. cbn. by rewrite Hstreaks, lookup_empty.
  - rewrite Hunl, Hid1. by vm_compute.
Qed.

(** Both invariants, for every stored user. *)
Lemma reachable_ledger S2N app :
  reachable S2N app →
  stampsInv app ∧ ∀ userId user, getUser app userId = Some user → ledgerInv user.
Proof.
  induction 1 as [|app userId name responses now _ [Hst IH]
                  |app userId missionId now _ [Hst IH]].
  - split.
    + split; [done|]. intros a Ha Hid.
      repeat (apply elem_of_cons in Ha as [->|Ha]; [by try discriminate|]).
      by apply elem_of_nil in Ha.
    + intros userId user. unfold getUser. cbn. by rewrite lookup_empty.
  - split; [done|]. intros other u. unfold getUser. cbn. rewrite lookup_insert.
    destruct (decide (userId = other)) as [->|Hne]; [|apply IH].
    intros [= <-]. unfold ledgerInv. cbn. repeat split; try done; lia.
  - unfold completeMission.
    destruct (getUser app userId) as [user|] eqn:Huser;
      [|unfold completeMission_trace; by rewrite Huser].
    rewrite (completeMission_trace_some _ _ _ _ _ Huser). cbv zeta. cbn [fst].
    destruct Hst as [Hall Hweek].
    destruct (IH _ _ Huser) as (Hstreaks & Hzero & Hpos & Hone).
    set (awarded := awardCompletion user missionId now).
    set (n := Z.of_nat (length (completedMissions (progress user)))) in *.
    assert (Hn : 0 <= n) by (subst n; lia).
    assert (Hlen : Z.of_nat (length (completedMissions (progress user) ++ [missionId]))
                   = n + 1) by (rewrite length_app; subst n; simpl; lia).
    destruct (decide (n = 0)) as [Hn0|Hn0].
    + destruct (Hzero Hn0) as (Hlevel & Hxp & Hcoins & Hunl).
      assert (Hup : (checkLevelUp awarded).1 = awarded).
      { unfold checkLevelUp. subst awarded. cbn. by rewrite Hlevel, Hxp. }
      rewrite Hup.
      destruct (scan_first (achievements app) awarded now Hall)
        as (a1 & a2 & a3 & a4 & Hach & Hscan & Hids & Hxps); try done.
      { subst awarded. cbn. by intros ?%app_eq_nil%proj2. }
      rewrite Hscan. cbn [scan_user scan_visited].
      rewrite Hach in Hids, Hxps, Hweek.
      injection Hids as Hid1 Hid2 Hid3 Hid4.
      injection Hxps as Hx1 Hx2 Hx3 Hx4.
      split.
      * split; [cbn [achievements]; rewrite <- Hall, Hach; done|].
        cbn [achievements]. intros a Ha Hid.
        repeat (apply elem_of_cons in Ha as [->|Ha];
                [first [ by cbn in Hid; congruence
                       | apply Hweek; [rewrite !elem_of_cons; tauto | done] ]|]).
        by apply elem_of_nil in Ha.
      * intros other u. unfold getUser. cbn [users]. rewrite lookup_insert.
        destruct (decide (userId = other)) as [->|Hne]; [|apply IH].
        intros [= <-]. unfold ledgerInv. subst awarded.
        cbn [set_updatedAt unlock awardCompletion set_progress progress streaks
             completedMissions unlockedAchievements level xp coins].
        rewrite Hlen, Hunl, Hlevel, Hxp, Hcoins, Hid1, Hid3, Hid4, Hx1, Hx3, Hx4.
        repeat split; try done; lia.
    + assert (Hnpos : 0 < n) by lia.
      destruct (Hpos Hnpos) as (Hunl & Hxp & Hlevel & Hcoins).
      set (leveled := (checkLevelUp awarded).1).
      assert (Hl : unlockedAchievements (progress leveled)
                   = ["first_mission"; "fitness_fanatic"; "level_10"]
                 ∧ streaks (progress leveled) = ∅
                 ∧ completedMissions (progress leveled)
                   = completedMissions (progress user) ++ [missionId]
                 ∧ xp (progress leveled) = 850 + 20 * (n + 1)
                 ∧ 1 <= level (progress leveled) <= n + 1
                 ∧ 100 + 10 * (n + 1) <= coins (progress leveled)).
      { subst leveled awarded. unfold checkLevelUp.
        destruct (_ <=? _); cbn; rewrite ?Hunl, ?Hxp;
          repeat split; try done; try lia; nia. }
      destruct Hl as (Hunl' & Hstreaks' & Hcompl' & Hxp' & Hlevel' & Hcoins').
      rewrite (scan_later (achievements app) leveled now Hall Hunl' Hstreaks').
      cbn [scan_user scan_visited]. split; [done|].
      intros other u. unfold getUser. cbn [users]. rewrite lookup_insert.
      destruct (decide (userId = other)) as [->|Hne]; [|apply IH].
      intros [= <-]. unfold ledgerInv.
      cbn [set_updatedAt progress].
      rewrite Hcompl', Hlen, Hunl', Hstreaks', Hxp'.
      repeat split; try done; lia.
Qed.



(** What a completion does to the achievements of the app and which new
    achievements it finds. *)
Lemma completeMission_stamps S2N app userId user missionId now :
  reachable S2N app →
  getUser app userId = Some user →
  let result := completeMission_trace app userId missionId now in
  (completedMissions (progress user) = [] →
     ∃ a1 a2 a3 a4,
       achievements app = [a1; a2; a3; a4]
       ∧ achievements result.1.1
         = [stampUnlocked a1 now; a2; stampUnlocked a3 now; stampUnlocked a4 now]
       ∧ result.2 = [stampUnlocked a1 now; stampUnlocked a3 now; stampUnlocked a4 now])
  ∧ (completedMissions (progress user) ≠ [] →
       achievements result.1.1 = achievements app ∧ result.2 = []).
Proof.
  intros Hreach Huser result. subst result.
  destruct (reachable_ledger _ _ Hreach) as [[Hall Hweek] Husers].
  destruct (Husers _ _ Huser) as (Hstreaks & Hzero & Hpos & _).
  rewrite (completeMission_trace_some _ _ _ _ _ Huser). cbv zeta. cbn [fst snd achievements].
  set (awarded := awardCompletion user missionId now).
  split.
  - intros Hnil. destruct Hzero as (Hlevel & Hxp & Hcoins & Hunl); [by rewrite Hnil|].
    assert (Hup : (checkLevelUp awarded).1 = awarded).
    { unfold checkLevelUp. subst awarded. cbn. by rewrite Hlevel, Hxp. }
    rewrite Hup.
    destruct (scan_first (achievements app) awarded now Hall)
      as (a1 & a2 & a3 & a4 & Hach & Hscan & _); try done.
    { subst awarded. cbn. by intros ?%app_eq_nil%proj2. }
    exists a1, a2, a3, a4. by rewrite Hscan.
  - intros Hne.
    destruct Hpos as (Hunl & _);
      [destruct (completedMissions (progress user)); [done | simpl; lia]|].
    rewrite (scan_later (achievements app) _ now Hall); [done| |].
    + by rewrite checkLevelUp_unlocked.
    + subst awarded. unfold checkLevelUp. by destruct (_ <=? _).
Qed.

(** X19. The unlock stamps belong to the app, not to the user.  The first
    completion of any user stamps [first_mission], [fitness_fanatic] and
    [level_10] with the time of that call, over whatever stamp another
    user's first completion had left; later completions leave the
    achievements of the app as they are; [week_warrior] never gets a
    stamp. *)
Theorem unlock_stamps_shared S2N app userId user missionId now :
  reachable S2N app →
  getUser app userId = Some user →
  let app' := (completeMission app userId missionId now).1 in
  (completedMissions (progress user) = [] →
     ∀ a, a ∈ achievements app' → ach_id a ≠ "week_warrior" → unlockedAt a = Some now)
  ∧ (completedMissions (progress user) ≠ [] → achievements app' = achievements app)
  ∧ (∀ a, a ∈ achievements app' → ach_id a = "week_warrior" → unlockedAt a = None).
Proof.
  intros Hreach Huser app'.
  destruct (completeMission_stamps S2N app userId user missionId now Hreach Huser)
    as [Hfirst Hlater].
  assert (Hweek := proj2 (proj1 (reachable_ledger _ _
                    (reachable_completeMission S2N app userId missionId now Hreach)))).
  fold app' in Hweek. unfold completeMission in app'.
  split; [|split; [|done]].
  - intros Hnil a Ha Hid.
    destruct (Hfirst Hnil) as (a1 & a2 & a3 & a4 & Hach & Hach' & _).
    subst app'. rewrite Hach' in Ha, Hweek.
    repeat (apply elem_of_cons in Ha as [->|Ha]; [try done|]).
    + destruct Hid. 
      destruct (achievements_table _ (proj1 (proj1 (reachable_ledger _ _ Hreach))))
        as (b1 & b2 & b3 & b4 & Hb & Hids & _).
      rewrite Hach in Hids. by injection Hids as _ -> _ _.
    + by apply elem_of_nil in Ha.
  - intros Hne. by destruct (Hlater Hne).
Qed.

Lemma unlock_stamps_shared_witness :
  reachable decimalStringToNumber exampleApp
  ∧ Forall (λ a, ach_id a ≠ "week_warrior" → unlockedAt a = Some 5)
      (achievements (completeMission exampleApp "user_1" "energy_0" 5).1).
Proof.
  assert (Hreach : reachable decimalStringToNumber exampleApp)
    by (apply reachable_createUser, reachable_new).
  split; [exact Hreach|]. apply Forall_forall.
  refine (proj1 (unlock_stamps_shared decimalStringToNumber exampleApp "user_1"
                   (createUser decimalStringToNumber newApp "user_1" "Alex Smith"
                      exampleResponses 0).2 "energy_0" 5 Hreach _) _).
  - vm_compute. reflexivity.
  - reflexivity.
Defined.

(** *** The progress report and the API *)

Lemma List_filter_sublist {A} (f : A → bool) (l : list A) :
  List.filter f l `sublist_of` l.
Proof.
  induction l as [|x l IH]; simpl; [constructor|].
  destruct (f x); [by apply sublist_skip | by apply sublist_cons].
Qed.

Lemma lastThree_length {A} (l : list A) : (length (lastThree l) <= 3)%nat.
Proof. unfold lastThree. rewrite length_drop. lia. Qed.

(** X20. [getProgressReport] gives nothing exactly for an unknown user.  For
    a stored user the report shows level, experience and coins of the
    store, the numbers of completed missions and of unlocked achievements,
    the whole days since the user was created, and at most three recent
    achievements: the last of the app's achievements that the user has
    unlocked, in the order of the app. *)
Theorem getProgressReport_shows app userId now :
  (getProgressReport app userId now = None ↔ getUser app userId = None)
  ∧ ∀ user, getUser app userId = Some user →
      ∃ report,
        getProgressReport app userId now = Some report
        ∧ report_name report = name user
        ∧ report_level report = level (progress user)
        ∧ report_xp report = xp (progress user)
        ∧ report_coins report = coins (progress user)
        ∧ totalMissionsCompleted report = length (completedMissions (progress user))
        ∧ achievementsUnlocked report = length (unlockedAchievements (progress user))
        ∧ currentStreaks report = streaks (progress user)
        ∧ daysSinceStart report * 86400000 <= now - createdAt user
          < (daysSinceStart report + 1) * 86400000
        ∧ (length (recentAchievements report) <= 3)%nat
        ∧ recentAchievements report `sublist_of` achievements app
        ∧ (∀ a, a ∈ recentAchievements report →
                ach_id a ∈ unlockedAchievements (progress user)).
Proof.
  unfold getProgressReport. split.
  - by destruct (getUser app userId).
  - intros user ->. eexists. split; [done|]. cbn.
    repeat (split; [done|]).
    split; [|split; [apply lastThree_length|split]].
    + change (1000 * 60 * 60 * 24) with 86400000.
      pose proof (Z.div_mod (now - createdAt user) 86400000 ltac:(lia)).
      pose proof (Z.mod_pos_bound (now - createdAt user) 86400000 ltac:(lia)). lia.
    + unfold lastThree. etrans; [apply sublist_drop | apply List_filter_sublist].
    + intros a Ha. unfold lastThree in Ha.
      assert (Ha' := elem_of_sublist _ _ _ Ha (sublist_drop _ _)).
      apply list_elem_of_In, filter_In in Ha' as [_ Hinc].
      by apply includes_true.
Qed.

(** X21. [completeMissionAPI] throws exactly for an unknown user.  For a
    stored user (in a state the app can reach) it leaves the app as
    [completeMission] does and returns a success whose report counts one
    more completed mission; its [newAchievements] is always empty, also for
    the first completion of a user, in which three achievements are
    unlocked. *)
Theorem completeMissionAPI_reports S2N app userId missionId now :
  reachable S2N app →
  ((∃ message, (completeMissionAPI app userId missionId now).2 = Thrown message)
   ↔ getUser app userId = None)
  ∧ ∀ user, getUser app userId = Some user →
      ∃ result report,
        completeMissionAPI app userId missionId now
        = ((completeMission app userId missionId now).1, Returned result)
        ∧ success result = true
        ∧ newAchievements result = []
        ∧ newProgress result = Some report
        ∧ totalMissionsCompleted report
          = S (length (completedMissions (progress user)))
        ∧ (completedMissions (progress user) = [] →
             length (completeMission_trace app userId missionId now).2 = 3%nat
             ∧ achievementsUnlocked report = 3%nat
             ∧ report_xp report = 870).
Proof.
  intros Hreach. split.
  - unfold completeMissionAPI, completeMission, completeMission_trace.
    destruct (getUser app userId); cbn; split; try done; eauto.
    by intros [? ?].
  - intros user Huser.
    destruct (completeMission_user app userId user missionId now
                (reachable_inv _ _ Hreach) Huser)
      as (user' & Hget & Hok & _ & Hcompl & _).
    change (completeMission_trace app userId missionId now).1
      with (completeMission app userId missionId now) in Hget, Hok.
    destruct (getProgressReport (completeMission app userId missionId now).1
                userId now) as [report|] eqn:Hreport;
      [|unfold getProgressReport in Hreport; by rewrite Hget in Hreport].
    exists {| success := true; newProgress := Some report; newAchievements := [] |},
      report.
    split.
    { unfold completeMissionAPI.
      destruct (completeMission app userId missionId now) as [app' ok] eqn:E.
      cbn in Hok, Hreport. by rewrite Hok, Hreport. }
    unfold getProgressReport in Hreport. rewrite Hget in Hreport.
    injection Hreport as <-. cbn.
    repeat (split; [done|]). split.
    { rewrite Hcompl, length_app. simpl. lia. }
    intros Hnil.
    destruct (proj1 (completeMission_stamps S2N app userId user missionId now
                       Hreach Huser) Hnil) as (a1 & a2 & a3 & a4 & _ & _ & Hnew).
    split; [by rewrite Hnew|].
    assert (Hreach' := reachable_completeMission S2N app userId missionId now Hreach).
    destruct (proj2 (reachable_ledger _ _ Hreach') _ _ Hget) as (_ & _ & Hpos & _).
    rewrite Hcompl, Hnil in Hpos. cbn in Hpos.
    destruct (Hpos ltac:(lia)) as (Hunl' & Hxp' & _).
    by rewrite Hunl', Hxp'.
Qed.

Lemma completeMissionAPI_reports_witness :
  reachable decimalStringToNumber exampleApp
  ∧ ∃ result,
      (completeMissionAPI exampleApp "user_1" "energy_0" 5).2 = Returned result
      ∧ newAchievements result = [].
Proof.
  assert (Hreach : reachable decimalStringToNumber exampleApp)
    by (apply reachable_createUser, reachable_new).
  split; [exact Hreach|].
  destruct (proj2 (completeMissionAPI_reports decimalStringToNumber exampleApp
                     "user_1" "energy_0" 5 Hreach)
              (createUser decimalStringToNumber newApp "user_1" "Alex Smith"
                 exampleResponses 0).2)
    as (result & report & Hapi & _ & Hnew & _).
  - vm_compute. reflexivity.
  - exists result. split; [by rewrite Hapi | exact Hnew].
Defined.

(** *** Goal progress *)

Lemma Math_clamp_range x :
  match Math_min (JFin 100) (Math_max (JFin 0) x) with
  | JNaN => x = JNaN
  | JFin r => (0 <= r)%Q ∧ (r <= 100)%Q
  | JPosInf | JNegInf => False
  end.
Proof.
  destruct x as [| |q|]; cbn; try done.
  destruct (Qltb 0 q) eqn:E; cbn; [|done].
  apply QuestionnaireProps.Qltb_true in E.
  destruct (Qltb q 100) eqn:E'; cbn; [|done].
  apply QuestionnaireProps.Qltb_true in E'. split; by apply Qlt_le_weak.
Qed.

(** X22. [calculateGoalProgress] returns NaN or a percentage between 0 and
    100, and 100 whenever the target equals the baseline.  In the progress
    report the current value passed is the baseline itself, so for a
    baseline that is a finite number and a goal that is a number the goal
    progress reported is 100 when goal and baseline are equal and 0
    otherwise: it shows no partial progress. *)
Theorem goalProgress_never_moves app userId user :
  getUser app userId = Some user →
  (∀ b t c,
     match calculateGoalProgress b t c with
     | JNaN => True
     | JFin r => (0 <= r)%Q ∧ (r <= 100)%Q
     | JPosInf | JNegInf => False
     end)
  ∧ ∃ report,
      goalProgress app userId = Some report
      ∧ (∀ b, energyLevel (baseline user) = JFin b →
              threeMonths (goal_energyLevel (goals user)) ≠ JNaN →
              progress_energy report
              = if js_eqb (threeMonths (goal_energyLevel (goals user))) (JFin b)
                then JFin 100 else JFin 0)
      ∧ (∀ b, physicalFitness (baseline user) = JFin b →
              threeMonths (goal_physicalFitness (goals user)) ≠ JNaN →
              progress_fitness report
              = if js_eqb (threeMonths (goal_physicalFitness (goals user))) (JFin b)
                then JFin 100 else JFin 0).
Proof.
  intros Huser. split.
  - intros b t c. unfold calculateGoalProgress.
    destruct (js_eqb t b); [by cbn|].
    match goal with |- context [Math_max (JFin 0) ?x] =>
      pose proof (Math_clamp_range x) as H;
      destruct (Math_min (JFin 100) (Math_max (JFin 0) x)); done
    end.
  - unfold goalProgress. rewrite Huser. eexists. split; [done|]. cbn.
    assert (Hflat : ∀ b t, t ≠ JNaN →
              calculateGoalProgress (JFin b) t (JFin b)
              = if js_eqb t (JFin b) then JFin 100 else JFin 0).
    { intros b t Ht. unfold calculateGoalProgress.
      destruct (js_eqb t (JFin b)) eqn:E; [done|].
      assert (Hzero : (b - b == 0)%Q) by ring.
      destruct t as [| |q|]; try done; try (cbn; done).
      cbn in E. assert (Hne : Qeq_bool (q - b) 0 = false).
      { apply not_true_iff_false. intros H%Qeq_bool_iff.
        apply not_true_iff_false in E. apply E, Qeq_bool_iff.
        rewrite <- (Qplus_0_r b), <- H. ring. }
      assert (Hq : ((b - b) / (q - b) * 100 == 0)%Q).
      { rewrite Hzero. field. intros H%Qeq_bool_iff. congruence. }
      assert (Hlt : Qltb 0 ((b - b) / (q - b) * 100) = false).
      { apply QuestionnaireProps.Qltb_false. rewrite Hq. apply Qle_refl. }
      cbn [js_sub js_div]. rewrite Hne. cbn [js_mul Math_max js_ltb].
      rewrite Hlt. by vm_compute. }
    split; intros b Hb Ht; rewrite Hb; by apply Hflat.
Qed.

Lemma goalProgress_never_moves_witness :
  getUser exampleApp "user_1"
  = Some (createUser decimalStringToNumber newApp "user_1" "Alex Smith"
            exampleResponses 0).2
  ∧ ∃ report,
      goalProgress exampleApp "user_1" = Some report
      ∧ progress_energy report = JFin 0.
Proof.
  assert (H : getUser exampleApp "user_1"
              = Some (createUser decimalStringToNumber newApp "user_1" "Alex Smith"
                        exampleResponses 0).2)
    by (vm_compute; reflexivity).
  split; [exact H|].
  destruct (proj2 (goalProgress_never_moves exampleApp "user_1" _ H))
    as (report & Hreport & Henergy & _).
  exists report. split; [exact Hreport|].
  exact (Henergy 4%Q eq_refl ltac:(discriminate)).
Defined.

(** *** The missions of a day *)

(** What every mission of the gamified app looks like. *)
Lemma factory_missions user now r :
  let P (m : DailyMission) :=
    isCompleted m = false ∧ mission_type m = habit ∧ mission_streak m = None
    ∧ id m ∈ [ stamped "energy_" now; stamped "fitness_" now; stamped "nutrition_" now;
               stamped "sleep_" now; stamped "stress_" now; stamped "variety_" now ]
    ∧ 8 <= xpReward m <= 32 ∧ 4 <= coinReward m <= 16
    ∧ coinReward m < xpReward m
    ∧ 0 <= estimatedTime m <= 20 in
  P (createEnergyMission user now r) ∧ P (createFitnessMission user now r)
  ∧ P (createNutritionMission user now r) ∧ P (createSleepMission user now)
  ∧ P (createStressMission user now r) ∧ P (createVarietyMission user now r).
Proof.
  cbv zeta.
  unfold createEnergyMission, createFitnessMission, createNutritionMission,
    createSleepMission, createStressMission, createVarietyMission.
  cbn [isCompleted mission_type mission_streak id xpReward coinReward estimatedTime].
  rewrite !elem_of_cons.
  repeat match goal with
         | |- context [pick r ?x ?l] =>
             let H := fresh "Hpick" in
             pose proof (pick_elem r x l) as H;
             generalize dependent (pick r x l); intros ? H;
             repeat (apply elem_of_cons in H as [->|H]);
             [..|by apply elem_of_nil in H]
         end;
    cbn; repeat destruct (js_ltb _ _); cbn; repeat split; try tauto; lia.
Qed.

Lemma generateDailyMissions_Forall (P : DailyMission → Prop) app userId now rand :
  (∀ user r,
     P (createEnergyMission user now r) ∧ P (createFitnessMission user now r)
     ∧ P (createNutritionMission user now r) ∧ P (createSleepMission user now)
     ∧ P (createStressMission user now r) ∧ P (createVarietyMission user now r)) →
  Forall P (generateDailyMissions app userId now rand).
Proof.
  intros Hall. unfold generateDailyMissions.
  destruct (getUser app userId) as [user|]; [|constructor]. cbv zeta.
  apply Forall_forall. intros m Hm%slice0_subseteq. revert m Hm. apply Forall_forall.
  apply fillVariety_Forall; [intros r; apply Hall|].
  unfold ruleMissions. cbv zeta.
  apply pushDrawn_Forall; [intros r; apply Hall|].
  match goal with |- context [if ?c then _ else _] => destruct c end.
  - cbn [fst]. apply Forall_app. split; [|repeat constructor; apply (Hall user (rand O))].
    repeat (apply pushDrawn_Forall; [intros r; apply Hall|]). constructor.
  - repeat (apply pushDrawn_Forall; [intros r; apply Hall|]). constructor.
Qed.

(** X23. Every mission that [generateDailyMissions] returns is an
    uncompleted habit without a streak, carries the id of its factory with
    the time of the call, takes between 0 and 20 minutes and is worth
    between 8 and 32 experience points and between 4 and 16 coins, fewer
    coins than points. *)
Theorem generateDailyMissions_rewards app userId now rand :
  Forall
    (λ m, isCompleted m = false ∧ mission_type m = habit ∧ mission_streak m = None
          ∧ id m ∈ [ stamped "energy_" now; stamped "fitness_" now;
                     stamped "nutrition_" now; stamped "sleep_" now;
                     stamped "stress_" now; stamped "variety_" now ]
          ∧ 8 <= xpReward m <= 32 ∧ 4 <= coinReward m <= 16
          ∧ coinReward m < xpReward m
          ∧ 0 <= estimatedTime m <= 20)
    (generateDailyMissions app userId now rand).
Proof.
  apply generateDailyMissions_Forall. intros user r. apply factory_missions.
Qed.



End ReportProps.
